(** * IT Asset Management System: persistence and validation layer

    A shallow embedding of [src/app.py]: the credential store
    ([hash_password], [load_users], [save_users]), the record store
    ([init_storage], [load_assets], [save_assets]) and the pure parts of the
    pages that use them (the dashboard metrics, the registration checks and
    the management filter).

    The backing files, the Streamlit caches and the log are an explicit
    [world] that every operation threads through.  The pandas, numpy, json
    and hashlib calls the program makes are modelled by executable
    definitions; what each of them covers is said where it is defined. *)

From Stdlib Require Import ZArith List Bool Ascii String Lia Arith.
From Stdlib Require Import DecimalString DecimalPos.
Import ListNotations.

Local Open Scope string_scope.
Local Open Scope list_scope.

(** ** Python [str] operations

    A Python [str] is modelled by its UTF-8 bytes, as a Rocq [string].
    [strip], [lower] and the whitespace test act on the ASCII range, which is
    where they agree with Python on every byte string; a non-ASCII letter or
    space is left alone. *)

Module Str.

Definition chars (s : string) : list ascii := list_ascii_of_string s.
Definition of_chars (l : list ascii) : string := string_of_list_ascii l.

(** [str.isspace] on one ASCII character: TAB, LF, VT, FF, CR, the four
    separators 0x1c-0x1f, and the space. *)
Definition is_space (c : ascii) : bool :=
  let n := nat_of_ascii c in
  (((9 <=? n) && (n <=? 13)) || ((28 <=? n) && (n <=? 31)) || (n =? 32))%nat.

Fixpoint lstrip (s : string) : string :=
  match s with
  | EmptyString => EmptyString
  | String c s' => if is_space c then lstrip s' else s
  end.

(** What is left of [s] once its trailing spaces are gone. *)
Fixpoint rstrip (s : string) : string :=
  match s with
  | EmptyString => EmptyString
  | String c s' =>
      match rstrip s' with
      | EmptyString => if is_space c then EmptyString else String c EmptyString
      | r => String c r
      end
  end.

(** [s.strip()] *)
Definition strip (s : string) : string := rstrip (lstrip s).

Definition lower_char (c : ascii) : ascii :=
  let n := nat_of_ascii c in
  if ((65 <=? n) && (n <=? 90))%nat then ascii_of_nat (n + 32) else c.

(** [s.lower()] *)
Fixpoint lower (s : string) : string :=
  match s with
  | EmptyString => EmptyString
  | String c s' => String (lower_char c) (lower s')
  end.

Fixpoint starts_with (p s : string) : bool :=
  match p, s with
  | EmptyString, _ => true
  | String _ _, EmptyString => false
  | String a p', String b s' => Ascii.eqb a b && starts_with p' s'
  end.

(** [p in s] for two strings: [p] occurs somewhere in [s]. *)
Fixpoint contains (p s : string) : bool :=
  starts_with p s ||
  match s with
  | EmptyString => false
  | String _ s' => contains p s'
  end.

(** [sep.join(l)] *)
Fixpoint join (sep : string) (l : list string) : string :=
  match l with
  | [] => EmptyString
  | [x] => x
  | x :: rest => x ++ sep ++ join sep rest
  end.

(** Truthiness of a string: [bool(s)]. *)
Definition truthy (s : string) : bool :=
  match s with EmptyString => false | _ => true end.

Definition mem (s : string) (l : list string) : bool :=
  existsb (String.eqb s) l.

End Str.

(** ** [hashlib.sha256(...).hexdigest()]

    SHA-256 as FIPS 180-4 gives it, on 32-bit words held in [Z] with the
    wrap-around written out. *)

Module Sha256.
Local Open Scope Z_scope.

Definition w32 (x : Z) : Z := x mod 2 ^ 32.
Definition add32 (x y : Z) : Z := w32 (x + y).
Definition rotr (n x : Z) : Z :=
  Z.lor (Z.shiftr x n) (w32 (Z.shiftl x (32 - n))).
Definition shr (n x : Z) : Z := Z.shiftr x n.
Definition not32 (x : Z) : Z := 2 ^ 32 - 1 - x.

Definition Ch (x y z : Z) : Z := Z.lxor (Z.land x y) (Z.land (not32 x) z).
Definition Maj (x y z : Z) : Z :=
  Z.lxor (Z.lxor (Z.land x y) (Z.land x z)) (Z.land y z).
Definition bsig0 (x : Z) : Z := Z.lxor (Z.lxor (rotr 2 x) (rotr 13 x)) (rotr 22 x).
Definition bsig1 (x : Z) : Z := Z.lxor (Z.lxor (rotr 6 x) (rotr 11 x)) (rotr 25 x).
Definition ssig0 (x : Z) : Z := Z.lxor (Z.lxor (rotr 7 x) (rotr 18 x)) (shr 3 x).
Definition ssig1 (x : Z) : Z := Z.lxor (Z.lxor (rotr 17 x) (rotr 19 x)) (shr 10 x).

(** A table of 32-bit words printed the way FIPS 180-4 prints them:
    eight hexadecimal digits a word, a space between two words. *)
Definition hex_val (c : ascii) : Z :=
let n := Z.of_nat (nat_of_ascii c) in
if n <? 58 then n - 48 else n - 87.

Fixpoint read_words (acc : Z) (s : string) : list Z :=
match s with
| EmptyString => [acc]
| String c s' =>
    if Ascii.eqb c " " then acc :: read_words 0 s'
    else read_words (16 * acc + hex_val c) s'
end.

(** The round constants (FIPS 180-4, section 4.2.2). *)
Definition K : list Z :=
Eval vm_compute in
  read_words 0
    ("428a2f98 71374491 b5c0fbcf e9b5dba5 3956c25b 59f111f1 923f82a4 ab1c5ed5 " ++
     "d807aa98 12835b01 243185be 550c7dc3 72be5d74 80deb1fe 9bdc06a7 c19bf174 " ++
     "e49b69c1 efbe4786 0fc19dc6 240ca1cc 2de92c6f 4a7484aa 5cb0a9dc 76f988da " ++
     "983e5152 a831c66d b00327c8 bf597fc7 c6e00bf3 d5a79147 06ca6351 14292967 " ++
     "27b70a85 2e1b2138 4d2c6dfc 53380d13 650a7354 766a0abb 81c2c92e 92722c85 " ++
     "a2bfe8a1 a81a664b c24b8b70 c76c51a3 d192e819 d6990624 f40e3585 106aa070 " ++
     "19a4c116 1e376c08 2748774c 34b0bcb5 391c0cb3 4ed8aa4a 5b9cca4f 682e6ff3 " ++
     "748f82ee 78a5636f 84c87814 8cc70208 90befffa a4506ceb bef9a3f7 c67178f2")%string.

(** The initial hash value (FIPS 180-4, section 5.3.3). *)
Definition H_init : list Z :=
Eval vm_compute in
  read_words 0
    "6a09e667 bb67ae85 3c6ef372 a54ff53a 510e527f 9b05688c 1f83d9ab 5be0cd19"%string.

(** Padding: the byte 0x80, zeros up to 56 modulo 64, and the bit length
    of the message as a 64-bit big-endian number. *)
Definition be_bytes (n : nat) (x : Z) : list Z :=
  map (fun i => (Z.shiftr x (8 * Z.of_nat i)) mod 256) (rev (seq 0 n)).

Definition pad (msg : list Z) : list Z :=
  let len := Z.of_nat (List.length msg) in
  let zeros := Z.to_nat ((55 - len) mod 64) in
  msg ++ [0x80] ++ repeat 0 zeros ++ be_bytes 8 (8 * len).

Fixpoint words (fuel : nat) (bs : list Z) : list Z :=
  match fuel, bs with
  | S fuel', b0 :: b1 :: b2 :: b3 :: rest =>
      (b0 * 2 ^ 24 + b1 * 2 ^ 16 + b2 * 2 ^ 8 + b3) :: words fuel' rest
  | _, _ => []
  end.

Fixpoint blocks (fuel : nat) (ws : list Z) : list (list Z) :=
  match fuel, ws with
  | _, [] => []
  | O, _ => []
  | S fuel', _ => firstn 16 ws :: blocks fuel' (skipn 16 ws)
  end.

(** The message schedule, newest word first: [sched] holds
    [W(t-1); W(t-2); ...]. *)
Fixpoint extend (n : nat) (sched : list Z) : list Z :=
  match n with
  | O => sched
  | S n' =>
      let wt :=
        add32 (add32 (ssig1 (nth 1 sched 0)) (nth 6 sched 0))
              (add32 (ssig0 (nth 14 sched 0)) (nth 15 sched 0)) in
      extend n' (wt :: sched)
  end.

Definition schedule (block : list Z) : list Z :=
  rev (extend 48 (rev block)).

Definition round (st : list Z) (kw : Z * Z) : list Z :=
  match st with
  | [a; b; c; d; e; f; g; h] =>
      let t1 := add32 (add32 (add32 h (bsig1 e)) (add32 (Ch e f g) (fst kw))) (snd kw) in
      let t2 := add32 (bsig0 a) (Maj a b c) in
      [add32 t1 t2; a; b; c; add32 d t1; e; f; g]
  | _ => st
  end.

Definition compress (h : list Z) (block : list Z) : list Z :=
  let st := fold_left round (combine K (schedule block)) h in
  map (fun p => add32 (fst p) (snd p)) (combine h st).

Definition digest (msg : list Z) : list Z :=
  let bs := pad msg in
  let ws := words (List.length bs) bs in
  flat_map (be_bytes 4) (fold_left compress (blocks (List.length ws) ws) H_init).

Definition hex_digit (n : Z) : ascii :=
  if n <? 10 then ascii_of_nat (Z.to_nat n + 48)
  else ascii_of_nat (Z.to_nat n + 87).

Fixpoint hex (bs : list Z) : string :=
  match bs with
  | [] => EmptyString
  | b :: rest => String (hex_digit (b / 16)) (String (hex_digit (b mod 16)) (hex rest))
  end.

(** [s.encode()]: the bytes of the string. *)
Definition encode (s : string) : list Z :=
  map (fun c => Z.of_nat (nat_of_ascii c)) (Str.chars s).

(** [hashlib.sha256(s.encode()).hexdigest()] *)
Definition hexdigest (s : string) : string := hex (digest (encode s)).

End Sha256.

(** ** Calendar dates

    A [date] stands for a [datetime.date] and for the pandas [Timestamp] at
    its midnight alike; the program never builds a Timestamp with a time of
    day.  [toordinal] is [date.toordinal()]: two midnights compare as their
    ordinals do, and [d + timedelta(days=n)] is the date of ordinal
    [toordinal d + n]. *)

Module Cal.
Local Open Scope Z_scope.

Record date := mkDate { year : Z; month : Z; day : Z }.

Definition is_leap (y : Z) : bool :=
  (y mod 4 =? 0) && (negb (y mod 100 =? 0) || (y mod 400 =? 0)).

Definition days_in_month (y m : Z) : Z :=
  if m =? 2 then (if is_leap y then 29 else 28)
  else if (m =? 4) || (m =? 6) || (m =? 9) || (m =? 11) then 30
  else 31.

Definition valid (d : date) : bool :=
  (1 <=? year d) && (year d <=? 9999) &&
  (1 <=? month d) && (month d <=? 12) &&
  (1 <=? day d) && (day d <=? days_in_month (year d) (month d)).

Definition days_before_year (y : Z) : Z :=
  let p := y - 1 in p * 365 + p / 4 - p / 100 + p / 400.

Definition days_before_month (y m : Z) : Z :=
  fold_left (fun acc k => acc + days_in_month y (Z.of_nat k))
            (seq 1 (Z.to_nat (m - 1))) 0.

Definition toordinal (d : date) : Z :=
  days_before_year (year d) + days_before_month (year d) (month d) + day d.

(** [a <= b] and [a == b] on two [datetime.date]: year, month and day
    compared in that order. *)
Definition leb (a b : date) : bool :=
  (year a <? year b) ||
  ((year a =? year b) &&
   ((month a <? month b) || ((month a =? month b) && (day a <=? day b)))).

Definition eqb (a b : date) : bool :=
  (year a =? year b) && (month a =? month b) && (day a =? day b).

(** The midnights a nanosecond [Timestamp] can hold: 1677-09-22 to
    2262-04-11. *)
Definition ts_min : date := mkDate 1677 9 22.
Definition ts_max : date := mkDate 2262 4 11.
Definition in_ts_range (d : date) : bool := leb ts_min d && leb d ts_max.

Definition digit_char (n : Z) : ascii := ascii_of_nat (Z.to_nat (n mod 10) + 48).

(** [n] in [k] decimal digits, zero-padded. *)
Fixpoint pad_digits (k : nat) (n : Z) : string :=
  match k with
  | O => EmptyString
  | S k' => pad_digits k' (n / 10) ++ String (digit_char n) EmptyString
  end.

(** [strftime('%Y-%m-%d')] *)
Definition strftime (d : date) : string :=
  pad_digits 4 (year d) ++ "-" ++ pad_digits 2 (month d) ++ "-" ++ pad_digits 2 (day d).

Definition digit_val (c : ascii) : option Z :=
  let n := nat_of_ascii c in
  if ((48 <=? n) && (n <=? 57))%nat then Some (Z.of_nat n - 48) else None.

Fixpoint number (acc : Z) (cs : list ascii) : option Z :=
  match cs with
  | [] => Some acc
  | c :: rest =>
      match digit_val c with
      | Some v => number (10 * acc + v) rest
      | None => None
      end
  end.

(** The text [save_assets] writes for a date, read back: ["YYYY-MM-DD"]
    naming a real day.  pandas reads other spellings of a date too; the
    model takes those as unparseable. *)
Definition parse_iso (s : string) : option date :=
  match Str.chars s with
  | [y1; y2; y3; y4; s1; m1; m2; s2; d1; d2] =>
      if Ascii.eqb s1 "-" && Ascii.eqb s2 "-" then
        match number 0 [y1; y2; y3; y4], number 0 [m1; m2], number 0 [d1; d2] with
        | Some y, Some m, Some d =>
            let r := mkDate y m d in
            if valid r then Some r else None
        | _, _, _ => None
        end
      else None
  | _ => None
  end.

End Cal.

(** ** Numbers in text

    An integer cell is a [Z].  A float cell is held as the decimal it
    prints as: a sign, the digits before the point (no leading zero, ["0"]
    for none) and the digits after it (no trailing zero).  Binary rounding is
    outside the model: two floats are the same when their shortest decimal
    forms are. *)

Module Num.
Local Open Scope string_scope.

Inductive pyfloat :=
| Fin (neg : bool) (ip frac : string)
| Inf (neg : bool).

Definition is_digit (c : ascii) : bool :=
  let n := nat_of_ascii c in ((48 <=? n) && (n <=? 57))%nat.

Fixpoint all_digits (s : string) : bool :=
  match s with
  | EmptyString => true
  | String c s' => is_digit c && all_digits s'
  end.

(** C [isspace], which the pandas tokenizer skips around a number. *)
Definition c_space (c : ascii) : bool :=
  let n := nat_of_ascii c in (((9 <=? n) && (n <=? 13)) || (n =? 32))%nat.

Fixpoint skip_spaces (s : string) : string :=
  match s with
  | EmptyString => EmptyString
  | String c s' => if c_space c then skip_spaces s' else s
  end.

Fixpoint drop_trailing (p : ascii -> bool) (s : string) : string :=
  match s with
  | EmptyString => EmptyString
  | String c s' =>
      match drop_trailing p s' with
      | EmptyString => if p c then EmptyString else String c EmptyString
      | r => String c r
      end
  end.

Definition trim (s : string) : string := drop_trailing c_space (skip_spaces s).

Definition is_zero (c : ascii) : bool := Ascii.eqb c "0".

Fixpoint drop_leading_zeros (s : string) : string :=
  match s with
  | EmptyString => EmptyString
  | String c s' => if is_zero c then drop_leading_zeros s' else s
  end.

(** Digits before the point, in canonical form. *)
Definition norm_ip (s : string) : string :=
  match drop_leading_zeros s with
  | EmptyString => "0"
  | r => r
  end.

(** Digits after the point, in canonical form. *)
Definition norm_frac (s : string) : string := drop_trailing is_zero s.

Definition canonical (x : pyfloat) : bool :=
  match x with
  | Fin _ ip frac =>
      all_digits ip && all_digits frac &&
      String.eqb (norm_ip ip) ip && String.eqb (norm_frac frac) frac
  | Inf _ => true
  end.

Definition take_sign (s : string) : bool * string :=
  match s with
  | String c r =>
      if Ascii.eqb c "-" then (true, r)
      else if Ascii.eqb c "+" then (false, r)
      else (false, s)
  | EmptyString => (false, s)
  end.

(** [s] cut at the first character that satisfies [p]: what comes before
    it, and what comes after it when there is one. *)
Fixpoint split_on (p : ascii -> bool) (s : string) : string * option string :=
  match s with
  | EmptyString => (EmptyString, None)
  | String c s' =>
      if p c then (EmptyString, Some s')
      else let (a, b) := split_on p s' in (String c a, b)
  end.

Fixpoint Z_of_digits (acc : Z) (s : string) : Z :=
  match s with
  | EmptyString => acc
  | String c s' => Z_of_digits (10 * acc + (Z.of_nat (nat_of_ascii c) - 48)) s'
  end.

Definition int64_min : Z := - 2 ^ 63.
Definition int64_max : Z := 2 ^ 63 - 1.

(** A field the tokenizer reads as an [int64]: optional sign, digits,
    spaces around, in range. *)
Definition parse_int (s : string) : option Z :=
  let (neg, body) := take_sign (trim s) in
  match body with
  | EmptyString => None
  | _ =>
      if all_digits body then
        let v := Z_of_digits 0 body in
        let z := if neg then (- v)%Z else v in
        if ((int64_min <=? z) && (z <=? int64_max))%Z then Some z else None
      else None
  end.

Definition zeros (n : nat) : string := Str.of_chars (repeat "0"%char n).
Definition take (n : nat) (s : string) : string := Str.of_chars (firstn n (Str.chars s)).
Definition drop (n : nat) (s : string) : string := Str.of_chars (skipn n (Str.chars s)).

(** The decimal point moved [e] places to the right (to the left for a
    negative [e]). *)
Definition shift (ip frac : string) (e : Z) : string * string :=
  if (0 <=? e)%Z then
    let k := Z.to_nat e in
    let frac' := frac ++ zeros (k - String.length frac) in
    (ip ++ take k frac', drop k frac')
  else
    let k := Z.to_nat (- e) in
    let ip' := zeros (k - String.length ip) ++ ip in
    let cut := (String.length ip' - k)%nat in
    (take cut ip', drop cut ip' ++ frac).

Definition is_e (c : ascii) : bool := Ascii.eqb c "e" || Ascii.eqb c "E".
Definition is_point (c : ascii) : bool := Ascii.eqb c ".".

Definition parse_exponent (t : option string) : option Z :=
  match t with
  | None => Some 0%Z
  | Some t =>
      let (neg, body) := take_sign t in
      match body with
      | EmptyString => None
      | _ =>
          if all_digits body then
            Some (if neg then (- Z_of_digits 0 body)%Z else Z_of_digits 0 body)
          else None
      end
  end.

(** A field the tokenizer reads as a [float64]: optional sign, then [inf]
    or [infinity], or digits with an optional point and an optional
    exponent. *)
Definition parse_float (s : string) : option pyfloat :=
  let (neg, body) := take_sign (trim s) in
  let low := Str.lower body in
  if String.eqb low "inf" || String.eqb low "infinity" then Some (Inf neg)
  else
    let (mant, expo) := split_on is_e body in
    let (ip, fr) := split_on is_point mant in
    let frac := match fr with Some f => f | None => EmptyString end in
    match parse_exponent expo with
    | None => None
    | Some e =>
        if all_digits ip && all_digits frac
           && negb (String.eqb ip "" && String.eqb frac "") then
          let (ip', frac') := shift ip frac e in
          Some (Fin neg (norm_ip ip') (norm_frac frac'))
        else None
    end.

(** [str(z)] for an integer. *)
Definition int_repr (z : Z) : string :=
  DecimalString.NilZero.string_of_int (Z.to_int z).

(** [float(z)] *)
Definition of_int (z : Z) : pyfloat :=
  Fin (z <? 0)%Z (int_repr (Z.abs z)) "".

Fixpoint count_leading_zeros (s : string) : nat :=
  match s with
  | String c s' => if is_zero c then S (count_leading_zeros s') else 0
  | EmptyString => 0
  end.

(** Whether [repr] writes the float with all its digits in place, which
    Python does from 1e-4 up to, and not including, 1e16. *)
Definition positional (x : pyfloat) : bool :=
  match x with
  | Fin _ ip frac =>
      if String.eqb ip "0" then
        String.eqb frac "" || (count_leading_zeros frac <? 4)%nat
      else (String.length ip <=? 16)%nat
  | Inf _ => false
  end.

Definition two_digits (n : Z) : string :=
  if (n <? 10)%Z then "0" ++ int_repr n else int_repr n.

(** [repr(x)], which is also what [to_csv] and [astype(str)] write. *)
Definition float_repr (x : pyfloat) : string :=
  match x with
  | Inf neg => if neg then "-inf" else "inf"
  | Fin neg ip frac =>
      let sign := if neg then "-" else "" in
      if positional x then
        sign ++ ip ++ "." ++ (if String.eqb frac "" then "0" else frac)
      else
        let digits := drop_leading_zeros (ip ++ frac) in
        let e :=
          if String.eqb ip "0"
          then (- (Z.of_nat (count_leading_zeros frac) + 1))%Z
          else (Z.of_nat (String.length ip) - 1)%Z in
        let lead := take 1 digits in
        let rest := norm_frac (drop 1 digits) in
        sign ++ lead ++ (if String.eqb rest "" then "" else "." ++ rest)
             ++ "e" ++ (if (e <? 0)%Z then "-" else "+") ++ two_digits (Z.abs e)
  end.

End Num.

(** ** Cells, rows and frames

    The asset table has the fifteen columns [init_storage] writes.  A row is
    a record with one component per column; a [DataFrame] with these columns
    is the list of its rows, and [pd.DataFrame()], which has no column at
    all, is [NoColumns]. *)

Inductive cell :=
| VStr (s : string)
| VInt (n : Z)
| VFloat (x : Num.pyfloat)
| VBool (b : bool)
| VDate (d : Cal.date)
| VNaN
| VNaT.

Inductive field :=
| AssetID | AssetName | Category | Brand | Model | SerialNo | Status
| AssignedTo | PurchaseDate | WarrantyExpiry | Location | Cost | Notes
| CreatedDate | LastUpdated.

Definition column_name (f : field) : string :=
  match f with
  | AssetID => "Asset ID" | AssetName => "Asset Name" | Category => "Category"
  | Brand => "Brand" | Model => "Model" | SerialNo => "Serial No"
  | Status => "Status" | AssignedTo => "Assigned To"
  | PurchaseDate => "Purchase Date" | WarrantyExpiry => "Warranty Expiry"
  | Location => "Location" | Cost => "Cost" | Notes => "Notes"
  | CreatedDate => "Created Date" | LastUpdated => "Last Updated"
  end.

Definition schema : list field :=
  [AssetID; AssetName; Category; Brand; Model; SerialNo; Status; AssignedTo;
   PurchaseDate; WarrantyExpiry; Location; Cost; Notes; CreatedDate; LastUpdated].

Definition is_date_col (f : field) : bool :=
  match f with
  | PurchaseDate | WarrantyExpiry | CreatedDate | LastUpdated => true
  | _ => false
  end.

Record row (A : Type) := mkRow {
  asset_id : A; asset_name : A; category : A; brand : A; model : A;
  serial_no : A; status : A; assigned_to : A; purchase_date : A;
  warranty_expiry : A; location : A; cost : A; notes : A;
  created_date : A; last_updated : A }.

Arguments mkRow {A}.
Arguments asset_id {A}. Arguments asset_name {A}. Arguments category {A}.
Arguments brand {A}. Arguments model {A}. Arguments serial_no {A}.
Arguments status {A}. Arguments assigned_to {A}. Arguments purchase_date {A}.
Arguments warranty_expiry {A}. Arguments location {A}. Arguments cost {A}.
Arguments notes {A}. Arguments created_date {A}. Arguments last_updated {A}.

(** [r[f]] *)
Definition rget {A} (f : field) (r : row A) : A :=
  match f with
  | AssetID => asset_id r | AssetName => asset_name r | Category => category r
  | Brand => brand r | Model => model r | SerialNo => serial_no r
  | Status => status r | AssignedTo => assigned_to r
  | PurchaseDate => purchase_date r | WarrantyExpiry => warranty_expiry r
  | Location => location r | Cost => cost r | Notes => notes r
  | CreatedDate => created_date r | LastUpdated => last_updated r
  end.

(** The row whose component in column [f] is [g f]. *)
Definition rtab {A} (g : field -> A) : row A :=
  mkRow (g AssetID) (g AssetName) (g Category) (g Brand) (g Model) (g SerialNo)
        (g Status) (g AssignedTo) (g PurchaseDate) (g WarrantyExpiry)
        (g Location) (g Cost) (g Notes) (g CreatedDate) (g LastUpdated).

Definition rmap {A B} (g : field -> A -> B) (r : row A) : row B :=
  rtab (fun f => g f (rget f r)).

(** The components of a row in column order. *)
Definition values {A} (r : row A) : list A := map (fun f => rget f r) schema.

Inductive frame :=
| NoColumns
| Table (rows : list (row cell)).

Definition frame_rows (df : frame) : list (row cell) :=
  match df with NoColumns => [] | Table rows => rows end.

(** [df.empty] *)
Definition frame_empty (df : frame) : bool :=
  match frame_rows df with [] => true | _ => false end.

(** [len(df)] *)
Definition frame_len (df : frame) : nat := List.length (frame_rows df).

(** [df[f]], which raises [KeyError] on a frame without the column. *)
Definition column (f : field) (df : frame) : option (list cell) :=
  match df with
  | NoColumns => None
  | Table rows => Some (map (rget f) rows)
  end.

(** ** pandas on cells *)

Module Pd.

(** What [read_csv] reads as a missing value. *)
Definition na_values : list string :=
  [""; "#N/A"; "#N/A N/A"; "#NA"; "-1.#IND"; "-1.#QNAN"; "-NaN"; "-nan";
   "1.#IND"; "1.#QNAN"; "<NA>"; "N/A"; "NA"; "NULL"; "NaN"; "None"; "n/a";
   "nan"; "null"].

Definition is_na_text (s : string) : bool := Str.mem s na_values.

Definition parse_bool (s : string) : option bool :=
  if Str.mem s ["True"; "TRUE"; "true"] then Some true
  else if Str.mem s ["False"; "FALSE"; "false"] then Some false
  else None.

Definition is_some {A} (o : option A) : bool :=
  match o with Some _ => true | None => false end.

Inductive dtype := DInt | DFloat | DBool | DObject.

(** The type [read_csv] gives a column, from the text of all its fields:
    [int64] when each is an integer and none is missing, [float64] when
    each present one is a number, [bool] when each present one is a truth
    value, [object] otherwise.  A column of missing values only is
    [float64]. *)
Definition infer_dtype (col : list string) : dtype :=
  let present := filter (fun s => negb (is_na_text s)) col in
  match col, present with
  | [], _ => DObject
  | _, [] => DFloat
  | _, _ =>
      if forallb (fun s => is_some (Num.parse_int s)) present then
        if existsb is_na_text col then DFloat else DInt
      else if forallb (fun s => is_some (Num.parse_float s)) present then DFloat
      else if forallb (fun s => is_some (parse_bool s)) present then DBool
      else DObject
  end.

Definition read_cell (dt : dtype) (s : string) : cell :=
  if is_na_text s then VNaN
  else
    match dt with
    | DInt => match Num.parse_int s with Some z => VInt z | None => VStr s end
    | DFloat => match Num.parse_float s with Some x => VFloat x | None => VStr s end
    | DBool => match parse_bool s with Some b => VBool b | None => VStr s end
    | DObject => VStr s
    end.

(** [pd.read_csv] on a file that holds the header and [rows]. *)
Definition read_csv (rows : list (row string)) : list (row cell) :=
  let dts := rtab (fun f => infer_dtype (map (rget f) rows)) in
  map (rmap (fun f s => read_cell (rget f dts) s)) rows.

(** [pd.to_datetime(..., errors='coerce')] on one value.  Text that is
    not a date [save_assets] could have written, and a number or a truth
    value, which it never writes in a date column, come out as [NaT]. *)
Definition to_datetime_coerce (c : cell) : cell :=
  match c with
  | VDate d => if Cal.in_ts_range d then VDate d else VNaT
  | VStr s =>
      match Cal.parse_iso s with
      | Some d => if Cal.in_ts_range d then VDate d else VNaT
      | None => VNaT
      end
  | _ => VNaT
  end.

(** [pd.to_datetime(...)] on one value, with the default [errors='raise']:
    [None] when it raises.  It is given the dates and Timestamps of a
    frame, and the blanks [fillna] left there. *)
Definition to_datetime (c : cell) : option cell :=
  match c with
  | VDate d => if Cal.in_ts_range d then Some (VDate d) else None
  | VStr s =>
      if String.eqb s "" then Some VNaT
      else match Cal.parse_iso s with
           | Some d => if Cal.in_ts_range d then Some (VDate d) else None
           | None => None
           end
  | VNaN | VNaT => Some VNaT
  | _ => None
  end.

(** [pd.notna] *)
Definition notna (c : cell) : bool :=
  match c with VNaN | VNaT => false | _ => true end.

(** [.dt.strftime('%Y-%m-%d')] on one value. *)
Definition strftime (c : cell) : cell :=
  match c with
  | VDate d => VStr (Cal.strftime d)
  | _ => VNaN
  end.

(** [fillna("")] on one value.  Whether a [NaT] of a datetime column is
    replaced depends on the pandas at hand: [blank_nat] says it is. *)
Definition fillna (blank_nat : bool) (c : cell) : cell :=
  match c with
  | VNaN => VStr ""
  | VNaT => if blank_nat then VStr "" else VNaT
  | _ => c
  end.

(** Python [float(s)] on text: the float grammar, with single underscores
    allowed between digits. *)
Fixpoint drop_underscores (prev : bool) (s : string) : string :=
  match s with
  | EmptyString => EmptyString
  | String c s' =>
      if Ascii.eqb c "_" && prev
         && match s' with String d _ => Num.is_digit d | EmptyString => false end
      then drop_underscores false s'
      else String c (drop_underscores (Num.is_digit c) s')
  end.

(** Whether [float(s)] is a NaN: the word [nan] in any case, with an
    optional sign and spaces around. *)
Definition py_nan (s : string) : bool :=
  String.eqb (Str.lower (snd (Num.take_sign (Str.strip s)))) "nan".

(** [float(s)] as a value of a column: a float, or NaN; [None] when it
    raises [ValueError]. *)
Definition py_float (s : string) : option cell :=
  if py_nan s then Some VNaN
  else option_map VFloat (Num.parse_float (drop_underscores false (Str.strip s))).

(** One value cast to [float64]; [None] when the cast raises. *)
Definition to_float (c : cell) : option cell :=
  match c with
  | VFloat x => Some (VFloat x)
  | VInt z => Some (VFloat (Num.of_int z))
  | VBool b => Some (VFloat (Num.Fin false (if b then "1" else "0") ""))
  | VStr s => py_float s
  | VNaN => Some VNaN
  | VDate _ | VNaT => None
  end.

Fixpoint traverse {A B} (g : A -> option B) (l : list A) : option (list B) :=
  match l with
  | [] => Some []
  | a :: rest =>
      match g a, traverse g rest with
      | Some b, Some bs => Some (b :: bs)
      | _, _ => None
      end
  end.

(** The text [to_csv] writes for a value. *)
Definition csv_text (c : cell) : string :=
  match c with
  | VStr s => s
  | VInt z => Num.int_repr z
  | VFloat x => Num.float_repr x
  | VBool b => if b then "True" else "False"
  | VDate d => Cal.strftime d
  | VNaN | VNaT => ""
  end.

(** [astype(str)] on a value; [dt64] says that its column is a datetime
    column, where a Timestamp prints as its date, and not an [object]
    column, where it prints with its time of day. *)
Definition cell_str (dt64 : bool) (c : cell) : string :=
  match c with
  | VStr s => s
  | VInt z => Num.int_repr z
  | VFloat x => Num.float_repr x
  | VBool b => if b then "True" else "False"
  | VDate d => if dt64 then Cal.strftime d else Cal.strftime d ++ " 00:00:00"
  | VNaN => "nan"
  | VNaT => "NaT"
  end.

Definition is_dt64 (col : list cell) : bool :=
  forallb (fun c => match c with VDate _ | VNaT => true | _ => false end) col.

(** [x == s] for a value of a column and a [str]. *)
Definition eq_str (c : cell) (s : string) : bool :=
  match c with VStr t => String.eqb t s | _ => false end.

End Pd.

(** ** JSON documents and Python dictionaries

    [json.load] gives [None], a truth value, a number, a [str], a [list] or a
    [dict] with [str] keys.  Numbers are integers here; the program never
    writes another kind.  A [dict] keeps its items in insertion order. *)

Local Unset Elimination Schemes.
Inductive json :=
| JNull
| JBool (b : bool)
| JNum (n : Z)
| JStr (s : string)
| JArr (items : list json)
| JObj (members : list (string * json)).
Local Set Elimination Schemes.

Definition pydict := list (json * json).

Module Py.

(** Whether a value can be a dictionary key. *)
Definition hashable (j : json) : bool :=
  match j with JArr _ | JObj _ => false | _ => true end.

Definition num_of_bool (b : bool) : Z := if b then 1%Z else 0%Z.

(** [a == b] on two keys; [True == 1] and [False == 0] in Python. *)
Definition key_eqb (a b : json) : bool :=
  match a, b with
  | JNull, JNull => true
  | JStr s, JStr t => String.eqb s t
  | JNum n, JNum m => Z.eqb n m
  | JBool x, JBool y => Bool.eqb x y
  | JBool x, JNum m | JNum m, JBool x => Z.eqb (num_of_bool x) m
  | _, _ => false
  end.

(** [d[k]], [None] for a [KeyError]. *)
Fixpoint dict_get (k : json) (d : pydict) : option json :=
  match d with
  | [] => None
  | (k', v) :: rest => if key_eqb k k' then Some v else dict_get k rest
  end.

(** [k in d] *)
Definition dict_mem (k : json) (d : pydict) : bool :=
  match dict_get k d with Some _ => true | None => false end.

(** [d[k] = v]: the value of a key already there is replaced in place, a
    new key goes last. *)
Fixpoint dict_set (k v : json) (d : pydict) : pydict :=
  match d with
  | [] => [(k, v)]
  | (k', v') :: rest =>
      if key_eqb k k' then (k', v) :: rest else (k', v') :: dict_set k v rest
  end.

(** [{a: b for a, b in d.items() if a != k}] *)
Definition dict_without (k : json) (d : pydict) : pydict :=
  filter (fun kv => negb (key_eqb (fst kv) k)) d.

(** [list(d.values())] *)
Definition dict_values (d : pydict) : list json := map snd d.

Fixpoint member (k : string) (members : list (string * json)) : option json :=
  match members with
  | [] => None
  | (k', v) :: rest => if String.eqb k k' then Some v else member k rest
  end.

(** [j[k]] for a [str] key [k]: [None] when it raises, which it does on
    anything but a [dict] that has the key. *)
Definition subscript (j : json) (k : string) : option json :=
  match j with
  | JObj members => member k members
  | _ => None
  end.

(** The values a [for] loop over [j] goes through: [None] when [j] is not
    iterable. *)
Definition iterate (j : json) : option (list json) :=
  match j with
  | JArr items => Some items
  | JObj members => Some (map (fun kv => JStr (fst kv)) members)
  | JStr s => Some (map (fun c => JStr (String c EmptyString)) (Str.chars s))
  | _ => None
  end.

(** [v == s] for a [str] [s]. *)
Definition eq_str (v : json) (s : string) : bool :=
  match v with JStr t => String.eqb t s | _ => false end.

End Py.

(** ** The world: backing files, caches, log and screen *)

Inductive csv_file :=
| CsvMissing                          (* no such file *)
| CsvEmpty                            (* a file of size 0 *)
| CsvGarbled                          (* content [read_csv] cannot parse *)
| CsvTable (rows : list (row string)) (* the header line and one line per row *).

Inductive json_file :=
| JsonMissing
| JsonGarbled
| JsonDoc (j : json).

Inductive level := INFO | ERROR | SUCCESS.

Record world := mkWorld {
  assets_file : csv_file;                 (* assets.csv *)
  users_file : json_file;                 (* users.json *)
  assets_cache : option frame;            (* st.cache_data entry of load_assets *)
  hash_cache : list (string * string);    (* st.cache_data entries of hash_password *)
  log : list (level * string);            (* logger, oldest first *)
  screen : list (level * string);         (* st.error, st.info, st.success *)
  disk_fault : option nat;                (* the line at which the next write fails *)
  blank_nat : bool                        (* fillna("") replaces NaT *) }.

Definition with_assets_file (v : csv_file) (w : world) : world :=
  mkWorld v (users_file w) (assets_cache w) (hash_cache w) (log w) (screen w)
          (disk_fault w) (blank_nat w).
Definition with_users_file (v : json_file) (w : world) : world :=
  mkWorld (assets_file w) v (assets_cache w) (hash_cache w) (log w) (screen w)
          (disk_fault w) (blank_nat w).
Definition with_assets_cache (v : option frame) (w : world) : world :=
  mkWorld (assets_file w) (users_file w) v (hash_cache w) (log w) (screen w)
          (disk_fault w) (blank_nat w).
Definition with_hash_cache (v : list (string * string)) (w : world) : world :=
  mkWorld (assets_file w) (users_file w) (assets_cache w) v (log w) (screen w)
          (disk_fault w) (blank_nat w).
Definition with_log (v : list (level * string)) (w : world) : world :=
  mkWorld (assets_file w) (users_file w) (assets_cache w) (hash_cache w) v (screen w)
          (disk_fault w) (blank_nat w).
Definition with_screen (v : list (level * string)) (w : world) : world :=
  mkWorld (assets_file w) (users_file w) (assets_cache w) (hash_cache w) (log w) v
          (disk_fault w) (blank_nat w).

(** A computation ends with a value or with an exception, in a new world. *)

Inductive exn := KeyError | TypeError | ValueError | OSError.

Inductive result (A : Type) :=
| Ok (a : A)
| Raise (e : exn).
Arguments Ok {A}. Arguments Raise {A}.

Definition M (A : Type) : Type := world -> result A * world.

Definition ret {A} (a : A) : M A := fun w => (Ok a, w).
Definition raise {A} (e : exn) : M A := fun w => (Raise e, w).
Definition bind {A B} (m : M A) (k : A -> M B) : M B :=
  fun w => match m w with
           | (Ok a, w') => k a w'
           | (Raise e, w') => (Raise e, w')
           end.
(** [try: m except Exception: h] *)
Definition try_except {A} (m : M A) (h : M A) : M A :=
  fun w => match m w with
           | (Ok a, w') => (Ok a, w')
           | (Raise _, w') => h w'
           end.
Definition get : M world := fun w => (Ok w, w).
Definition modify (g : world -> world) : M unit := fun w => (Ok tt, g w).
Definition lift {A} (r : result A) : M A := fun w => (r, w).

Declare Scope io_scope.
Delimit Scope io_scope with io.
Notation "x <- m ;; k" := (bind m (fun x => k))
  (at level 61, m at next level, right associativity) : io_scope.
Notation "m ;; k" := (bind m (fun _ => k))
  (at level 61, right associativity) : io_scope.
Local Open Scope io_scope.

Definition logger (l : level) (msg : string) : M unit :=
  modify (fun w => with_log (log w ++ [(l, msg)]) w).
Definition st_show (l : level) (msg : string) : M unit :=
  modify (fun w => with_screen (screen w ++ [(l, msg)]) w).
(** [st.cache_data.clear()] empties every cache. *)
Definition cache_clear : M unit :=
  modify (fun w => with_hash_cache [] (with_assets_cache None w)).

(** ** Credential store *)

(** The body of [hash_password]. *)
Definition salted_digest (password : string) : string :=
  Sha256.hexdigest ("itsm_salt_" ++ password).

Fixpoint cache_lookup (k : string) (c : list (string * string)) : option string :=
  match c with
  | [] => None
  | (k', v) :: rest => if String.eqb k k' then Some v else cache_lookup k rest
  end.

(** [hash_password], behind [st.cache_data]: a call whose argument has an
    entry returns the entry, another one runs the body and stores what it
    returns.  The entries have a time to live; one that has expired is one
    that is not there. *)
Definition hash_password (password : string) : M string :=
  w <- get ;;
  match cache_lookup password (hash_cache w) with
  | Some v => ret v
  | None =>
      let v := salted_digest password in
      modify (with_hash_cache ((password, v) :: hash_cache w)) ;;
      ret v
  end.

(** [{user['username']: user['password_hash'] for user in users_data}],
    [None] when it raises. *)
Fixpoint collect_users (users_data : list json) (acc : pydict) : option pydict :=
  match users_data with
  | [] => Some acc
  | user :: rest =>
      match Py.subscript user "username", Py.subscript user "password_hash" with
      | Some k, Some v =>
          if Py.hashable k then collect_users rest (Py.dict_set k v acc) else None
      | _, _ => None
      end
  end.

Definition users_of_json (j : json) : option pydict :=
  match Py.iterate j with
  | Some users_data => collect_users users_data []
  | None => None
  end.

Definition load_users : M pydict :=
  h <- hash_password "Admin@2024" ;;
  let default_users := [(JStr "admin", JStr h)] in
  w <- get ;;
  match users_file w with
  | JsonMissing => ret default_users
  | JsonGarbled =>
      logger ERROR "Failed to load users" ;; ret default_users
  | JsonDoc j =>
      match users_of_json j with
      | Some users => ret users
      | None => logger ERROR "Failed to load users" ;; ret default_users
      end
  end.

(** [json.dump(..., f)] into the file opened for writing: a disk fault
    leaves a file that is not a JSON document. *)
Definition json_dump (j : json) : M unit :=
  w <- get ;;
  match disk_fault w with
  | None => modify (with_users_file (JsonDoc j))
  | Some _ => modify (with_users_file JsonGarbled) ;; raise OSError
  end.

Definition save_users (users : pydict) : M unit :=
  try_except
    (json_dump (JArr (Py.dict_values users)))
    (logger ERROR "Failed to save users").

(** The test of [render_login_page]:
    [username in users and users[username] == hash_password(password)]. *)
Definition authenticate (users : pydict) (username password : string) : M bool :=
  match Py.dict_get (JStr username) users with
  | None => ret false
  | Some v => h <- hash_password password ;; ret (Py.eq_str v h)
  end.

Definition login (username password : string) : M bool :=
  users <- load_users ;;
  authenticate users username password.

(** The "Create User" and "Remove" buttons of [render_settings]. *)
Definition create_user (new_username new_password : string) : M unit :=
  users <- load_users ;;
  if Str.truthy new_username && Str.truthy new_password then
    if negb (Py.dict_mem (JStr new_username) users) then
      h <- hash_password new_password ;;
      save_users (Py.dict_set (JStr new_username) (JStr h) users) ;;
      st_show SUCCESS "Created user"
    else st_show ERROR "Username already exists"
  else st_show ERROR "Both fields required".

Definition remove_user (username : json) : M unit :=
  users <- load_users ;;
  save_users (Py.dict_without username users) ;;
  st_show SUCCESS "Removed user".

(** ** Record store *)

(** [to_csv(config.ASSETS_FILE, index=False)]: the file is opened for
    writing, which empties it, and the header and the rows are written one
    line after the other.  With [disk_fault w = Some n] the write of line
    [n] fails (the header is line 0) and what was written before it stays. *)
Definition to_csv (rows : list (row string)) : M unit :=
  w <- get ;;
  match disk_fault w with
  | None => modify (with_assets_file (CsvTable rows))
  | Some O => modify (with_assets_file CsvEmpty) ;; raise OSError
  | Some (S k) =>
      if (k <? List.length rows)%nat then
        modify (with_assets_file (CsvTable (firstn k rows))) ;; raise OSError
      else modify (with_assets_file (CsvTable rows))
  end.

Definition init_storage : M unit :=
  (* Path(...).touch(exist_ok=True) *)
  modify (fun w => match assets_file w with
                   | CsvMissing => with_assets_file CsvEmpty w
                   | _ => w
                   end) ;;
  w <- get ;;
  match assets_file w with
  | CsvEmpty => to_csv []
  | _ => ret tt
  end.

(** [df.astype({"Cost": "float64"}, errors='ignore')]: every cost is cast,
    or none is. *)
Definition astype_cost (rows : list (row cell)) : list (row cell) :=
  match Pd.traverse Pd.to_float (map cost rows) with
  | Some _ =>
      map (rmap (fun f c =>
                   match f, Pd.to_float c with
                   | Cost, Some c' => c'
                   | _, _ => c
                   end)) rows
  | None => rows
  end.

(** The three steps of [load_assets] after [read_csv]. *)
Definition normalize (blank : bool) (rows : list (row cell)) : list (row cell) :=
  let dated :=
    map (rmap (fun f c => if is_date_col f then Pd.to_datetime_coerce c else c)) rows in
  let filled := map (rmap (fun _ c => Pd.fillna blank c)) dated in
  astype_cost filled.

(** The body of [load_assets]. *)
Definition read_assets : M frame :=
  w <- get ;;
  match assets_file w with
  | CsvTable rows => ret (Table (normalize (blank_nat w) (Pd.read_csv rows)))
  | _ => logger ERROR "Failed to load assets" ;; ret NoColumns
  end.

(** [load_assets], behind [st.cache_data]: a call with an entry returns the
    entry, another one runs the body and stores the frame.  The entry has a
    time to live; one that has expired is one that is not there, a world
    with [assets_cache w = None]. *)
Definition load_assets : M frame :=
  w <- get ;;
  match assets_cache w with
  | Some df => ret df
  | None =>
      df <- read_assets ;;
      modify (with_assets_cache (Some df)) ;;
      ret df
  end.

(** What the loop of [save_assets] makes of one value of a date column:
    [None] when [to_datetime] raises. *)
Definition date_text (c : cell) : option cell :=
  if Pd.notna c then option_map Pd.strftime (Pd.to_datetime c) else Some c.

Definition dates_ok (r : row cell) : bool :=
  forallb (fun f => negb (is_date_col f) || Pd.is_some (date_text (rget f r))) schema.

Definition format_dates (r : row cell) : row cell :=
  rmap (fun f c =>
          if is_date_col f
          then match date_text c with Some c' => c' | None => c end
          else c) r.

Definition csv_rows (rows : list (row cell)) : list (row string) :=
  map (fun r => rmap (fun _ c => Pd.csv_text c) (format_dates r)) rows.

(** [f"Saved {len(df)} assets"] *)
Definition saved_message (n : nat) : string :=
  ("Saved " ++ Num.int_repr (Z.of_nat n) ++ " assets")%string.

Definition save_assets (df : frame) : M unit :=
  try_except
    (match df with
     | NoColumns => modify (with_assets_file CsvGarbled)
     | Table rows =>
         if forallb dates_ok rows then to_csv (csv_rows rows)
         else raise ValueError
     end ;;
     cache_clear ;;
     logger INFO (saved_message (frame_len df)))
    (st_show ERROR "Save failed" ;; logger ERROR "Save error").

(** ** Dashboard metrics *)

Record metrics := mkMetrics {
  total : nat; assigned : nat; available : nat; repair : nat; expiring : nat }.

Definition count_status (s : string) (rows : list (row cell)) : nat :=
  List.length (filter (fun r => Pd.eq_str (status r) s) rows).

(** [x < threshold_date] for a value of the warranty column and the
    Timestamp of ordinal [threshold]: a missing value compares false, text
    and numbers raise [TypeError]. *)
Definition before (threshold : Z) (c : cell) : result bool :=
  match c with
  | VDate d => Ok (Cal.toordinal d <? threshold)%Z
  | VNaN | VNaT => Ok false
  | _ => Raise TypeError
  end.

Fixpoint expiring_rows (threshold : Z) (rows : list (row cell))
  : result (list (row cell)) :=
  match rows with
  | [] => Ok []
  | r :: rest =>
      match before threshold (warranty_expiry r), expiring_rows threshold rest with
      | Ok b, Ok l => Ok (if b then r :: l else l)
      | Raise e, _ => Raise e
      | _, Raise e => Raise e
      end
  end.

(** [df.dropna(subset=["Warranty Expiry"])] *)
Definition dropna_warranty (rows : list (row cell)) : list (row cell) :=
  filter (fun r => Pd.notna (warranty_expiry r)) rows.

(** The five numbers [render_dashboard] shows, [None] when it shows none
    because the frame is empty; [today] is [date.today()]. *)
Definition render_dashboard (df : frame) (today : Cal.date) : result (option metrics) :=
  if frame_empty df then Ok None
  else
    let rows := frame_rows df in
    let threshold_date := (Cal.toordinal today + 90)%Z in
    match expiring_rows threshold_date rows with
    | Raise e => Raise e
    | Ok sel =>
        Ok (Some (mkMetrics (List.length rows)
                            (count_status "Assigned" rows)
                            (count_status "Available" rows)
                            (count_status "Repair" rows)
                            (List.length (dropna_warranty sel))))
    end.

(** ** Registration *)

(** What the form of [render_add_asset] hands over when it is submitted. *)
Module Form.
Record t := mk {
  asset_id : string; name : string; category : string; brand : string;
  model : string; serial : string; status : string; assignee : string;
  location : string; cost : Num.pyfloat;
  purchase : Cal.date; warranty : Cal.date; notes : string }.
End Form.

Definition msg_required : string := "Required fields missing".
Definition msg_duplicate : string := "Asset ID already exists".
Definition msg_warranty : string := "Warranty must exceed purchase date".

(** The three checks, on their own. *)
Definition required_missing (f : Form.t) : bool :=
  negb (forallb Str.truthy
          [Str.strip (Form.asset_id f); Str.strip (Form.name f);
           Str.strip (Form.brand f); Form.category f]).

(** [asset_id.strip() in df["Asset ID"].values] *)
Definition id_exists (ids : list cell) (f : Form.t) : bool :=
  existsb (fun c => Pd.eq_str c (Str.strip (Form.asset_id f))) ids.

Definition warranty_not_after (f : Form.t) : bool :=
  Cal.leb (Form.warranty f) (Form.purchase f).

(** The list [errors] of [render_add_asset]. *)
Definition validate (df : frame) (f : Form.t) : result (list string) :=
  let e1 := if required_missing f then [msg_required] else [] in
  match column AssetID df with
  | None => Raise KeyError
  | Some ids =>
      let e2 := if id_exists ids f then [msg_duplicate] else [] in
      let e3 := if warranty_not_after f then [msg_warranty] else [] in
      Ok (e1 ++ e2 ++ e3)
  end.

Definition new_asset (f : Form.t) (today : Cal.date) : row cell :=
  mkRow (VStr (Str.strip (Form.asset_id f)))
        (VStr (Str.strip (Form.name f)))
        (VStr (Form.category f))
        (VStr (Str.strip (Form.brand f)))
        (VStr (Str.strip (Form.model f)))
        (VStr (Str.strip (Form.serial f)))
        (VStr (Form.status f))
        (VStr (Str.strip (Form.assignee f)))
        (VDate (Form.purchase f))
        (VDate (Form.warranty f))
        (VStr (Str.strip (Form.location f)))
        (VFloat (Form.cost f))
        (VStr (Str.strip (Form.notes f)))
        (VDate today)
        (VDate today).

Inductive outcome :=
| Rejected (errors : list string)
| Accepted (updated_df : frame).

(** The decision of [render_add_asset] on a submitted form: the errors it
    shows, or the frame it saves. *)
Definition register (df : frame) (f : Form.t) (today : Cal.date) : result outcome :=
  match validate df f with
  | Raise e => Raise e
  | Ok [] => Ok (Accepted (Table (frame_rows df ++ [new_asset f today])))
  | Ok errors => Ok (Rejected errors)
  end.

Fixpoint show_errors (errors : list string) : M unit :=
  match errors with
  | [] => ret tt
  | error :: rest => st_show ERROR error ;; show_errors rest
  end.

Definition render_add_asset (df : frame) (f : Form.t) (today : Cal.date) : M unit :=
  r <- lift (register df f today) ;;
  match r with
  | Rejected errors => show_errors errors
  | Accepted updated_df =>
      save_assets updated_df ;;
      st_show SUCCESS "Asset registered successfully!"
  end.

(** ** The management filter *)

(** [row.str.lower().str.cat(sep=' ')] on a row of [df.astype(str)];
    [dt64 f] says that column [f] of the frame is a datetime column. *)
Definition row_text (dt64 : field -> bool) (r : row cell) : string :=
  Str.join " "
    (map Str.lower (values (rmap (fun f c => Pd.cell_str (dt64 f) c) r))).

Definition datetime_columns (rows : list (row cell)) (f : field) : bool :=
  Pd.is_dt64 (map (rget f) rows).

Definition search_hit (rows : list (row cell)) (search : string) (r : row cell) : bool :=
  Str.contains (Str.lower search) (row_text (datetime_columns rows) r).

Definition status_hit (status_filter : string) (r : row cell) : bool :=
  Pd.eq_str (status r) status_filter.

(** The frame [render_manage_assets] displays. *)
Definition render_manage_assets (df : frame) (search status_filter : string)
  : result frame :=
  let filtered_df :=
    if Str.truthy search then
      match df with
      | NoColumns => NoColumns
      | Table rows => Table (filter (search_hit rows search) rows)
      end
    else df in
  if negb (String.eqb status_filter "All") then
    match filtered_df with
    | NoColumns => Raise KeyError
    | Table rows => Ok (Table (filter (status_hit status_filter) rows))
    end
  else Ok filtered_df.

(** ** The management filter, for any [str.lower] and [astype(str)]

    [render_manage_assets] above fixes the two library functions of the
    filter: [Str.lower], which lowers the ASCII letters, and [Pd.cell_str],
    the text pandas 2 gives a value.  [manage_assets] is the same code with
    the two left open: [str_lower] is [s.lower()] and [astype_str rows f c]
    is the text of the value [c] of column [f] in the frame cast to [str],
    [None] for a missing value that stays missing, which [str.cat] leaves
    out. *)

Section ManagePage.
Variable str_lower : string -> string.
Variable astype_str : list (row cell) -> field -> cell -> option string.

(** [row.str.lower()] on a row of [df.astype(str)], the missing values
    dropped. *)
Definition lowered_fields (rows : list (row cell)) (r : row cell) : list string :=
  flat_map (fun f => match astype_str rows f (rget f r) with
                     | Some t => [str_lower t]
                     | None => []
                     end) schema.

(** [search.lower() in row.str.lower().str.cat(sep=' ')] *)
Definition search_test (rows : list (row cell)) (search : string) (r : row cell) : bool :=
  Str.contains (str_lower search) (Str.join " " (lowered_fields rows r)).

Definition manage_assets (df : frame) (search status_filter : string) : result frame :=
  let filtered_df :=
    if Str.truthy search then
      match df with
      | NoColumns => NoColumns
      | Table rows => Table (filter (search_test rows search) rows)
      end
    else df in
  if negb (String.eqb status_filter "All") then
    match filtered_df with
    | NoColumns => Raise KeyError
    | Table rows => Ok (Table (filter (status_hit status_filter) rows))
    end
  else Ok filtered_df.

End ManagePage.

(** The text pandas 2 gives the values of a frame. *)
Definition pandas2_text (rows : list (row cell)) (f : field) (c : cell) : option string :=
  Some (Pd.cell_str (datetime_columns rows f) c).

(** ** Worlds to start from *)

Definition fresh_world : world :=
  mkWorld CsvMissing JsonMissing None [] [] [] None true.

(** ** Clearing the table *)

(** What [render_settings] does under its two "Clear All" buttons: the
    columns of the frame are written without a row, outside any [try], and
    the caches are cleared. *)
Definition clear_all_assets (df : frame) : M unit :=
  match df with
  | NoColumns => modify (with_assets_file CsvGarbled)
  | Table _ => to_csv []
  end ;;
  cache_clear ;;
  st_show SUCCESS "All assets cleared!".

(** ** Predicates the properties are stated with *)

(** Every entry of the cache of [hash_password] is what the body returns
    for its key: entries are only ever made by a call. *)
Definition cache_sound (w : world) : Prop :=
  forall p v, cache_lookup p (hash_cache w) = Some v -> v = salted_digest p.

(** A mapping from usernames to verifiers: [str] keys, [str] values. *)
Definition str_dict (m : pydict) : bool :=
  forallb (fun kv => match kv with (JStr _, JStr _) => true | _ => false end) m.

(** Two dictionaries that map the same keys to the same values. *)
Definition same_mapping (a b : pydict) : Prop :=
  forall k, Py.dict_get k a = Py.dict_get k b.

Definition lower_hex_char (c : ascii) : bool :=
  let n := nat_of_ascii c in
  (((48 <=? n) && (n <=? 57)) || ((97 <=? n) && (n <=? 102)))%nat.

Fixpoint str_forall (p : ascii -> bool) (s : string) : bool :=
  match s with
  | EmptyString => true
  | String c s' => p c && str_forall p s'
  end.

(** The required fields of the form that are blank, in the order the first
    check of [render_add_asset] lists them. *)
Definition missing_required (f : Form.t) : list field :=
  (if Str.truthy (Str.strip (Form.asset_id f)) then [] else [AssetID]) ++
  (if Str.truthy (Str.strip (Form.name f)) then [] else [AssetName]) ++
  (if Str.truthy (Str.strip (Form.brand f)) then [] else [Brand]) ++
  (if Str.truthy (Form.category f) then [] else [Category]).

(** The warranty window as the specification words it: from [today] on
    and before [today + 90 days]. *)
Definition in_window (today : Cal.date) (c : cell) : bool :=
  match c with
  | VDate d =>
      ((Cal.toordinal today <=? Cal.toordinal d)
       && (Cal.toordinal d <? Cal.toordinal today + 90))%Z
  | _ => false
  end.

(** The warranty test the dashboard applies: a date before
    [today + 90 days]. *)
Definition before_threshold (today : Cal.date) (c : cell) : bool :=
  match c with
  | VDate d => (Cal.toordinal d <? Cal.toordinal today + 90)%Z
  | _ => false
  end.

(** A warranty value the comparison with a Timestamp accepts: a Timestamp
    or a missing value. *)
Definition comparable (c : cell) : bool :=
  match c with VDate _ | VNaN | VNaT => true | _ => false end.

(** What a write that fails at line [n] leaves of the file it was to
    hold [lines] in: nothing, or the header and the lines before [n]. *)
Definition partial_file (n : nat) (lines : list (row string)) : csv_file :=
  match n with
  | O => CsvEmpty
  | S k => CsvTable (firstn k lines)
  end.

(** Cost text that is a number for [read_csv]. *)
Definition number_text (s : string) : bool :=
  negb (Pd.is_na_text s) && Pd.is_some (Num.parse_float s).

(** Cost text that is nothing to [read_csv], neither a missing value, a
    number nor a truth value, and that [float()] rejects as well. *)
Definition unparseable (s : string) : bool :=
  negb (Pd.is_na_text s) && negb (Pd.is_some (Num.parse_int s))
  && negb (Pd.is_some (Num.parse_float s)) && negb (Pd.is_some (Pd.parse_bool s))
  && negb (Pd.is_some (Pd.py_float s)).

Definition is_float_cell (c : cell) : bool :=
  match c with VFloat _ => true | _ => false end.

(** The text a field is loaded as when its column stays text. *)
Definition blank_if_na (s : string) : string :=
  if Pd.is_na_text s then "" else s.

(** The digits [repr] writes after the point. *)
Definition shown_frac (frac : string) : string :=
  if String.eqb frac "" then "0" else frac.

(** The point and the digits after it in the exponent form of [repr]:
    nothing when there is no digit to write. *)
Definition point_part (rest : string) : string :=
  if String.eqb rest "" then "" else ("." ++ rest)%string.

(** The digits [repr] writes for a float, those of the exponent apart, and
    the power of ten they are to be scaled by once they are read as one
    integer. *)
Definition written_mantissa (x : Num.pyfloat) : string :=
  match x with
  | Num.Fin _ ip frac =>
      if Num.positional x then (ip ++ shown_frac frac)%string
      else Num.norm_frac (Num.drop_leading_zeros (ip ++ frac)%string)
  | Num.Inf _ => ""
  end.

Definition scale (x : Num.pyfloat) : Z :=
  match x with
  | Num.Fin _ ip frac =>
      if Num.positional x then (- Z.of_nat (String.length (shown_frac frac)))%Z
      else if String.eqb ip "0" then (- Z.of_nat (String.length frac))%Z
      else (Z.of_nat (String.length ip)
            - Z.of_nat (String.length (written_mantissa x)))%Z
  | Num.Inf _ => 0%Z
  end.

(** A float whose text [read_csv] is sure to read as the same float.  Its
    converter takes up to 17 digits, as one integer held in a [double], and
    scales that once by a power of ten: the result is the float that was
    written when no digit is left out, the integer is below 2^53 and the
    power is at most 22.  Beyond that it can be another float
    ([0.30000000000000004] is read as [0.3]). *)
Definition read_exactly (x : Num.pyfloat) : bool :=
  match x with
  | Num.Fin _ _ _ =>
      (String.length (written_mantissa x) <=? 17)%nat
      && (Num.Z_of_digits 0 (written_mantissa x) <? 2 ^ 53)%Z
      && (Z.abs (scale x) <=? 22)%Z
  | Num.Inf _ => true
  end.

Definition in_int64 (z : Z) : bool :=
  ((Num.int64_min <=? z) && (z <=? Num.int64_max))%Z.

Definition is_object (dt : Pd.dtype) : bool :=
  match dt with Pd.DObject => true | _ => false end.

Definition is_int (dt : Pd.dtype) : bool :=
  match dt with Pd.DInt => true | _ => false end.

Definition is_float (dt : Pd.dtype) : bool :=
  match dt with Pd.DFloat => true | _ => false end.

Definition is_bool (dt : Pd.dtype) : bool :=
  match dt with Pd.DBool => true | _ => false end.

(** The type [read_csv] gives a column once [to_csv] has written it. *)
Definition written_type (col : list cell) : Pd.dtype :=
  Pd.infer_dtype (map Pd.csv_text col).

(** Values that survive a save and a load.

    In a date column: a real day a Timestamp can hold, or the mark of a
    missing date as [load_assets] leaves it, [NaT] when [fillna] keeps it
    and the empty text when [fillna] replaces it.

    In another column, whose type after the save is [dt]: the empty text;
    a text that is no missing value for [read_csv], in a column read as
    text; an [int64], in a column read as integers; a float read exactly,
    in a column read as floats; a truth value, in a column read as truth
    values.

    The Cost column, moreover, must come through the cast to [float64] as
    it is: it holds floats only, or a value the cast raises on, so that
    the column is left alone. *)
Definition date_cell_ok (blank : bool) (c : cell) : bool :=
  match c with
  | VDate d => Cal.valid d && Cal.in_ts_range d
  | VNaT => negb blank
  | VStr s => blank && String.eqb s ""
  | _ => false
  end.

Definition cell_ok (dt : Pd.dtype) (c : cell) : bool :=
  match c with
  | VStr s => String.eqb s "" || (negb (Pd.is_na_text s) && is_object dt)
  | VInt z => is_int dt && in_int64 z
  | VFloat x => is_float dt && Num.canonical x && read_exactly x
  | VBool _ => is_bool dt
  | VDate _ | VNaN | VNaT => false
  end.

Definition cast_fails (col : list cell) : bool :=
  existsb (fun c => negb (Pd.is_some (Pd.to_float c))) col.

Definition column_ok (blank : bool) (rows : list (row cell)) (f : field) : bool :=
  let col := map (rget f) rows in
  if is_date_col f then forallb (date_cell_ok blank) col
  else forallb (cell_ok (written_type col)) col
       && match f with
          | Cost => forallb is_float_cell col || cast_fails col
          | _ => true
          end.

Definition storable (blank : bool) (rows : list (row cell)) : bool :=
  forallb (column_ok blank rows) schema.

(** A frame within what the model is faithful on: its floats are floats
    [read_csv] reads exactly, its integers are [int64], which is what
    [read_csv] makes of digits, and its dates are real days a nanosecond
    Timestamp can hold. *)
Definition faithful_cell (c : cell) : bool :=
  match c with
  | VFloat x => Num.canonical x && read_exactly x
  | VInt z => in_int64 z
  | VDate d => Cal.valid d && Cal.in_ts_range d
  | _ => true
  end.

Definition faithful (rows : list (row cell)) : bool :=
  forallb (fun r => forallb (fun f => faithful_cell (rget f r)) schema) rows.

(** Text that stays text whatever else its column holds: not a missing
    value, a number or a truth value. *)
Definition plain_text (s : string) : bool :=
  negb (Pd.is_na_text s) && negb (Pd.is_some (Num.parse_int s))
  && negb (Pd.is_some (Num.parse_float s)) && negb (Pd.is_some (Pd.parse_bool s)).

(** ** Values the examples use *)

Definition bootstrap_users : pydict :=
  [(JStr "admin", JStr (salted_digest "Admin@2024"))].

Definition alice_only : pydict := [(JStr "alice", JStr (salted_digest "Secret#1"))].

Definition same_day_form : Form.t :=
  Form.mk "LAP002" "ThinkPad" "Laptop" "Lenovo" "" "" "Available" "" ""
          (Num.Fin false "0" "") (Cal.mkDate 2024 6 15) (Cal.mkDate 2024 6 15) "".

Definition nameless_form : Form.t :=
  Form.mk "LAP003" "  " "Laptop" "Lenovo" "" "" "Available" "" ""
          (Num.Fin false "0" "") (Cal.mkDate 2024 1 1) (Cal.mkDate 2025 1 1) "".

Definition brandless_form : Form.t :=
  Form.mk "LAP003" "ThinkPad" "Laptop" "" "" "" "Available" "" ""
          (Num.Fin false "0" "") (Cal.mkDate 2024 1 1) (Cal.mkDate 2025 1 1) "".

Definition lapsed_yesterday : frame :=
  Table [new_asset (Form.mk "LAP001" "ThinkPad" "Laptop" "Lenovo" "" "" "Available"
                            "" "" (Num.Fin false "0" "")
                            (Cal.mkDate 2023 6 14) (Cal.mkDate 2024 6 14) "")
                   (Cal.mkDate 2023 6 14)].

Definition two_assets : list (row cell) :=
  [new_asset (Form.mk "LAP001" "ThinkPad" "Laptop" "Lenovo" "" "" "Available"
                      "" "" (Num.Fin false "1500" "")
                      (Cal.mkDate 2024 1 1) (Cal.mkDate 2025 1 1) "")
             (Cal.mkDate 2024 6 15);
   new_asset (Form.mk "SRV001" "Rack server" "Server" "Dell" "" "" "Assigned"
                      "Ops" "" (Num.Fin false "98000" "5")
                      (Cal.mkDate 2024 2 1) (Cal.mkDate 2027 2 1) "")
             (Cal.mkDate 2024 6 15)].

Definition one_old_line : list (row string) :=
  [rtab (fun f => match f with
                  | AssetID => "OLD001" | AssetName => "Old printer"
                  | Category => "Printer" | Brand => "HP" | Status => "Disposed"
                  | PurchaseDate => "2015-01-01" | WarrantyExpiry => "2016-01-01"
                  | Cost => "120.0"
                  | CreatedDate => "2015-01-01" | LastUpdated => "2015-01-01"
                  | _ => ""
                  end)].

(** A disk that fails on the third line of the next write. *)
Definition failing_disk : world :=
  mkWorld (CsvTable one_old_line) JsonMissing None [] [] [] (Some 2) true.

Definition astype_column (col : list cell) : list cell :=
  match Pd.traverse Pd.to_float col with
  | Some col' => col'
  | None => col
  end.

Definition mixed_costs : list (row string) :=
  [rtab (fun f => match f with
                  | AssetID => "LAP001" | AssetName => "ThinkPad"
                  | Category => "Laptop" | Brand => "Lenovo" | Status => "Available"
                  | PurchaseDate => "2024-01-01" | WarrantyExpiry => "2025-01-01"
                  | Cost => "12.5"
                  | CreatedDate => "2024-01-01" | LastUpdated => "2024-01-01"
                  | _ => ""
                  end);
   rtab (fun f => match f with
                  | AssetID => "LAP002" | AssetName => "MacBook"
                  | Category => "Laptop" | Brand => "Apple" | Status => "Assigned"
                  | PurchaseDate => "2024-02-01" | WarrantyExpiry => "2025-02-01"
                  | Cost => "abc"
                  | CreatedDate => "2024-02-01" | LastUpdated => "2024-02-01"
                  | _ => ""
                  end)].

Definition mixed_costs_world : world :=
  mkWorld (CsvTable mixed_costs) JsonMissing None [] [] [] None true.

(** The text [save_assets] writes for the value [c] of column [f]. *)
Definition stored (f : field) (c : cell) : string :=
  Pd.csv_text (if is_date_col f
               then match date_text c with Some c' => c' | None => c end
               else c).

(** The value [load_assets] makes of the text [s] of column [f], in a column
    read with type [dt], before the cast of the costs. *)
Definition loaded (blank : bool) (dt : Pd.dtype) (f : field) (s : string) : cell :=
  Pd.fillna blank (if is_date_col f
                   then Pd.to_datetime_coerce (Pd.read_cell dt s)
                   else Pd.read_cell dt s).

(** A row of the frame [load_assets] makes of what [save_assets] wrote for
    [rows], before the cast of the costs. *)
Definition reloaded (blank : bool) (rows : list (row cell)) (r : row cell) : row cell :=
  rmap (fun f c =>
          loaded blank (Pd.infer_dtype (map (fun r => stored f (rget f r)) rows)) f
                 (stored f c)) r.

(** A store with no file yet, under a pandas whose [fillna] leaves [NaT]
    in a datetime column. *)
Definition new_store : world :=
  mkWorld CsvMissing JsonMissing None [] [] [] None false.

(** A frame as [load_assets] returns one: identifiers read as integers, a
    missing warranty, and costs [1e+16], [1e-05] and [inf]. *)
Definition loaded_ledger : list (row cell) :=
  [rtab (fun f => match f with
                  | AssetID => VInt 1001 | AssetName => VStr "ThinkPad"
                  | Category => VStr "Laptop" | Brand => VStr "Lenovo"
                  | Status => VStr "Available"
                  | PurchaseDate => VDate (Cal.mkDate 2024 1 1)
                  | WarrantyExpiry => VNaT
                  | Cost => VFloat (Num.Fin false "10000000000000000" "")
                  | CreatedDate => VDate (Cal.mkDate 2024 6 15)
                  | LastUpdated => VDate (Cal.mkDate 2024 6 15)
                  | _ => VStr ""
                  end);
   rtab (fun f => match f with
                  | AssetID => VInt 1002 | AssetName => VStr "Patch cable"
                  | Category => VStr "Network" | Brand => VStr "Generic"
                  | Status => VStr "Available"
                  | PurchaseDate => VDate (Cal.mkDate 2024 2 1)
                  | WarrantyExpiry => VDate (Cal.mkDate 2027 2 1)
                  | Cost => VFloat (Num.Fin false "0" "00001")
                  | CreatedDate => VDate (Cal.mkDate 2024 6 15)
                  | LastUpdated => VDate (Cal.mkDate 2024 6 15)
                  | _ => VStr ""
                  end);
   rtab (fun f => match f with
                  | AssetID => VInt 1003 | AssetName => VStr "Data centre"
                  | Category => VStr "Other" | Brand => VStr "Own"
                  | Status => VStr "Assigned" | AssignedTo => VStr "Ops"
                  | PurchaseDate => VDate (Cal.mkDate 2020 1 1)
                  | WarrantyExpiry => VDate (Cal.mkDate 2030 1 1)
                  | Cost => VFloat (Num.Inf false)
                  | CreatedDate => VDate (Cal.mkDate 2024 6 15)
                  | LastUpdated => VDate (Cal.mkDate 2024 6 15)
                  | _ => VStr ""
                  end)].

Definition numbered_serial : list (row cell) :=
  [new_asset (Form.mk "LAP001" "ThinkPad" "Laptop" "Lenovo" "T14" "007" "Available"
                      "" "" (Num.Fin false "1500" "")
                      (Cal.mkDate 2024 1 1) (Cal.mkDate 2025 1 1) "N/A")
             (Cal.mkDate 2024 6 15)].

(** What [load_assets] leaves in a date column: a Timestamp, or the mark of
    a missing date, which is the empty text when [fillna] replaces [NaT] and
    [NaT] when it does not. *)
Definition loaded_date_cell (blank : bool) (c : cell) : bool :=
  match c with
  | VDate _ => true
  | VNaT => negb blank
  | VStr s => blank && String.eqb s ""
  | _ => false
  end.

Definition is_nan (c : cell) : bool :=
  match c with VNaN => true | _ => false end.

(** A record as the registration form makes them: identifier, name, brand
    and category are text and not empty, purchase and warranty are dates
    with the warranty after the purchase, and the record was not updated
    before it was created. *)
Definition nonempty_text (c : cell) : bool :=
  match c with VStr s => Str.truthy s | _ => false end.

Definition record_ok (r : row cell) : bool :=
  nonempty_text (asset_id r) && nonempty_text (asset_name r)
  && nonempty_text (brand r) && nonempty_text (category r)
  && match purchase_date r, warranty_expiry r with
     | VDate p, VDate x => negb (Cal.leb x p)
     | _, _ => false
     end
  && match created_date r, last_updated r with
     | VDate c, VDate u => Cal.leb c u
     | _, _ => false
     end.

Definition error_lines (errors : list string) : list (level * string) :=
  map (fun e => (ERROR, e)) errors.

Definition good_form : Form.t :=
  Form.mk " LAP777 " "ThinkPad" "Laptop" "Lenovo" "" "" "Available" "" ""
          (Num.Fin false "1500" "") (Cal.mkDate 2024 1 1) (Cal.mkDate 2025 1 1) "".

(** A disk that fails on the first row of the next write. *)
Definition failing_first_row : world :=
  mkWorld CsvMissing JsonMissing None [] [] [] (Some 1) true.

(** A status one of the three the dashboard counts. *)
Definition counted_status (r : row cell) : bool :=
  Pd.eq_str (status r) "Assigned" || Pd.eq_str (status r) "Available"
  || Pd.eq_str (status r) "Repair".

Definition three_statuses : frame :=
  Table (map (fun s => new_asset (Form.mk "A1" "n" "Laptop" "b" "" "" s "" ""
                                          (Num.Fin false "0" "")
                                          (Cal.mkDate 2024 1 1) (Cal.mkDate 2025 1 1) "")
                                 (Cal.mkDate 2024 1 1))
             ["Assigned"; "Assigned"; "Available"; "Repair"; "Available"; "Disposed"]).

(** The document [load_users] reads: a list with one object per user,
    holding the username and the verifier. *)
Definition user_record (u : string * string) : json :=
  JObj [("username", JStr (fst u)); ("password_hash", JStr (snd u))].

Definition users_doc (m : list (string * string)) : json :=
  JArr (map user_record m).

(** The dictionary of usernames and verifiers, in the order of [m]. *)
Definition to_pydict (m : list (string * string)) : pydict :=
  map (fun u => (JStr (fst u), JStr (snd u))) m.

Definition two_users : list (string * string) :=
  [("admin", salted_digest "Admin@2024"); ("alice", salted_digest "Secret#1")].

Definition two_users_world : world :=
  mkWorld CsvMissing (JsonDoc (users_doc two_users)) None [] [] [] None true.

(** The text of a date field in a file [save_assets] wrote: empty, or the
    ten characters of a day a Timestamp can hold. *)
Definition written_date (s : string) : Prop :=
  s = "" \/ exists d, Cal.in_ts_range d = true /\ s = Cal.strftime d.

(** A file of two assets, the second without a warranty date, and a pandas
    whose [fillna("")] leaves a missing date as it is. *)
Definition one_warranty_missing : list (row string) :=
  [rtab (fun f => match f with
                  | AssetID => "LAP001" | AssetName => "ThinkPad"
                  | Category => "Laptop" | Brand => "Lenovo" | Status => "Available"
                  | PurchaseDate => "2024-01-01" | WarrantyExpiry => "2024-07-01"
                  | Cost => "1500.0"
                  | CreatedDate => "2024-01-01" | LastUpdated => "2024-01-01"
                  | _ => ""
                  end);
   rtab (fun f => match f with
                  | AssetID => "MON001" | AssetName => "Monitor"
                  | Category => "Monitor" | Brand => "Dell" | Status => "Assigned"
                  | PurchaseDate => "2024-02-01"
                  | Cost => "200.0"
                  | CreatedDate => "2024-02-01" | LastUpdated => "2024-02-01"
                  | _ => ""
                  end)].

Definition one_warranty_missing_world : world :=
  mkWorld (CsvTable one_warranty_missing) JsonMissing None [] [] [] None false.

(** Two forms with the identifier 1001. *)
Definition numeric_id_form : Form.t :=
  Form.mk "1001" "ThinkPad" "Laptop" "Lenovo" "" "" "Available" "" ""
          (Num.Fin false "1500" "") (Cal.mkDate 2024 1 1) (Cal.mkDate 2025 1 1) "".

Definition numeric_id_again : Form.t :=
  Form.mk "1001" "Latitude" "Laptop" "Dell" "" "" "Assigned" "Ops" ""
          (Num.Fin false "900" "") (Cal.mkDate 2024 3 1) (Cal.mkDate 2025 3 1) "".




Inductive selection {A : Type} (P : A -> Prop) : list A -> list A -> Prop :=
| selection_nil : selection P [] []
| selection_keep a l l' : P a -> selection P l l' -> selection P (a :: l) (a :: l')
| selection_skip a l l' : ~ P a -> selection P l l' -> selection P (a :: l) l'.


Definition laptop_and_printer : list (row cell) :=
  [new_asset (Form.mk "LAP001" "ThinkPad Laptop" "Laptop" "Lenovo" "" "" "Available"
                      "" "" (Num.Fin false "1500" "")
                      (Cal.mkDate 2024 1 1) (Cal.mkDate 2025 1 1) "")
             (Cal.mkDate 2024 6 15);
   new_asset (Form.mk "PRN001" "LaserJet" "Printer" "HP" "" "" "Available"
                      "" "" (Num.Fin false "300" "")
                      (Cal.mkDate 2024 1 1) (Cal.mkDate 2025 1 1) "")
             (Cal.mkDate 2024 6 15);
   new_asset (Form.mk "LAP002" "MacBook" "Laptop" "Apple" "" "" "Assigned"
                      "Ann" "" (Num.Fin false "2500" "")
                      (Cal.mkDate 2024 1 1) (Cal.mkDate 2025 1 1) "")
             (Cal.mkDate 2024 6 15)].

(** * Properties *)

Example sha256_abc :
  Sha256.hexdigest "abc"
  = "ba7816bf8f01cfea414140de5dae2223b00361a396177a9cb410ff61f20015ad".
Proof. vm_compute. reflexivity. Qed.

Example sha256_empty :
  Sha256.hexdigest ""
  = "e3b0c44298fc1c149afbf4c8996fb92427ae41e4649b934ca495991b7852b855".
Proof. vm_compute. reflexivity. Qed.

(** The verifier of the bootstrap secret, as every implementation of the
    construction computes it. *)
Example bootstrap_verifier :
  salted_digest "Admin@2024"
  = "dd86b051e3a76a80ddd6e4a8417e056479f114f8360bf67ba45ed8f461946be3".
Proof. vm_compute. reflexivity. Qed.

(** *** The digest is 64 lowercase hexadecimal characters *)

Section HexDigest.
Local Open Scope Z_scope.

Lemma round_length st kw : List.length st = 8%nat -> List.length (Sha256.round st kw) = 8%nat.
Proof.
  destruct st as [|a [|b [|c [|d [|e [|f [|g [|h [|]]]]]]]]]; simpl; intros H;
    try discriminate; reflexivity.
Qed.

Lemma rounds_length l : forall st,
  List.length st = 8%nat -> List.length (fold_left Sha256.round l st) = 8%nat.
Proof.
  induction l as [|kw l IH]; simpl; intros st H; [exact H|].
  apply IH, round_length, H.
Qed.

Lemma compress_length h block :
  List.length h = 8%nat -> List.length (Sha256.compress h block) = 8%nat.
Proof.
  intros H. unfold Sha256.compress.
  rewrite length_map, length_combine, rounds_length, H; auto.
Qed.

Lemma state_length bl : forall h,
  List.length h = 8%nat -> List.length (fold_left Sha256.compress bl h) = 8%nat.
Proof.
  induction bl as [|b bl IH]; simpl; intros h H; [exact H|].
  apply IH, compress_length, H.
Qed.

Lemma hex_digit_lower n : 0 <= n < 16 -> lower_hex_char (Sha256.hex_digit n) = true.
Proof.
intros H.
assert (T : forallb (fun k => lower_hex_char (Sha256.hex_digit (Z.of_nat k)))
                    (seq 0 16) = true) by reflexivity.
rewrite forallb_forall in T. specialize (T (Z.to_nat n)).
rewrite Z2Nat.id in T by lia. apply T, in_seq. lia.
Qed.

Lemma hex_bytes bs :
  Forall (fun b => 0 <= b < 256) bs ->
  String.length (Sha256.hex bs) = (2 * List.length bs)%nat /\
  str_forall lower_hex_char (Sha256.hex bs) = true.
Proof.
  induction 1 as [|b bs Hb _ [IHl IHc]]; [split; reflexivity|].
  split.
  - simpl. rewrite IHl. lia.
  - cbn [Sha256.hex str_forall]. rewrite IHc.
    rewrite !hex_digit_lower; [reflexivity| |].
    + apply Z.mod_pos_bound. lia.
    + split; [apply Z.div_pos; lia | apply Z.div_lt_upper_bound; lia].
Qed.

Lemma be_bytes_range n x : Forall (fun b => 0 <= b < 256) (Sha256.be_bytes n x).
Proof.
  unfold Sha256.be_bytes. apply Forall_forall. intros b Hb.
  apply in_map_iff in Hb. destruct Hb as [i [<- _]].
  apply Z.mod_pos_bound. lia.
Qed.

Lemma flat_be_bytes l :
  Forall (fun b => 0 <= b < 256) (flat_map (Sha256.be_bytes 4) l) /\
  List.length (flat_map (Sha256.be_bytes 4) l) = (4 * List.length l)%nat.
Proof.
  induction l as [|x l [IH1 IH2]]; [split; [constructor|reflexivity]|].
  change (flat_map (Sha256.be_bytes 4) (x :: l))
    with (Sha256.be_bytes 4 x ++ flat_map (Sha256.be_bytes 4) l).
  split.
  - apply Forall_app. split; [apply be_bytes_range | exact IH1].
  - rewrite length_app, IH2. simpl. lia.
Qed.

Lemma hexdigest_shape s :
  String.length (Sha256.hexdigest s) = 64%nat /\
  str_forall lower_hex_char (Sha256.hexdigest s) = true.
Proof.
  unfold Sha256.hexdigest, Sha256.digest.
  set (st := fold_left Sha256.compress _ Sha256.H_init).
  assert (L : List.length st = 8%nat) by (apply state_length; reflexivity).
  destruct (flat_be_bytes st) as [R N].
  destruct (hex_bytes _ R) as [HL HC].
  split; [rewrite HL, N, L; reflexivity | exact HC].
Qed.

End HexDigest.

(** *** The verifier and its cache *)

Lemma fresh_cache_sound : cache_sound fresh_world.
Proof. intros p v H. discriminate H. Qed.

Lemma cache_sound_add w p :
  cache_sound w ->
  cache_sound (with_hash_cache ((p, salted_digest p) :: hash_cache w) w).
Proof.
  intros Hs q v. cbn [hash_cache with_hash_cache cache_lookup].
  destruct (String.eqb q p) eqn:E.
  - apply String.eqb_eq in E. subst q. intros [= <-]. reflexivity.
  - apply Hs.
Qed.

(** A call of [hash_password] in a world with a sound cache returns the
    salted digest and changes nothing but the cache, which stays sound. *)
Lemma hash_password_spec w secret :
  cache_sound w ->
  exists c,
    hash_password secret w = (Ok (salted_digest secret), with_hash_cache c w) /\
    cache_sound (with_hash_cache c w).
Proof.
  intros Hs. unfold hash_password, bind, get.
  destruct (cache_lookup secret (hash_cache w)) eqn:E.
  - exists (hash_cache w). rewrite (Hs _ _ E).
    assert (W : with_hash_cache (hash_cache w) w = w) by (destruct w; reflexivity).
    rewrite W. split; [reflexivity | exact Hs].
  - exists ((secret, salted_digest secret) :: hash_cache w).
    split; [reflexivity | apply cache_sound_add, Hs].
Qed.

(** [load_users] when there is no credential file. *)
Lemma load_users_missing w :
  cache_sound w -> users_file w = JsonMissing ->
  exists c,
    load_users w = (Ok bootstrap_users, with_hash_cache c w) /\
    cache_sound (with_hash_cache c w).
Proof.
  intros Hs Hf. destruct (hash_password_spec w "Admin@2024" Hs) as [c [E Hs']].
  exists c. split; [|exact Hs'].
  unfold load_users, bind. rewrite E. unfold get.
  cbn [users_file with_hash_cache]. rewrite Hf. reflexivity.
Qed.

(** C7: [hash_password] returns, in every world whose cache holds only what
    earlier calls stored, the lowercase hexadecimal SHA-256 digest of
    ["itsm_salt_"] followed by the secret, 64 characters long; a second call
    with the same secret returns the same verifier; and when there is no
    credential file, logging in as [admin] with [Admin@2024] succeeds. *)
Theorem verifier_construction_and_bootstrap_login (w : world) :
  cache_sound w ->
  (forall secret,
      fst (hash_password secret w) = Ok (Sha256.hexdigest ("itsm_salt_" ++ secret)) /\
      fst (hash_password secret (snd (hash_password secret w)))
      = fst (hash_password secret w) /\
      String.length (Sha256.hexdigest ("itsm_salt_" ++ secret)) = 64 /\
      str_forall lower_hex_char (Sha256.hexdigest ("itsm_salt_" ++ secret)) = true) /\
  (users_file w = JsonMissing ->
   exists users w1,
     load_users w = (Ok users, w1) /\
     fst (authenticate users "admin" "Admin@2024" w1) = Ok true).
Proof.
  intros Hs. split.
  - intros secret.
    destruct (hash_password_spec w secret Hs) as [c [E Hs']].
    destruct (hash_password_spec _ secret Hs') as [c' [E' _]].
    rewrite E. cbn [fst snd]. rewrite E'. cbn [fst].
    repeat split; try reflexivity; apply hexdigest_shape.
  - intros Hf.
    destruct (load_users_missing w Hs Hf) as [c [E Hs']].
    exists bootstrap_users, (with_hash_cache c w). split; [exact E|].
    destruct (hash_password_spec _ "Admin@2024" Hs') as [c' [E' _]].
    unfold authenticate, bootstrap_users.
    cbn [Py.dict_get Py.key_eqb String.eqb Ascii.eqb Bool.eqb].
    unfold bind. rewrite E'. cbn [ret fst Py.eq_str].
    rewrite String.eqb_refl. reflexivity.
Qed.

Lemma verifier_construction_and_bootstrap_login_witness :
  cache_sound fresh_world /\
  (forall secret,
      fst (hash_password secret fresh_world)
      = Ok (Sha256.hexdigest ("itsm_salt_" ++ secret)) /\
      fst (hash_password secret (snd (hash_password secret fresh_world)))
      = fst (hash_password secret fresh_world) /\
      String.length (Sha256.hexdigest ("itsm_salt_" ++ secret)) = 64 /\
      str_forall lower_hex_char (Sha256.hexdigest ("itsm_salt_" ++ secret)) = true) /\
  (users_file fresh_world = JsonMissing ->
   exists users w1,
     load_users fresh_world = (Ok users, w1) /\
     fst (authenticate users "admin" "Admin@2024" w1) = Ok true).
Proof.
  split.
  - intros p v H. discriminate H.
  - apply (verifier_construction_and_bootstrap_login fresh_world).
    intros p v H. discriminate H.
Defined.

(** *** What [save_users] writes and what [load_users] makes of it *)

Lemma save_users_writes w users :
  disk_fault w = None ->
  save_users users w
  = (Ok tt, with_users_file (JsonDoc (JArr (Py.dict_values users))) w).
Proof.
  intros Hd. unfold save_users, try_except, json_dump, bind, get.
  rewrite Hd. reflexivity.
Qed.

Lemma str_dict_values m :
  str_dict m = true -> m <> [] ->
  exists s rest, Py.dict_values m = JStr s :: rest.
Proof.
  destruct m as [|[k x] m]; intros Hd Hn; [contradiction|].
  cbn [str_dict forallb] in Hd.
  destruct k; try discriminate Hd. destruct x; try discriminate Hd.
  exists s0, (Py.dict_values m). reflexivity.
Qed.

(** A document whose first item is a bare string is not a list of user
    records: subscripting the string raises. *)
Lemma users_of_bare_strings s rest : users_of_json (JArr (JStr s :: rest)) = None.
Proof. reflexivity. Qed.

Lemma load_users_unreadable w j :
  cache_sound w -> users_file w = JsonDoc j -> users_of_json j = None ->
  exists c,
    load_users w
    = (Ok bootstrap_users,
       with_log (log w ++ [(ERROR, "Failed to load users")]) (with_hash_cache c w)).
Proof.
  intros Hs Hf Hj. destruct (hash_password_spec w "Admin@2024" Hs) as [c [E _]].
  exists c. unfold load_users, bind. rewrite E. unfold get.
  cbn [users_file with_hash_cache]. rewrite Hf, Hj. reflexivity.
Qed.

(** C1: with a working disk, [save_users] writes the bare list of the
    verifiers of a non-empty mapping, without the usernames, and the
    [load_users] that follows cannot read it: it logs the failure and
    returns the bootstrap identity alone. *)
Theorem saved_users_do_not_load (w : world) (m : pydict) :
  cache_sound w -> disk_fault w = None -> str_dict m = true -> m <> [] ->
  let w1 := snd (save_users m w) in
  users_file w1 = JsonDoc (JArr (Py.dict_values m)) /\
  fst (load_users w1) = Ok bootstrap_users /\
  log (snd (load_users w1)) = log w ++ [(ERROR, "Failed to load users")].
Proof.
  intros Hs Hd Hm Hn w1. subst w1. rewrite (save_users_writes w m Hd). cbn [snd].
  destruct (str_dict_values m Hm Hn) as [s [rest Hv]].
  assert (Hs' : cache_sound (with_users_file (JsonDoc (JArr (Py.dict_values m))) w))
    by exact Hs.
  destruct (load_users_unreadable _ (JArr (Py.dict_values m)) Hs' eq_refl) as [c E].
  { rewrite Hv. apply users_of_bare_strings. }
  rewrite E. repeat split.
Qed.

Lemma saved_users_do_not_load_witness :
  cache_sound fresh_world /\ disk_fault fresh_world = None /\
  str_dict alice_only = true /\ alice_only <> [] /\
  (let w1 := snd (save_users alice_only fresh_world) in
   users_file w1 = JsonDoc (JArr (Py.dict_values alice_only)) /\
   fst (load_users w1) = Ok bootstrap_users /\
   log (snd (load_users w1)) = log fresh_world ++ [(ERROR, "Failed to load users")]).
Proof.
  split; [intros p v H; discriminate H|].
  split; [reflexivity|]. split; [reflexivity|]. split; [discriminate|].
  apply (saved_users_do_not_load fresh_world alice_only).
  - intros p v H. discriminate H.
  - reflexivity.
  - reflexivity.
  - discriminate.
Defined.

(** The mapping that comes back is not the one that was saved: [alice] is
    gone and [admin] has appeared. *)
Lemma saved_mapping_is_lost :
  forall users, fst (load_users (snd (save_users alice_only fresh_world))) = Ok users ->
  ~ same_mapping users alice_only.
Proof.
  intros users H. vm_compute in H. injection H as <-. intros S.
  specialize (S (JStr "alice")). vm_compute in S. discriminate S.
Qed.

(** The same through the settings page: a user created there cannot log in
    afterwards. *)
Example created_user_cannot_log_in :
  fst (login "alice" "Secret#1" (snd (create_user "alice" "Secret#1" fresh_world)))
  = Ok false.
Proof. vm_compute. reflexivity. Qed.

(** *** Registration checks *)

Lemma validate_table rows f :
  validate (Table rows) f
  = Ok ((if required_missing f then [msg_required] else []) ++
        (if id_exists (map asset_id rows) f then [msg_duplicate] else []) ++
        (if warranty_not_after f then [msg_warranty] else [])).
Proof. reflexivity. Qed.

Lemma register_rejects df f today errors :
  validate df f = Ok errors -> errors <> [] ->
  register df f today = Ok (Rejected errors).
Proof.
  intros E Hn. unfold register. rewrite E.
  destruct errors; [contradiction | reflexivity].
Qed.

Lemma register_accepts rows f today df' :
  register (Table rows) f today = Ok (Accepted df') ->
  validate (Table rows) f = Ok [] /\ df' = Table (rows ++ [new_asset f today]).
Proof.
  unfold register. destruct (validate (Table rows) f) as [[|e errs]|e] eqn:E;
    intros H; try discriminate H.
  injection H as <-. split; reflexivity.
Qed.

Lemma register_never_accepts_without_columns f today :
  register NoColumns f today = Raise KeyError.
Proof. reflexivity. Qed.

Lemma id_exists_iff ids f :
  id_exists ids f = true <-> In (VStr (Str.strip (Form.asset_id f))) ids.
Proof.
  unfold id_exists. rewrite existsb_exists. split.
  - intros [c [Hin He]]. destruct c; try discriminate He.
    cbn in He. apply String.eqb_eq in He. subst. exact Hin.
  - intros Hin. eexists. split; [exact Hin|]. cbn. apply String.eqb_refl.
Qed.

(** Identifiers held as text: when the identifier of the candidate, as it
    would be stored, is the text of the identifier of a record of the
    frame, the registration is rejected with "Asset ID already exists"
    among its errors; and a frame that registration produces has pairwise
    different identifier values when the frame it started from had.  An
    identifier column that [read_csv] has read as numbers is another
    matter, see [numeric_identifier_is_registered_twice]. *)
Theorem register_keeps_asset_ids_unique (rows : list (row cell)) (f : Form.t)
        (today : Cal.date) :
  (In (VStr (Str.strip (Form.asset_id f))) (map asset_id rows) ->
   exists errors,
     register (Table rows) f today = Ok (Rejected errors) /\
     In msg_duplicate errors) /\
  (forall df',
      register (Table rows) f today = Ok (Accepted df') ->
      NoDup (map asset_id rows) ->
      NoDup (map asset_id (frame_rows df'))).
Proof.
  split.
  - intros Hin. apply id_exists_iff in Hin.
    eexists. split.
    + apply register_rejects; [apply validate_table|].
      rewrite Hin. destruct (required_missing f); discriminate.
    + rewrite Hin. apply in_or_app. right. left. reflexivity.
  - intros df' Hacc Hnd. apply register_accepts in Hacc. destruct Hacc as [Hv ->].
    cbn [frame_rows]. rewrite map_app. cbn [map].
    rewrite validate_table in Hv. injection Hv as Hv.
    apply app_eq_nil in Hv. destruct Hv as [_ Hv].
    apply app_eq_nil in Hv. destruct Hv as [Hv _].
    destruct (id_exists (map asset_id rows) f) eqn:E; [discriminate Hv|].
    apply NoDup_app_remove_l with (l := []). cbn.
    rewrite <- (rev_involutive (map asset_id rows ++ _)).
    apply NoDup_rev. rewrite rev_app_distr. cbn.
    constructor.
    + rewrite <- in_rev. intros Hin. apply id_exists_iff in Hin. congruence.
    + apply NoDup_rev. exact Hnd.
Qed.

Lemma register_keeps_asset_ids_unique_witness :
  let rows := [new_asset (Form.mk "LAP001" "ThinkPad" "Laptop" "Lenovo" "" "" "Available"
                                  "" "" (Num.Fin false "0" "")
                                  (Cal.mkDate 2024 1 1) (Cal.mkDate 2025 1 1) "")
                         (Cal.mkDate 2024 1 1)] in
  let f := Form.mk " LAP001 " "Other" "Laptop" "Dell" "" "" "Available" "" ""
                   (Num.Fin false "0" "") (Cal.mkDate 2024 1 1) (Cal.mkDate 2025 1 1) "" in
  In (VStr (Str.strip (Form.asset_id f))) (map asset_id rows) /\
  exists errors,
    register (Table rows) f (Cal.mkDate 2024 6 15) = Ok (Rejected errors) /\
    In msg_duplicate errors.
Proof.
  intros rows f. split.
  - left. reflexivity.
  - apply (register_keeps_asset_ids_unique rows f (Cal.mkDate 2024 6 15)).
    left. reflexivity.
Defined.

(** C4: the code does not keep identifiers unique when they read as
    numbers.  The asset 1001 is registered on the empty table and saved; the
    frame loaded afterwards holds the identifier as the integer 1001, with
    which the text "1001" of a second form does not compare equal; the
    second registration is accepted, and the table loaded after it has two
    records with the identifier 1001. *)
Theorem numeric_identifier_is_registered_twice :
  let today := Cal.mkDate 2024 6 15 in
  let w1 := snd (render_add_asset (Table []) numeric_id_form today fresh_world) in
  exists df1 df2 updated,
    fst (load_assets w1) = Ok df1 /\
    column AssetID df1 = Some [VInt 1001] /\
    register df1 numeric_id_again today = Ok (Accepted updated) /\
    fst (load_assets (snd (render_add_asset df1 numeric_id_again today
                             (snd (load_assets w1))))) = Ok df2 /\
    column AssetID df2 = Some [VInt 1001; VInt 1001].
Proof.
  intros today w1. eexists _, _, _.
  split; [vm_compute; reflexivity|].
  split; [vm_compute; reflexivity|].
  split; [vm_compute; reflexivity|].
  split; vm_compute; reflexivity.
Qed.

(** C5: a candidate whose warranty end is on or before its purchase
    date, the same day included, is never registered: on a frame with the
    asset columns the registration is rejected with "Warranty must exceed
    purchase date" among its errors. *)
Theorem register_rejects_warranty_not_after_purchase (df : frame) (f : Form.t)
        (today : Cal.date) :
  Cal.leb (Form.warranty f) (Form.purchase f) = true ->
  (forall df', register df f today <> Ok (Accepted df')) /\
  (forall rows, df = Table rows ->
     exists errors,
       register df f today = Ok (Rejected errors) /\ In msg_warranty errors).
Proof.
  intros Hle.
  assert (R : forall rows, df = Table rows ->
     exists errors,
       register df f today = Ok (Rejected errors) /\ In msg_warranty errors).
  { intros rows ->. eexists. split.
    - apply register_rejects; [apply validate_table|].
      unfold warranty_not_after. rewrite Hle.
      destruct (required_missing f), (id_exists (map asset_id rows) f); discriminate.
    - unfold warranty_not_after. rewrite Hle.
      apply in_or_app. right. apply in_or_app. right. left. reflexivity. }
  split; [|exact R].
  intros df' H. destruct df as [|rows].
  - discriminate H.
  - destruct (R rows eq_refl) as [errors [E _]]. rewrite E in H. discriminate H.
Qed.

Lemma register_rejects_warranty_not_after_purchase_witness :
  Cal.leb (Form.warranty same_day_form) (Form.purchase same_day_form) = true /\
  (forall df',
      register (Table []) same_day_form (Cal.mkDate 2024 6 15) <> Ok (Accepted df')) /\
  (forall rows, Table [] = Table rows ->
     exists errors,
       register (Table []) same_day_form (Cal.mkDate 2024 6 15) = Ok (Rejected errors) /\
       In msg_warranty errors).
Proof.
  split; [reflexivity|].
  apply (register_rejects_warranty_not_after_purchase
           (Table []) same_day_form (Cal.mkDate 2024 6 15)).
  reflexivity.
Defined.

Lemma required_missing_iff f :
  required_missing f = true <-> missing_required f <> [].
Proof.
  unfold required_missing, missing_required. cbn [forallb].
  destruct (Str.truthy (Str.strip (Form.asset_id f))),
           (Str.truthy (Str.strip (Form.name f))),
           (Str.truthy (Str.strip (Form.brand f))),
           (Str.truthy (Form.category f)); cbn; split; intros H;
    try discriminate; try reflexivity; try (exfalso; apply H; reflexivity).
Qed.

(** C6, as stated, fails: the errors do not tell which required field is
    blank.  A form without a name and a form without a brand are rejected
    with the same single error, so nothing computed from the errors names
    the field. *)
Lemma errors_do_not_name_the_blank_field :
  register (Table []) nameless_form (Cal.mkDate 2024 6 15)
  = Ok (Rejected ["Required fields missing"]) /\
  register (Table []) brandless_form (Cal.mkDate 2024 6 15)
  = Ok (Rejected ["Required fields missing"]) /\
  missing_required nameless_form = [AssetName] /\
  missing_required brandless_form = [Brand] /\
  ~ (exists decode : list string -> list field,
        forall rows f today errors,
          register (Table rows) f today = Ok (Rejected errors) ->
          decode errors = missing_required f).
Proof.
  repeat split; try reflexivity.
  intros [decode H].
  pose proof (H [] nameless_form (Cal.mkDate 2024 6 15) [msg_required] eq_refl) as H1.
  pose proof (H [] brandless_form (Cal.mkDate 2024 6 15) [msg_required] eq_refl) as H2.
  rewrite H1 in H2. discriminate H2.
Qed.

(** C6, amended: a rejection carries one message for each of the three
    checks that fails, all of them and in the order of the checks: a
    required field is blank, the identifier is taken, the warranty does not
    end after the purchase. *)
Theorem rejection_lists_every_failed_check (rows : list (row cell)) (f : Form.t)
        (today : Cal.date) (errors : list string) :
  register (Table rows) f today = Ok (Rejected errors) ->
  errors = (if required_missing f then [msg_required] else []) ++
           (if id_exists (map asset_id rows) f then [msg_duplicate] else []) ++
           (if warranty_not_after f then [msg_warranty] else []) /\
  (In msg_required errors <-> missing_required f <> []) /\
  (In msg_duplicate errors <->
     In (VStr (Str.strip (Form.asset_id f))) (map asset_id rows)) /\
  (In msg_warranty errors <-> Cal.leb (Form.warranty f) (Form.purchase f) = true).
Proof.
  intros H. unfold register in H. rewrite validate_table in H.
  assert (E : errors = (if required_missing f then [msg_required] else []) ++
           (if id_exists (map asset_id rows) f then [msg_duplicate] else []) ++
           (if warranty_not_after f then [msg_warranty] else [])).
  { destruct (required_missing f), (id_exists (map asset_id rows) f),
      (warranty_not_after f); cbn in H; try discriminate H;
      injection H as <-; reflexivity. }
  split; [exact E|].
  rewrite <- required_missing_iff, <- id_exists_iff. fold (warranty_not_after f).
  rewrite E.
  destruct (required_missing f), (id_exists (map asset_id rows) f),
    (warranty_not_after f); cbn; repeat split; intros G;
    try reflexivity; try discriminate G; auto;
    repeat (destruct G as [G | G]; try discriminate G); try contradiction.
Qed.

Lemma rejection_lists_every_failed_check_witness :
  register (Table []) nameless_form (Cal.mkDate 2024 6 15)
  = Ok (Rejected [msg_required]) /\
  ([msg_required]
   = (if required_missing nameless_form then [msg_required] else []) ++
     (if id_exists (map asset_id []) nameless_form then [msg_duplicate] else []) ++
     (if warranty_not_after nameless_form then [msg_warranty] else []) /\
   (In msg_required [msg_required] <-> missing_required nameless_form <> []) /\
   (In msg_duplicate [msg_required] <->
      In (VStr (Str.strip (Form.asset_id nameless_form))) (map asset_id [])) /\
   (In msg_warranty [msg_required] <->
      Cal.leb (Form.warranty nameless_form) (Form.purchase nameless_form) = true)).
Proof.
  split; [reflexivity|].
  apply (rejection_lists_every_failed_check [] nameless_form (Cal.mkDate 2024 6 15)).
  reflexivity.
Defined.

(** *** The management filter *)


Lemma filter_both {A} (p q : A -> bool) l :
  filter q (filter p l) = filter (fun x => p x && q x) l.
Proof.
  induction l as [|x l IH]; [reflexivity|]. cbn.
  destruct (p x); cbn; [destruct (q x)|]; rewrite IH; reflexivity.
Qed.






(** There is one selection of a list. *)
Lemma selection_unique {A} (P : A -> Prop) l l1 l2 :
  selection P l l1 -> selection P l l2 -> l1 = l2.
Proof.
  intros H1. revert l2. induction H1; intros l2 H2; inversion H2; subst;
    try contradiction; [reflexivity | f_equal; auto | auto].
Qed.




(** [render_manage_assets] is [manage_assets] at the ASCII [lower] and the
    text of pandas 2. *)
Lemma render_manage_assets_instance df search status_filter :
  render_manage_assets df search status_filter
  = manage_assets Str.lower pandas2_text df search status_filter.
Proof. reflexivity. Qed.



(** Of a ThinkPad laptop that is available, a printer that is available
    and a laptop that is assigned, the query "LAPTOP" with the status
    "Available" shows the first. *)
Example available_laptop_is_shown :
  render_manage_assets (Table laptop_and_printer) "LAPTOP" "Available"
  = Ok (Table (firstn 1 laptop_and_printer)).
Proof. vm_compute. reflexivity. Qed.

(** *** The expiring-soon count *)

Lemma expiring_rows_comparable threshold rows :
  forallb (fun r => comparable (warranty_expiry r)) rows = true ->
  expiring_rows threshold rows
  = Ok (filter (fun r => match warranty_expiry r with
                         | VDate d => (Cal.toordinal d <? threshold)%Z
                         | _ => false
                         end) rows).
Proof.
  induction rows as [|r rows IH]; [reflexivity|].
  cbn [forallb]. intros H. apply andb_true_iff in H. destruct H as [Hc Hr].
  cbn [expiring_rows filter]. rewrite (IH Hr).
  destruct (warranty_expiry r); try discriminate Hc; reflexivity.
Qed.

Lemma dropna_selected today rows :
  dropna_warranty (filter (fun r => before_threshold today (warranty_expiry r)) rows)
  = filter (fun r => before_threshold today (warranty_expiry r)) rows.
Proof.
  unfold dropna_warranty. rewrite filter_both. apply filter_ext.
  intros r. destruct (warranty_expiry r); cbn; rewrite ?andb_true_r; reflexivity.
Qed.

(** C2, as stated, fails: there is no lower bound.  On 2024-06-15 a
    warranty that ended on 2024-06-14 is counted as expiring soon, and the
    window of the specification does not hold it. *)
Lemma lapsed_warranty_is_counted :
  render_dashboard lapsed_yesterday (Cal.mkDate 2024 6 15)
  = Ok (Some (mkMetrics 1 0 1 0 1)) /\
  List.length (filter (fun r => in_window (Cal.mkDate 2024 6 15) (warranty_expiry r))
                      (frame_rows lapsed_yesterday)) = 0.
Proof. split; vm_compute; reflexivity. Qed.

(** C2, amended: on a frame with rows whose warranty values are Timestamps
    or missing, the expiring-soon count is the number of rows whose
    warranty is a date strictly before [today + 90 days]: [today + 89] is
    counted, [today + 90] is not, a missing date is not, and every date
    before [today] is. *)
Theorem expiring_counts_dates_before_threshold (df : frame) (today : Cal.date) :
  frame_empty df = false ->
  forallb (fun r => comparable (warranty_expiry r)) (frame_rows df) = true ->
  (exists m,
      render_dashboard df today = Ok (Some m) /\
      expiring m
      = List.length (filter (fun r => before_threshold today (warranty_expiry r))
                            (frame_rows df))) /\
  (forall d, before_threshold today (VDate d) = true
             <-> (Cal.toordinal d < Cal.toordinal today + 90)%Z) /\
  before_threshold today VNaT = false /\ before_threshold today VNaN = false.
Proof.
  intros He Hc. split; [|split; [|split; reflexivity]].
  - unfold render_dashboard. rewrite He.
    rewrite (expiring_rows_comparable _ _ Hc).
    eexists. split; [reflexivity|]. cbn [expiring].
    change (filter _ (frame_rows df))
      with (filter (fun r => before_threshold today (warranty_expiry r)) (frame_rows df)).
    rewrite dropna_selected. reflexivity.
  - intros d. cbn [before_threshold]. apply Z.ltb_lt.
Qed.

Lemma expiring_counts_dates_before_threshold_witness :
  frame_empty lapsed_yesterday = false /\
  forallb (fun r => comparable (warranty_expiry r)) (frame_rows lapsed_yesterday) = true /\
  ((exists m,
      render_dashboard lapsed_yesterday (Cal.mkDate 2024 6 15) = Ok (Some m) /\
      expiring m
      = List.length (filter (fun r => before_threshold (Cal.mkDate 2024 6 15)
                                                         (warranty_expiry r))
                            (frame_rows lapsed_yesterday))) /\
   (forall d, before_threshold (Cal.mkDate 2024 6 15) (VDate d) = true
              <-> (Cal.toordinal d < Cal.toordinal (Cal.mkDate 2024 6 15) + 90)%Z) /\
   before_threshold (Cal.mkDate 2024 6 15) VNaT = false /\
   before_threshold (Cal.mkDate 2024 6 15) VNaN = false).
Proof.
  split; [reflexivity|]. split; [reflexivity|].
  apply (expiring_counts_dates_before_threshold lapsed_yesterday (Cal.mkDate 2024 6 15));
    reflexivity.
Defined.

(** *** Saving the asset table *)

Lemma save_assets_unfold w rows :
  save_assets (Table rows) w
  = if forallb dates_ok rows then
      match disk_fault w with
      | None =>
          (Ok tt,
           with_log (log w ++ [(INFO, saved_message (List.length rows))])
             (with_hash_cache []
                (with_assets_cache None
                   (with_assets_file (CsvTable (csv_rows rows)) w))))
      | Some n =>
          if (n <=? List.length rows)%nat then
            (Ok tt,
             with_log (log w ++ [(ERROR, "Save error")])
               (with_screen (screen w ++ [(ERROR, "Save failed")])
                  (with_assets_file (partial_file n (csv_rows rows)) w)))
          else
            (Ok tt,
             with_log (log w ++ [(INFO, saved_message (List.length rows))])
               (with_hash_cache []
                  (with_assets_cache None
                     (with_assets_file (CsvTable (csv_rows rows)) w))))
      end
    else
      (Ok tt,
       with_log (log w ++ [(ERROR, "Save error")])
         (with_screen (screen w ++ [(ERROR, "Save failed")]) w)).
Proof.
  unfold save_assets, try_except, bind.
  destruct (forallb dates_ok rows); [|reflexivity].
  unfold to_csv, bind, get.
  destruct (disk_fault w) as [[|k]|] eqn:D; try reflexivity.
  assert (L : List.length (csv_rows rows) = List.length rows)
    by (unfold csv_rows; apply length_map).
  rewrite L. change (S k <=? List.length rows)%nat with (k <? List.length rows)%nat.
  destruct (k <? List.length rows)%nat; reflexivity.
Qed.

(** C9, as stated, fails: there is no temporary file and no rename.  When
    the disk fails on the third line, the file is left with the header and
    the first of the two new rows: neither what it held nor what was to be
    saved. *)
Lemma failed_save_leaves_partial_file :
  let w' := snd (save_assets (Table two_assets) failing_disk) in
  assets_file w' = CsvTable (firstn 1 (csv_rows two_assets)) /\
  assets_file w' <> assets_file failing_disk /\
  assets_file w' <> CsvTable (csv_rows two_assets) /\
  screen w' = [(ERROR, "Save failed")].
Proof.
  vm_compute. repeat split; discriminate.
Qed.

(** C9, amended: [save_assets] writes the backing file in place.  It never
    raises.  When a date of the frame cannot be converted nothing is
    written; with a working disk the file holds the whole new content and
    the caches are cleared; when the disk fails at a line, the file holds
    the new lines written before it, the error is shown and logged, and the
    caches are left as they were. *)
Theorem save_overwrites_in_place (w : world) (rows : list (row cell)) :
  let w' := snd (save_assets (Table rows) w) in
  fst (save_assets (Table rows) w) = Ok tt /\
  if forallb dates_ok rows then
    match disk_fault w with
    | None =>
        assets_file w' = CsvTable (csv_rows rows) /\
        assets_cache w' = None /\ hash_cache w' = [] /\ screen w' = screen w
    | Some n =>
        if (n <=? List.length rows)%nat then
          assets_file w' = partial_file n (csv_rows rows) /\
          assets_cache w' = assets_cache w /\
          screen w' = screen w ++ [(ERROR, "Save failed")] /\
          log w' = log w ++ [(ERROR, "Save error")]
        else
          assets_file w' = CsvTable (csv_rows rows) /\
          assets_cache w' = None /\ hash_cache w' = [] /\ screen w' = screen w
    end
  else
    assets_file w' = assets_file w /\
    assets_cache w' = assets_cache w /\
    screen w' = screen w ++ [(ERROR, "Save failed")] /\
    log w' = log w ++ [(ERROR, "Save error")].
Proof.
  intros w'. subst w'. rewrite save_assets_unfold.
  destruct (forallb dates_ok rows).
  - destruct (disk_fault w) as [n|].
    + destruct (n <=? List.length rows)%nat; repeat split.
    + repeat split.
  - repeat split.
Qed.

(** *** Digits and dates in text *)

Section DateText.
Local Open Scope Z_scope.

Lemma digit_char_code n :
  nat_of_ascii (Cal.digit_char n) = (Z.to_nat (n mod 10) + 48)%nat.
Proof.
  unfold Cal.digit_char. apply nat_ascii_embedding.
  assert (0 <= n mod 10 < 10) by (apply Z.mod_pos_bound; lia). lia.
Qed.

Lemma digit_val_char n : Cal.digit_val (Cal.digit_char n) = Some (n mod 10).
Proof.
  unfold Cal.digit_val. rewrite digit_char_code.
  assert (H : 0 <= n mod 10 < 10) by (apply Z.mod_pos_bound; lia).
  replace ((48 <=? Z.to_nat (n mod 10) + 48)%nat) with true
    by (symmetry; apply Nat.leb_le; lia).
  replace ((Z.to_nat (n mod 10) + 48 <=? 57)%nat) with true
    by (symmetry; apply Nat.leb_le; lia).
  cbn [andb]. f_equal. lia.
Qed.

Lemma dc_digit n : Num.is_digit (Cal.digit_char n) = true.
Proof.
  unfold Num.is_digit. rewrite digit_char_code.
  assert (H : 0 <= n mod 10 < 10) by (apply Z.mod_pos_bound; lia).
  apply andb_true_iff. split; apply Nat.leb_le; lia.
Qed.

Lemma digit_not_space c : Num.is_digit c = true -> Num.c_space c = false.
Proof.
  unfold Num.is_digit, Num.c_space. intros H.
  apply andb_true_iff in H. destruct H as [H1 H2].
  apply Nat.leb_le in H1. apply Nat.leb_le in H2.
  apply orb_false_iff. split.
  - apply andb_false_iff. right. apply Nat.leb_gt. lia.
  - apply Nat.eqb_neq. lia.
Qed.

Lemma digit_neq c c' :
  Num.is_digit c = true -> Num.is_digit c' = false -> Ascii.eqb c c' = false.
Proof.
  intros H H'. destruct (Ascii.eqb c c') eqn:E; [|reflexivity].
  apply Ascii.eqb_eq in E. congruence.
Qed.

Lemma digit_lower c : Num.is_digit c = true -> Str.lower_char c = c.
Proof.
  unfold Num.is_digit, Str.lower_char. intros H.
  apply andb_true_iff in H. destruct H as [H1 H2].
  apply Nat.leb_le in H1. apply Nat.leb_le in H2.
  replace ((65 <=? nat_of_ascii c)%nat) with false
    by (symmetry; apply Nat.leb_gt; lia).
  reflexivity.
Qed.

Lemma four_digits y :
  0 <= y < 10000 ->
  10 * (10 * (10 * (10 * 0 + (y / 10 / 10 / 10) mod 10) + (y / 10 / 10) mod 10)
        + (y / 10) mod 10) + y mod 10 = y.
Proof. intros H. Z.div_mod_to_equations. lia. Qed.

Lemma two_digits_value m :
  0 <= m < 100 -> 10 * (10 * 0 + (m / 10) mod 10) + m mod 10 = m.
Proof. intros H. Z.div_mod_to_equations. lia. Qed.

Lemma days_in_month_bound y m : 28 <= Cal.days_in_month y m <= 31.
Proof.
  unfold Cal.days_in_month.
  destruct (m =? 2); [destruct (Cal.is_leap y); lia|].
  destruct ((m =? 4) || (m =? 6) || (m =? 9) || (m =? 11))%bool; lia.
Qed.

Lemma valid_bounds d :
  Cal.valid d = true ->
  1 <= Cal.year d <= 9999 /\ 1 <= Cal.month d <= 12 /\ 1 <= Cal.day d <= 31.
Proof.
  unfold Cal.valid. intros H.
  repeat (apply andb_true_iff in H; destruct H as [H ?]).
  repeat match goal with
         | G : (_ <=? _) = true |- _ => apply Z.leb_le in G
         end.
  pose proof (days_in_month_bound (Cal.year d) (Cal.month d)). lia.
Qed.

(** The text of a date reads back as the date. *)
Lemma parse_strftime d : Cal.valid d = true -> Cal.parse_iso (Cal.strftime d) = Some d.
Proof.
  intros Hv. destruct (valid_bounds d Hv) as (Hy & Hm & Hd).
  destruct d as [y m dd]. cbn [Cal.year Cal.month Cal.day] in *.
  unfold Cal.parse_iso, Cal.strftime.
  cbn -[Cal.digit_char Cal.digit_val Z.mul Z.add Z.div Cal.valid].
  rewrite !digit_val_char.
  cbn -[Z.mul Z.add Z.div Z.modulo Cal.valid].
  rewrite four_digits, !two_digits_value by lia.
  rewrite Hv. reflexivity.
Qed.

End DateText.

Lemma strftime_length d : String.length (Cal.strftime d) = 10.
Proof. reflexivity. Qed.

Lemma mem_in s l : Str.mem s l = true <-> In s l.
Proof.
  unfold Str.mem. rewrite existsb_exists. split.
  - intros [t [Hin E]]. apply String.eqb_eq in E. subst. exact Hin.
  - intros Hin. exists s. split; [exact Hin | apply String.eqb_refl].
Qed.

Lemma na_text_short s : Pd.is_na_text s = true -> String.length s <= 8.
Proof.
  intros H. apply mem_in in H. unfold Pd.na_values in H.
  repeat (destruct H as [<- | H]; [cbn; lia|]). destruct H.
Qed.

Lemma bool_text_short s b : Pd.parse_bool s = Some b -> String.length s <= 5.
Proof.
  unfold Pd.parse_bool.
  destruct (Str.mem s ["True"; "TRUE"; "true"]) eqn:T.
  - intros _. apply mem_in in T.
    repeat (destruct T as [<- | T]; [cbn; lia|]). destruct T.
  - destruct (Str.mem s ["False"; "FALSE"; "false"]) eqn:F; [|discriminate].
    intros _. apply mem_in in F.
    repeat (destruct F as [<- | F]; [cbn; lia|]). destruct F.
Qed.

Lemma strftime_not_na d : Pd.is_na_text (Cal.strftime d) = false.
Proof.
  destruct (Pd.is_na_text (Cal.strftime d)) eqn:E; [|reflexivity].
  apply na_text_short in E. rewrite strftime_length in E. lia.
Qed.

Lemma strftime_not_bool d : Pd.parse_bool (Cal.strftime d) = None.
Proof.
  destruct (Pd.parse_bool (Cal.strftime d)) eqn:E; [|reflexivity].
  apply bool_text_short in E. rewrite strftime_length in E. lia.
Qed.

Lemma dc_space n : Num.c_space (Cal.digit_char n) = false.
Proof. apply digit_not_space, dc_digit. Qed.

Lemma dc_lower n : Str.lower_char (Cal.digit_char n) = Cal.digit_char n.
Proof. apply digit_lower, dc_digit. Qed.

Lemma dc_neq n c : Num.is_digit c = false -> Ascii.eqb (Cal.digit_char n) c = false.
Proof. apply digit_neq, dc_digit. Qed.

Lemma dc_not_e n : Num.is_e (Cal.digit_char n) = false.
Proof. unfold Num.is_e. rewrite !dc_neq; reflexivity. Qed.

Lemma dc_not_point n : Num.is_point (Cal.digit_char n) = false.
Proof. unfold Num.is_point. rewrite dc_neq; reflexivity. Qed.

Ltac digit_chars :=
  repeat progress
    (cbn -[Cal.digit_char Z.div Num.Z_of_digits];
     rewrite ?dc_space, ?dc_lower, ?dc_not_e, ?dc_not_point, ?dc_digit,
       ?(fun n => dc_neq n "-"%char eq_refl),
       ?(fun n => dc_neq n "+"%char eq_refl),
       ?(fun n => dc_neq n "i"%char eq_refl)).

Lemma strftime_not_int d : Num.parse_int (Cal.strftime d) = None.
Proof.
  destruct d as [y m dd]. unfold Num.parse_int, Num.trim, Cal.strftime.
  digit_chars. reflexivity.
Qed.

Lemma strftime_not_float d : Num.parse_float (Cal.strftime d) = None.
Proof.
  destruct d as [y m dd]. unfold Num.parse_float, Num.trim, Cal.strftime.
  digit_chars. reflexivity.
Qed.

(** *** Floats in text *)

Lemma all_digits_forall s : Num.all_digits s = str_forall Num.is_digit s.
Proof. induction s as [|c s IH]; [reflexivity|]. cbn. rewrite IH. reflexivity. Qed.

Lemma str_forall_app p a b :
  str_forall p (a ++ b) = str_forall p a && str_forall p b.
Proof.
  induction a as [|c a IH]; [reflexivity|]. cbn. rewrite IH. apply andb_assoc.
Qed.

Lemma str_forall_impl (p q : ascii -> bool) s :
  (forall c, p c = true -> q c = true) ->
  str_forall p s = true -> str_forall q s = true.
Proof.
  intros H. induction s as [|c s IH]; [reflexivity|]. cbn. intros G.
  apply andb_true_iff in G. destruct G as [G1 G2].
  rewrite (H c G1), (IH G2). reflexivity.
Qed.

Lemma drop_trailing_none p s :
  str_forall (fun c => negb (p c)) s = true -> Num.drop_trailing p s = s.
Proof.
  induction s as [|c s IH]; [reflexivity|]. cbn. intros G.
  apply andb_true_iff in G. destruct G as [G1 G2].
  rewrite (IH G2). apply negb_true_iff in G1. rewrite G1.
  destruct s; reflexivity.
Qed.

Lemma split_on_none p s :
  str_forall (fun c => negb (p c)) s = true -> Num.split_on p s = (s, None).
Proof.
  induction s as [|c s IH]; [reflexivity|]. cbn. intros G.
  apply andb_true_iff in G. destruct G as [G1 G2].
  apply negb_true_iff in G1. rewrite G1, (IH G2). reflexivity.
Qed.

Lemma split_on_app p a c b :
  str_forall (fun c => negb (p c)) a = true -> p c = true ->
  Num.split_on p (a ++ String c b) = (a, Some b).
Proof.
  intros G Hc. induction a as [|x a IH]; cbn.
  - rewrite Hc. reflexivity.
  - cbn in G. apply andb_true_iff in G. destruct G as [G1 G2].
    apply negb_true_iff in G1. rewrite G1, (IH G2). reflexivity.
Qed.

Lemma append_empty_r (s : string) : (s ++ "")%string = s.
Proof. induction s as [|c s IH]; [reflexivity|]. cbn. rewrite IH. reflexivity. Qed.

Lemma shift_zero ip frac : Num.shift ip frac 0 = (ip, frac).
Proof.
  unfold Num.shift, Num.take, Num.drop, Num.zeros, Str.of_chars, Str.chars. cbn.
  rewrite !append_empty_r, string_of_list_ascii_of_string. reflexivity.
Qed.

Lemma digit_not_e c : Num.is_digit c = true -> negb (Num.is_e c) = true.
Proof.
  intros H. unfold Num.is_e. rewrite !(digit_neq c) by (exact H || reflexivity).
  reflexivity.
Qed.

Lemma digit_not_point c : Num.is_digit c = true -> negb (Num.is_point c) = true.
Proof.
  intros H. unfold Num.is_point. rewrite (digit_neq c) by (exact H || reflexivity).
  reflexivity.
Qed.

Lemma digit_no_space c : Num.is_digit c = true -> negb (Num.c_space c) = true.
Proof. intros H. rewrite (digit_not_space c H). reflexivity. Qed.

Lemma norm_ip_nonempty s : Num.norm_ip s <> "".
Proof. unfold Num.norm_ip. destruct (Num.drop_leading_zeros s); discriminate. Qed.

(** The parts of a canonical float. *)
Lemma canonical_parts neg ip frac :
  Num.canonical (Num.Fin neg ip frac) = true ->
  str_forall Num.is_digit ip = true /\ str_forall Num.is_digit frac = true /\
  Num.norm_ip ip = ip /\ Num.norm_frac frac = frac /\
  exists c r, ip = String c r /\ Num.is_digit c = true.
Proof.
  cbn [Num.canonical]. intros H.
  repeat (apply andb_true_iff in H; destruct H as [H ?]).
  rewrite all_digits_forall in *.
  repeat match goal with G : String.eqb _ _ = true |- _ => apply String.eqb_eq in G end.
  repeat split; try assumption.
  destruct ip as [|c r].
  - exfalso. eapply norm_ip_nonempty. eassumption.
  - exists c, r. split; [reflexivity|]. cbn in H. apply andb_true_iff in H. apply H.
Qed.

Lemma shown_frac_digits frac :
  str_forall Num.is_digit frac = true -> str_forall Num.is_digit (shown_frac frac) = true.
Proof. unfold shown_frac. destruct (String.eqb frac ""); [reflexivity | auto]. Qed.

Lemma shown_frac_norm frac :
  Num.norm_frac frac = frac -> Num.norm_frac (shown_frac frac) = frac.
Proof.
  unfold shown_frac. destruct (String.eqb frac "") eqn:E; [|auto].
  apply String.eqb_eq in E. subst. reflexivity.
Qed.

Lemma float_repr_positional neg ip frac :
  Num.positional (Num.Fin neg ip frac) = true ->
  Num.float_repr (Num.Fin neg ip frac)
  = ((if neg then "-" else "") ++ ip ++ "." ++ shown_frac frac)%string.
Proof. intros H. unfold Num.float_repr. rewrite H. reflexivity. Qed.

(** What the two parsers see of the text of a float once the spaces and
    the sign are taken off: the digits, the point, the digits. *)
Lemma repr_sign_body neg ip frac :
  Num.canonical (Num.Fin neg ip frac) = true ->
  Num.take_sign (Num.trim ((if neg then "-" else "") ++ ip ++ "." ++ shown_frac frac))
  = (neg, (ip ++ "." ++ shown_frac frac)%string).
Proof.
  intros Hc. destruct (canonical_parts _ _ _ Hc) as (Hi & Hf & _ & _ & c & r & -> & Hd).
  pose proof (shown_frac_digits frac Hf) as Hs.
  assert (B : str_forall (fun c => negb (Num.c_space c))
                (String c r ++ "." ++ shown_frac frac) = true).
  { rewrite str_forall_app. apply andb_true_iff. split.
    - eapply str_forall_impl; [apply digit_no_space | exact Hi].
    - cbn. eapply str_forall_impl; [apply digit_no_space | exact Hs]. }
  unfold Num.trim. destruct neg.
  - cbn [append Num.skip_spaces]. change (Num.c_space "-") with false. cbn iota.
    rewrite drop_trailing_none; [reflexivity|].
    cbn [str_forall]. change (negb (Num.c_space "-")) with true. exact B.
  - cbn [append Num.skip_spaces]. rewrite (digit_not_space c Hd).
    rewrite drop_trailing_none by exact B.
    cbn [append Num.take_sign]. rewrite !(digit_neq c) by (exact Hd || reflexivity).
    reflexivity.
Qed.

(** [repr] of a float written with its digits in place reads back as the
    float. *)
Lemma parse_float_repr x :
  Num.canonical x = true -> Num.positional x = true ->
  Num.parse_float (Num.float_repr x) = Some x.
Proof.
  destruct x as [neg ip frac|neg]; [|discriminate 2].
  intros Hc Hp. rewrite (float_repr_positional _ _ _ Hp).
  unfold Num.parse_float. rewrite (repr_sign_body _ _ _ Hc).
  destruct (canonical_parts _ _ _ Hc) as (Hi & Hf & Ni & Nf & c & r & E & Hd).
  pose proof (shown_frac_digits frac Hf) as Hs.
  assert (L : String.eqb (Str.lower (ip ++ "." ++ shown_frac frac)) "inf"
              || String.eqb (Str.lower (ip ++ "." ++ shown_frac frac)) "infinity" = false).
  { subst ip. cbn [append Str.lower String.eqb]. rewrite (digit_lower c Hd).
    rewrite !(digit_neq c) by (exact Hd || reflexivity). reflexivity. }
  rewrite L.
  rewrite split_on_none.
  2:{ rewrite str_forall_app. apply andb_true_iff. split.
      - eapply str_forall_impl; [apply digit_not_e | exact Hi].
      - cbn. eapply str_forall_impl; [apply digit_not_e | exact Hs]. }
  cbv beta iota.
  change (ip ++ "." ++ shown_frac frac)%string
    with (ip ++ String "." (shown_frac frac))%string.
  rewrite split_on_app;
    [| eapply str_forall_impl; [apply digit_not_point | exact Hi] | reflexivity].
  cbv beta iota. cbn [Num.parse_exponent]. rewrite !all_digits_forall, Hi, Hs. cbn [andb].
  replace (String.eqb ip "") with false by (subst ip; reflexivity). cbn [andb negb].
  rewrite shift_zero, Ni, (shown_frac_norm _ Nf). reflexivity.
Qed.

Lemma parse_int_repr x :
  Num.canonical x = true -> Num.positional x = true ->
  Num.parse_int (Num.float_repr x) = None.
Proof.
  destruct x as [neg ip frac|neg]; [|discriminate 2].
  intros Hc Hp. rewrite (float_repr_positional _ _ _ Hp).
  unfold Num.parse_int. rewrite (repr_sign_body _ _ _ Hc).
  destruct (canonical_parts _ _ _ Hc) as (Hi & Hf & Ni & Nf & c & r & E & Hd).
  subst ip. cbn [append]. rewrite all_digits_forall.
  replace (str_forall Num.is_digit (String c (r ++ String "." (shown_frac frac))))
    with false; [reflexivity|].
  symmetry. cbn [str_forall]. rewrite str_forall_app. cbn [str_forall].
  change (Num.is_digit ".") with false. cbn [andb]. rewrite !andb_false_r. reflexivity.
Qed.

Lemma na_text_not_float s : Pd.is_na_text s = true -> Num.parse_float s = None.
Proof.
  intros H. apply mem_in in H. unfold Pd.na_values in H.
  repeat (destruct H as [<- | H]; [vm_compute; reflexivity|]). destruct H.
Qed.

(** *** Integers and floats in text, whatever their size *)

Section NumberText.
Local Open Scope Z_scope.

(** The text of a decimal number: digits, whose value is the number. *)
Lemma uint_digits u : str_forall Num.is_digit (NilEmpty.string_of_uint u) = true.
Proof. induction u; cbn; auto. Qed.

Lemma uint_value_acc u : forall acc,
  Num.Z_of_digits (Z.pos acc) (NilEmpty.string_of_uint u) = Z.pos (Pos.of_uint_acc u acc).
Proof.
  induction u; intros acc; cbn [NilEmpty.string_of_uint Num.Z_of_digits Pos.of_uint_acc];
    [reflexivity | ..];
    match goal with
    | |- Num.Z_of_digits ?a _ = _ =>
        match goal with
        | |- _ = Z.pos (Pos.of_uint_acc _ ?b) =>
            replace a with (Z.pos b)
              by (set (k := Z.of_nat (nat_of_ascii _)); vm_compute in k; subst k; lia)
        end
    end; apply IHu.
Qed.

Lemma uint_value u :
  Num.Z_of_digits 0 (NilEmpty.string_of_uint u) = Z.of_N (Pos.of_uint u).
Proof.
  induction u; cbn [NilEmpty.string_of_uint Num.Z_of_digits Pos.of_uint];
    [reflexivity | exact IHu | ..]; apply uint_value_acc.
Qed.

(** [str(p)] for a positive [p]: a digit, then digits, that read as [p]. *)
Lemma pos_text p :
  exists c r, NilEmpty.string_of_uint (Pos.to_uint p) = String c r
              /\ Num.is_digit c = true
              /\ str_forall Num.is_digit r = true
              /\ Num.Z_of_digits 0 (String c r) = Z.pos p.
Proof.
  pose proof (uint_digits (Pos.to_uint p)) as D.
  pose proof (uint_value (Pos.to_uint p)) as V.
  rewrite Unsigned.of_to in V.
  pose proof (Unsigned.to_uint_nonnil p) as N.
  destruct (NilEmpty.string_of_uint (Pos.to_uint p)) as [|c r] eqn:E.
  - destruct (Pos.to_uint p); try discriminate E. contradiction.
  - cbn in D. apply andb_true_iff in D. destruct D as [D1 D2].
    exists c, r. repeat split; assumption.
Qed.

Lemma pos_repr p : Num.int_repr (Z.pos p) = NilEmpty.string_of_uint (Pos.to_uint p).
Proof.
  unfold Num.int_repr. cbn. pose proof (Unsigned.to_uint_nonnil p).
  destruct (Pos.to_uint p); [contradiction | reflexivity ..].
Qed.

Lemma neg_repr p :
  Num.int_repr (Z.neg p) = String "-" (NilEmpty.string_of_uint (Pos.to_uint p)).
Proof.
  unfold Num.int_repr. cbn. pose proof (Unsigned.to_uint_nonnil p).
  destruct (Pos.to_uint p); [contradiction | reflexivity ..].
Qed.

Lemma trim_none s :
  str_forall (fun c => negb (Num.c_space c)) s = true -> Num.trim s = s.
Proof.
  intros H. unfold Num.trim.
  replace (Num.skip_spaces s) with s.
  - apply drop_trailing_none, H.
  - destruct s as [|c s]; [reflexivity|]. cbn in *.
    apply andb_true_iff in H. destruct H as [H _]. apply negb_true_iff in H.
    rewrite H. reflexivity.
Qed.

Lemma digits_no_space s :
  str_forall Num.is_digit s = true -> str_forall (fun c => negb (Num.c_space c)) s = true.
Proof. apply str_forall_impl, digit_no_space. Qed.

Lemma take_sign_digit c r :
  Num.is_digit c = true -> Num.take_sign (String c r) = (false, String c r).
Proof.
  intros H. cbn [Num.take_sign]. rewrite !(digit_neq c) by (exact H || reflexivity).
  reflexivity.
Qed.

(** [str(z)] of an [int64] reads back as [z]. *)
Lemma parse_int_int_repr z :
  Num.int64_min <= z <= Num.int64_max -> Num.parse_int (Num.int_repr z) = Some z.
Proof.
  intros R. assert (B : (Num.int64_min <=? z) && (z <=? Num.int64_max) = true).
  { apply andb_true_iff. split; apply Z.leb_le; lia. }
  destruct z as [|p|p].
  - reflexivity.
  - rewrite pos_repr. destruct (pos_text p) as (c & r & E & Dc & Dr & V). rewrite E.
    unfold Num.parse_int. rewrite trim_none.
    2:{ apply digits_no_space. cbn. rewrite Dc, Dr. reflexivity. }
    rewrite (take_sign_digit c r Dc), all_digits_forall.
    cbn [str_forall]. rewrite Dc, Dr. cbn [andb]. rewrite V, B. reflexivity.
  - rewrite neg_repr. destruct (pos_text p) as (c & r & E & Dc & Dr & V). rewrite E.
    unfold Num.parse_int. rewrite trim_none.
    2:{ cbn [str_forall]. change (negb (Num.c_space "-")) with true.
        apply (digits_no_space (String c r)). cbn. rewrite Dc, Dr. reflexivity. }
    cbn [Num.take_sign]. change (Ascii.eqb "-" "-") with true. cbv iota.
    rewrite all_digits_forall.
    cbn [str_forall]. rewrite Dc, Dr. cbn [andb]. rewrite V.
    change (- Z.pos p) with (Z.neg p). rewrite B. reflexivity.
Qed.

Lemma na_text_not_int s : Pd.is_na_text s = true -> Num.parse_int s = None.
Proof.
  intros H. apply mem_in in H. unfold Pd.na_values in H.
  repeat (destruct H as [<- | H]; [vm_compute; reflexivity|]). destruct H.
Qed.

Lemma int_repr_not_na z :
  Num.int64_min <= z <= Num.int64_max -> Pd.is_na_text (Num.int_repr z) = false.
Proof.
  intros R. destruct (Pd.is_na_text (Num.int_repr z)) eqn:E; [|reflexivity].
  apply na_text_not_int in E. rewrite (parse_int_int_repr z R) in E. discriminate E.
Qed.

Local Open Scope string_scope.

Lemma zeros_S n : Num.zeros (S n) = String "0" (Num.zeros n).
Proof. reflexivity. Qed.

Lemma take_app a b : Num.take (String.length a) (a ++ b) = a.
Proof.
  unfold Num.take, Str.of_chars, Str.chars.
  induction a as [|c a IH]; cbn.
  - destruct (list_ascii_of_string b); reflexivity.
  - rewrite IH. reflexivity.
Qed.

Lemma drop_app a b : Num.drop (String.length a) (a ++ b) = b.
Proof.
  unfold Num.drop, Str.of_chars, Str.chars.
  induction a as [|c a IH]; cbn.
  - apply string_of_list_ascii_of_string.
  - exact IH.
Qed.

Lemma append_assoc (a b c : string) : (a ++ b) ++ c = a ++ b ++ c.
Proof. induction a as [|x a IH]; [reflexivity|]. cbn. rewrite IH. reflexivity. Qed.

Lemma length_append (a b : string) :
  String.length (a ++ b) = (String.length a + String.length b)%nat.
Proof. induction a as [|x a IH]; [reflexivity|]. cbn. rewrite IH. reflexivity. Qed.

Lemma zeros_length n : String.length (Num.zeros n) = n.
Proof. induction n as [|n IH]; [reflexivity|]. rewrite zeros_S. cbn. rewrite IH. reflexivity. Qed.

(** The zeros a text starts with, and what follows them. *)
Lemma leading_zeros s :
  s = Num.zeros (Num.count_leading_zeros s) ++ Num.drop_leading_zeros s.
Proof.
  induction s as [|c s IH]; [reflexivity|].
  cbn [Num.count_leading_zeros Num.drop_leading_zeros].
  destruct (Num.is_zero c) eqn:Z; [|reflexivity].
  rewrite zeros_S. cbn [append]. rewrite <- IH. apply Ascii.eqb_eq in Z. subst c.
  reflexivity.
Qed.

Lemma drop_leading_zeros_head s :
  match Num.drop_leading_zeros s with
  | String c _ => Num.is_zero c = false
  | EmptyString => True
  end.
Proof.
  induction s as [|c s IH]; [exact I|]. cbn. destruct (Num.is_zero c) eqn:Z; [exact IH | exact Z].
Qed.

Lemma drop_leading_zeros_length s :
  (String.length (Num.drop_leading_zeros s) <= String.length s)%nat.
Proof.
  induction s as [|c s IH]; [cbn; lia|]. cbn. destruct (Num.is_zero c); cbn; lia.
Qed.

(** The zeros a text ends with, and what comes before them. *)
Lemma trailing_zeros s : exists n, s = Num.norm_frac s ++ Num.zeros n.
Proof.
  unfold Num.norm_frac. induction s as [|c s [n IH]]; [exists 0%nat; reflexivity|].
  cbn [Num.drop_trailing]. destruct (Num.drop_trailing Num.is_zero s) eqn:E.
  - destruct (Num.is_zero c) eqn:Z.
    + exists (S n). rewrite zeros_S. cbn [append] in *. apply Ascii.eqb_eq in Z. subst c.
      rewrite <- IH. reflexivity.
    + exists n. cbn [append] in *. rewrite <- IH. reflexivity.
  - exists n. cbn [append] in *. rewrite <- IH. reflexivity.
Qed.

Lemma drop_trailing_suffix p a b :
  Num.drop_trailing p (a ++ b) = a ++ b -> Num.drop_trailing p b = b.
Proof.
  induction a as [|x a IH]; [auto|]. cbn. intros H. apply IH.
  destruct (Num.drop_trailing p (a ++ b)) eqn:E.
  - destruct (p x); [discriminate H|]. injection H as H. rewrite <- H. reflexivity.
  - injection H as H. exact H.
Qed.

Lemma drop_trailing_app p a b :
  Num.drop_trailing p b = b -> b <> "" -> Num.drop_trailing p (a ++ b) = a ++ b.
Proof.
  intros H N. induction a as [|x a IH]; [exact H|]. cbn. rewrite IH.
  destruct (a ++ b) eqn:E; [|reflexivity].
  destruct a; [cbn in E; contradiction | discriminate E].
Qed.

(** Text that starts with a digit and holds no space, behind its sign. *)
Lemma signed_body (neg : bool) c r :
  Num.is_digit c = true ->
  str_forall (fun c => negb (Num.c_space c)) (String c r) = true ->
  Num.take_sign (Num.trim ((if neg then "-" else "") ++ String c r)) = (neg, String c r).
Proof.
  intros Dc B. destruct neg.
  - rewrite trim_none; [reflexivity|]. cbn [append str_forall].
    change (negb (Num.c_space "-")) with true. exact B.
  - change ("" ++ String c r) with (String c r). rewrite (trim_none _ B).
    apply take_sign_digit, Dc.
Qed.

(** The exponent [repr] writes: digits that read as the exponent. *)
Lemma two_digits_text n :
  (0 <= n)%Z ->
  exists d r, Num.two_digits n = String d r /\ Num.is_digit d = true
              /\ str_forall Num.is_digit r = true
              /\ Num.Z_of_digits 0 (String d r) = n.
Proof.
  intros Hn. unfold Num.two_digits.
  assert (P : exists d r, Num.int_repr n = String d r /\ Num.is_digit d = true
                          /\ str_forall Num.is_digit r = true
                          /\ Num.Z_of_digits 0 (String d r) = n).
  { destruct n as [|p|p]; [| |lia].
    - exists "0"%char, "". repeat split.
    - rewrite pos_repr. apply pos_text. }
  destruct P as (d & r & E & Dd & Dr & V).
  destruct (n <? 10)%Z; [|exists d, r; repeat split; assumption].
  exists "0"%char, (String d r). rewrite E. split; [reflexivity|].
  split; [reflexivity|]. split; [cbn; rewrite Dd, Dr; reflexivity|].
  exact V.
Qed.

(** What [read_csv] makes of a digit, a point and digits, and an exponent:
    the digits with the point moved by the exponent. *)
Lemma parse_scientific (neg : bool) c rest (eneg : bool) n :
  Num.is_digit c = true -> str_forall Num.is_digit rest = true -> (0 <= n)%Z ->
  Num.parse_float
    ((if neg then "-" else "") ++ String c (point_part rest ++ "e"
        ++ (if eneg then "-" else "+") ++ Num.two_digits n))
  = let (ip', frac') := Num.shift (String c "") rest (if eneg then (- n)%Z else n) in
    Some (Num.Fin neg (Num.norm_ip ip') (Num.norm_frac frac')).
Proof.
  intros Dc Dr Hn. destruct (two_digits_text n Hn) as (d & t & E & Dd & Dt & V).
  rewrite E. set (S := if eneg then "-" else "+").
  set (body := String c (point_part rest ++ "e" ++ S ++ String d t)).
  assert (Ps : str_forall (fun c => negb (Num.c_space c)) (point_part rest) = true).
  { unfold point_part. destruct (String.eqb rest ""); [reflexivity|].
    cbn [append str_forall]. change (negb (Num.c_space ".")) with true.
    apply digits_no_space, Dr. }
  assert (Bs : str_forall (fun c => negb (Num.c_space c)) body = true).
  { unfold body. cbn [str_forall]. rewrite (digit_no_space c Dc).
    rewrite str_forall_app, Ps. cbn [andb append str_forall].
    change (negb (Num.c_space "e")) with true.
    rewrite str_forall_app.
    replace (str_forall (fun c => negb (Num.c_space c)) S) with true
      by (unfold S; destruct eneg; reflexivity).
    cbn [andb str_forall]. rewrite (digit_no_space d Dd). apply digits_no_space, Dt. }
  assert (Ts : Num.take_sign (Num.trim ((if neg then "-" else "") ++ body)) = (neg, body))
    by (apply signed_body; assumption).
  unfold Num.parse_float. rewrite Ts.
  assert (L : String.eqb (Str.lower body) "inf"
              || String.eqb (Str.lower body) "infinity" = false).
  { unfold body. cbn [Str.lower String.eqb]. rewrite (digit_lower c Dc).
    rewrite !(digit_neq c) by (exact Dc || reflexivity). reflexivity. }
  rewrite L.
  assert (Pe : str_forall (fun c => negb (Num.is_e c)) (String c (point_part rest)) = true).
  { cbn [str_forall]. rewrite (digit_not_e c Dc). unfold point_part.
    destruct (String.eqb rest ""); [reflexivity|]. cbn [append str_forall].
    change (negb (Num.is_e ".")) with true.
    eapply str_forall_impl; [apply digit_not_e | exact Dr]. }
  replace body with (String c (point_part rest) ++ String "e" (S ++ String d t))
    by reflexivity.
  rewrite (split_on_app _ _ "e"%char _ Pe eq_refl). cbv beta iota.
  assert (Sp : Num.split_on Num.is_point (String c (point_part rest))
               = (String c "", if String.eqb rest "" then None else Some rest)).
  { unfold point_part. destruct (String.eqb rest "").
    - apply split_on_none. cbn. rewrite (digit_not_point c Dc). reflexivity.
    - change (String c ("." ++ rest)) with (String c "" ++ String "." rest).
      apply split_on_app; [|reflexivity]. cbn. rewrite (digit_not_point c Dc). reflexivity. }
  rewrite Sp. cbv beta iota.
  replace (match (if String.eqb rest "" then None else Some rest) with
           | Some f => f | None => "" end) with rest.
  2:{ destruct (String.eqb rest "") eqn:R; [|reflexivity].
      apply String.eqb_eq in R. exact R. }
  assert (Pe2 : Num.parse_exponent (Some (S ++ String d t))
                = Some (if eneg then (- n)%Z else n)).
  { unfold Num.parse_exponent, S. destruct eneg; cbn [append Num.take_sign];
      [change (Ascii.eqb "-" "-") with true
      |change (Ascii.eqb "+" "-") with false; change (Ascii.eqb "+" "+") with true];
      cbv iota; rewrite all_digits_forall; cbn [str_forall]; rewrite Dd, Dt;
      cbn [andb]; rewrite V; reflexivity. }
  rewrite Pe2. rewrite !all_digits_forall. cbn [str_forall]. rewrite Dc, Dr.
  cbn [andb String.eqb negb]. reflexivity.
Qed.

Lemma take_one c s : Num.take 1 (String c s) = String c "".
Proof. reflexivity. Qed.

Lemma drop_one c s : Num.drop 1 (String c s) = s.
Proof. apply string_of_list_ascii_of_string. Qed.

Lemma take_zero s : Num.take 0 s = "".
Proof. reflexivity. Qed.

Lemma drop_zero s : Num.drop 0 s = s.
Proof. apply string_of_list_ascii_of_string. Qed.

Lemma norm_frac_zeros n : Num.norm_frac (Num.zeros n) = "".
Proof.
  unfold Num.norm_frac. induction n as [|n IH]; [reflexivity|].
  rewrite zeros_S. cbn [Num.drop_trailing]. rewrite IH. reflexivity.
Qed.

Lemma canonical_head c r :
  Num.norm_ip (String c r) = String c r -> String c r <> "0" -> Num.is_zero c = false.
Proof.
  intros N H. destruct (Num.is_zero c) eqn:Z; [|reflexivity]. exfalso.
  unfold Num.norm_ip in N. cbn [Num.drop_leading_zeros] in N. rewrite Z in N.
  pose proof (drop_leading_zeros_length r) as L.
  destruct (Num.drop_leading_zeros r) eqn:E.
  - apply H. symmetry. exact N.
  - rewrite N in L. cbn in L. lia.
Qed.

(** [repr] of a float that is not written with its digits in place: one
    digit, the others after a point, and the exponent; moving the point
    by the exponent gives the digits of the float back. *)
Lemma repr_scientific neg ip frac :
  Num.canonical (Num.Fin neg ip frac) = true ->
  Num.positional (Num.Fin neg ip frac) = false ->
  exists c rest (eneg : bool) n,
    Num.float_repr (Num.Fin neg ip frac)
    = (if neg then "-" else "") ++ String c (point_part rest ++ "e"
        ++ (if eneg then "-" else "+") ++ Num.two_digits n) /\
    Num.is_digit c = true /\ str_forall Num.is_digit rest = true /\ (0 <= n)%Z /\
    exists ip' frac',
      Num.shift (String c "") rest (if eneg then (- n)%Z else n) = (ip', frac') /\
      Num.norm_ip ip' = ip /\ Num.norm_frac frac' = frac.
Proof.
  intros Hc Hp. destruct (canonical_parts _ _ _ Hc) as (Hi & Hf & Ni & Nf & c & r & E & Dc).
  unfold Num.float_repr. rewrite Hp. cbn [Num.positional] in Hp.
  destruct (String.eqb ip "0") eqn:Z.
  - (* below 1e-4 *)
    apply String.eqb_eq in Z. subst ip. clear E Dc c r.
    apply orb_false_iff in Hp. destruct Hp as [Fe _].
    pose proof (leading_zeros frac) as Lz.
    set (z := Num.count_leading_zeros frac) in *.
    pose proof (drop_leading_zeros_head frac) as Hd.
    change ("0" ++ frac) with (String "0" frac). cbn [Num.drop_leading_zeros].
    change (Num.is_zero "0") with true. cbv iota.
    destruct (Num.drop_leading_zeros frac) as [|c r] eqn:D.
    { exfalso. rewrite append_empty_r in Lz. rewrite Lz, norm_frac_zeros in Nf.
      rewrite Lz in Fe. rewrite <- Nf in Fe. discriminate Fe. }
    assert (Dd : str_forall Num.is_digit (String c r) = true).
    { rewrite Lz, str_forall_app in Hf. apply andb_true_iff in Hf. apply Hf. }
    cbn [str_forall] in Dd. apply andb_true_iff in Dd. destruct Dd as [Dc Dr].
    assert (Nr : Num.norm_frac r = r).
    { apply (drop_trailing_suffix _ (Num.zeros z ++ String c "")).
      rewrite append_assoc. cbn [append]. rewrite <- Lz. exact Nf. }
    rewrite take_one, drop_one, Nr.
    exists c, r, true, (Z.of_nat z + 1)%Z.
    replace (- (Z.of_nat z + 1) <? 0)%Z with true by (symmetry; apply Z.ltb_lt; lia).
    replace (Z.abs (- (Z.of_nat z + 1))) with (Z.of_nat z + 1)%Z by lia.
    split; [reflexivity|]. split; [exact Dc|]. split; [exact Dr|]. split; [lia|].
    unfold Num.shift.
    replace (0 <=? - (Z.of_nat z + 1))%Z with false by (symmetry; apply Z.leb_gt; lia).
    replace (Z.to_nat (- - (Z.of_nat z + 1))) with (S z) by lia.
    cbn [String.length]. replace (S z - 1)%nat with z by lia.
    replace (String.length (Num.zeros z ++ String c "") - S z)%nat with 0%nat
      by (rewrite length_append, zeros_length; cbn; lia).
    rewrite take_zero, drop_zero.
    eexists _, _. split; [reflexivity|]. split; [reflexivity|].
    rewrite append_assoc. cbn [append]. rewrite <- Lz. exact Nf.
  - (* from 1e16 on *)
    subst ip. assert (Zc : Num.is_zero c = false).
    { apply canonical_head with r; [exact Ni|]. intros H. rewrite H in Z. discriminate Z. }
    cbn [append Num.drop_leading_zeros]. rewrite Zc, take_one, drop_one.
    cbn [String.length].
    replace (Z.of_nat (S (String.length r)) - 1)%Z with (Z.of_nat (String.length r)) by lia.
    replace (Z.of_nat (String.length r) <? 0)%Z with false by (symmetry; apply Z.ltb_ge; lia).
    rewrite Z.abs_eq by lia.
    cbn [str_forall] in Hi. apply andb_true_iff in Hi. destruct Hi as [_ Dr].
    exists c, (Num.norm_frac (r ++ frac)), false, (Z.of_nat (String.length r)).
    split; [reflexivity|]. split; [exact Dc|].
    destruct (trailing_zeros (r ++ frac)) as [m Tz].
    assert (Dn : str_forall Num.is_digit (Num.norm_frac (r ++ frac)) = true).
    { assert (A : str_forall Num.is_digit (r ++ frac) = true)
        by (rewrite str_forall_app, Dr, Hf; reflexivity).
      rewrite Tz, str_forall_app in A. apply andb_true_iff in A. apply A. }
    split; [exact Dn|]. split; [lia|].
    unfold Num.shift.
    replace (0 <=? Z.of_nat (String.length r))%Z with true by (symmetry; apply Z.leb_le; lia).
    rewrite Nat2Z.id.
    destruct frac as [|f frac'] eqn:F.
    + rewrite append_empty_r in *.
      assert (Lr : String.length r = (String.length (Num.norm_frac r) + m)%nat).
      { rewrite Tz at 1. rewrite length_append, zeros_length. reflexivity. }
      replace (String.length r - String.length (Num.norm_frac r))%nat with m by lia.
      rewrite <- Tz.
      pose proof (take_app r "") as T. pose proof (drop_app r "") as D.
      rewrite append_empty_r in T, D. rewrite T, D.
      eexists _, _. split; [reflexivity|]. split; [exact Ni | reflexivity].
    + rewrite <- F in *.
      assert (Nn : Num.norm_frac (r ++ frac) = r ++ frac).
      { apply drop_trailing_app; [exact Nf | rewrite F; discriminate]. }
      rewrite Nn.
      replace (String.length r - String.length (r ++ frac))%nat with 0%nat
        by (rewrite length_append; lia).
      change (Num.zeros 0) with "". rewrite append_empty_r, take_app, drop_app.
      eexists _, _. split; [reflexivity|]. split; [exact Ni | exact Nf].
Qed.

(** [repr] of a float reads back as the float, in either notation. *)
Lemma parse_float_repr_any x :
  Num.canonical x = true -> Num.parse_float (Num.float_repr x) = Some x.
Proof.
  intros Hc. destruct (Num.positional x) eqn:Hp; [apply parse_float_repr; assumption|].
  destruct x as [neg ip frac|neg]; [|destruct neg; reflexivity].
  destruct (repr_scientific neg ip frac Hc Hp)
    as (c & rest & eneg & n & E & Dc & Dr & Hn & ip' & frac' & S & Ni & Nf).
  rewrite E, (parse_scientific neg c rest eneg n Dc Dr Hn), S, Ni, Nf. reflexivity.
Qed.

Lemma parse_int_repr_any x :
  Num.canonical x = true -> Num.parse_int (Num.float_repr x) = None.
Proof.
  intros Hc. destruct (Num.positional x) eqn:Hp; [apply parse_int_repr; assumption|].
  destruct x as [neg ip frac|neg]; [|destruct neg; reflexivity].
  destruct (repr_scientific neg ip frac Hc Hp)
    as (c & rest & eneg & n & E & Dc & Dr & Hn & _).
  rewrite E. clear E.
  assert (B : str_forall (fun c => negb (Num.c_space c))
                (String c (point_part rest ++ "e"
                   ++ (if eneg then "-" else "+") ++ Num.two_digits n)) = true).
  { destruct (two_digits_text n Hn) as (d & t & -> & Dd & Dt & _).
    cbn [str_forall]. rewrite (digit_no_space c Dc). cbn [andb].
    rewrite str_forall_app. apply andb_true_iff. split.
    - unfold point_part. destruct (String.eqb rest ""); [reflexivity|].
      cbn [append str_forall]. change (negb (Num.c_space ".")) with true.
      apply digits_no_space, Dr.
    - cbn [append str_forall]. change (negb (Num.c_space "e")) with true. cbn [andb].
      rewrite str_forall_app. apply andb_true_iff. split; [destruct eneg; reflexivity|].
      apply (digits_no_space (String d t)). cbn. rewrite Dd, Dt. reflexivity. }
  unfold Num.parse_int.
  rewrite (signed_body neg c _ Dc B).
 rewrite all_digits_forall.
  replace (str_forall Num.is_digit (String c (point_part rest ++ "e"
                   ++ (if eneg then "-" else "+") ++ Num.two_digits n))) with false;
    [reflexivity|].
  symmetry. cbn [str_forall]. rewrite str_forall_app. cbn [append str_forall].
  change (Num.is_digit "e") with false. cbn [andb]. rewrite !andb_false_r. reflexivity.
Qed.

Lemma repr_not_na_any x :
  Num.canonical x = true -> Pd.is_na_text (Num.float_repr x) = false.
Proof.
  intros Hc. destruct (Pd.is_na_text (Num.float_repr x)) eqn:E; [|reflexivity].
  apply na_text_not_float in E. rewrite (parse_float_repr_any x Hc) in E. discriminate E.
Qed.

End NumberText.

(** *** Rows and columns *)

Lemma rget_rtab {A} (g : field -> A) f : rget f (rtab g) = g f.
Proof. destruct f; reflexivity. Qed.

Lemma rget_rmap {A B} (g : field -> A -> B) r f : rget f (rmap g r) = g f (rget f r).
Proof. destruct f; reflexivity. Qed.

Lemma row_ext {A} (r1 r2 : row A) : (forall f, rget f r1 = rget f r2) -> r1 = r2.
Proof.
  intros H. destruct r1, r2.
  pose proof (H AssetID). pose proof (H AssetName). pose proof (H Category).
  pose proof (H Brand). pose proof (H Model). pose proof (H SerialNo).
  pose proof (H Status). pose proof (H AssignedTo). pose proof (H PurchaseDate).
  pose proof (H WarrantyExpiry). pose proof (H Location). pose proof (H Cost).
  pose proof (H Notes). pose proof (H CreatedDate). pose proof (H LastUpdated).
  cbn in *. subst. reflexivity.
Qed.

Lemma rmap_rmap {A B C} (g : field -> B -> C) (h : field -> A -> B) r :
  rmap g (rmap h r) = rmap (fun f a => g f (h f a)) r.
Proof. apply row_ext. intros f. rewrite !rget_rmap. reflexivity. Qed.

Lemma rmap_same {A} (g : field -> A -> A) r :
  (forall f, g f (rget f r) = rget f r) -> rmap g r = r.
Proof. intros H. apply row_ext. intros f. rewrite rget_rmap. apply H. Qed.

Lemma in_schema f : In f schema.
Proof. destruct f; cbn; tauto. Qed.

Lemma traverse_some {A B} (g : A -> option B) (d : A -> B) l l' :
  Pd.traverse g l = Some l' ->
  map (fun a => match g a with Some b => b | None => d a end) l = l'.
Proof.
  revert l'. induction l as [|a l IH]; cbn; intros l' H.
  - injection H as <-. reflexivity.
  - destruct (g a) as [b|]; [|discriminate H].
    destruct (Pd.traverse g l) as [bs|]; [|discriminate H].
    injection H as <-. rewrite (IH bs eq_refl). reflexivity.
Qed.

Lemma traverse_none {A B} (g : A -> option B) l x :
  In x l -> g x = None -> Pd.traverse g l = None.
Proof.
  induction l as [|a l IH]; cbn; intros Hin Hx; [contradiction|].
  destruct Hin as [-> | Hin].
  - rewrite Hx. reflexivity.
  - rewrite (IH Hin Hx). destruct (g a); reflexivity.
Qed.

Lemma traverse_all {A B} (g : A -> option B) l :
  (forall x, In x l -> g x <> None) -> exists l', Pd.traverse g l = Some l'.
Proof.
  induction l as [|a l IH]; cbn; intros H; [eexists; reflexivity|].
  destruct (g a) as [b|] eqn:E; [|exfalso; apply (H a); auto].
  destruct IH as [l' E']; [intros x Hx; apply H; auto|].
  rewrite E'. eexists. reflexivity.
Qed.

Lemma forallb_false {A} (p : A -> bool) l x :
  In x l -> p x = false -> forallb p l = false.
Proof.
  intros Hin Hx. destruct (forallb p l) eqn:E; [|reflexivity].
  rewrite forallb_forall in E. rewrite (E x Hin) in Hx. discriminate Hx.
Qed.

(** *** The column types of [read_csv] *)

Lemma infer_object col s :
  In s col -> plain_text s = true -> Pd.infer_dtype col = Pd.DObject.
Proof.
  intros Hin Hp. unfold plain_text in Hp.
  repeat (apply andb_true_iff in Hp; destruct Hp as [Hp ?]).
  repeat match goal with G : negb _ = true |- _ => apply negb_true_iff in G end.
  unfold Pd.infer_dtype.
  assert (P : In s (filter (fun s => negb (Pd.is_na_text s)) col)).
  { apply filter_In. split; [exact Hin|]. rewrite Hp. reflexivity. }
  destruct col as [|c col]; [contradiction|].
  destruct (filter (fun s => negb (Pd.is_na_text s)) (c :: col)) as [|q present] eqn:F;
    [contradiction|].
  rewrite (forallb_false _ _ s P) by assumption.
  rewrite (forallb_false _ _ s P) by assumption.
  rewrite (forallb_false _ _ s P) by assumption.
  reflexivity.
Qed.

Lemma filter_keeps_all {A} (p : A -> bool) l :
  forallb p l = true -> filter p l = l.
Proof.
  induction l as [|a l IH]; cbn; [reflexivity|]. intros H.
  apply andb_true_iff in H. destruct H as [H1 H2]. rewrite H1, (IH H2). reflexivity.
Qed.

Lemma existsb_none {A} (p : A -> bool) l :
  forallb (fun a => negb (p a)) l = true -> existsb p l = false.
Proof.
  induction l as [|a l IH]; cbn; [reflexivity|]. intros H.
  apply andb_true_iff in H. destruct H as [H1 H2].
  apply negb_true_iff in H1. rewrite H1, (IH H2). reflexivity.
Qed.

(** A column of numbers is read as integers or as floats, and each of its
    fields as one. *)
Lemma numbers_read col s :
  forallb number_text col = true -> In s col ->
  exists c, Pd.read_cell (Pd.infer_dtype col) s = c /\
            Pd.fillna true c = c /\ Pd.fillna false c = c /\
            exists x, Pd.to_float c = Some (VFloat x).
Proof.
  intros Hn Hin.
  assert (Hna : forallb (fun s => negb (Pd.is_na_text s)) col = true).
  { rewrite forallb_forall in *. intros t Ht. specialize (Hn t Ht).
    unfold number_text in Hn. apply andb_true_iff in Hn. apply Hn. }
  assert (Hfl : forallb (fun s => Pd.is_some (Num.parse_float s)) col = true).
  { rewrite forallb_forall in *. intros t Ht. specialize (Hn t Ht).
    unfold number_text in Hn. apply andb_true_iff in Hn. apply Hn. }
  assert (Ns : Pd.is_na_text s = false).
  { rewrite forallb_forall in Hna. apply negb_true_iff, Hna, Hin. }
  unfold Pd.infer_dtype. rewrite (filter_keeps_all _ _ Hna).
  destruct col as [|c col]; [contradiction|].
  rewrite (existsb_none _ _ Hna).
  destruct (forallb (fun s => Pd.is_some (Num.parse_int s)) (c :: col)) eqn:I.
  - unfold Pd.read_cell. rewrite Ns.
    rewrite forallb_forall in I. specialize (I s Hin).
    destruct (Num.parse_int s) as [z|]; [|discriminate I].
    eexists. repeat split. eexists. reflexivity.
  - rewrite Hfl. unfold Pd.read_cell. rewrite Ns.
    rewrite forallb_forall in Hfl. specialize (Hfl s Hin).
    destruct (Num.parse_float s) as [x|]; [|discriminate Hfl].
    eexists. repeat split. eexists. reflexivity.
Qed.

(** *** Loading the asset table *)

Lemma load_assets_reads w texts :
  assets_file w = CsvTable texts -> assets_cache w = None ->
  load_assets w
  = (Ok (Table (normalize (blank_nat w) (Pd.read_csv texts))),
     with_assets_cache (Some (Table (normalize (blank_nat w) (Pd.read_csv texts)))) w).
Proof.
  intros Hf Hc. unfold load_assets, read_assets, bind, get. rewrite Hc, Hf. reflexivity.
Qed.

Lemma cost_astype rows : map cost (astype_cost rows) = astype_column (map cost rows).
Proof.
  unfold astype_cost, astype_column.
  destruct (Pd.traverse Pd.to_float (map cost rows)) as [col'|] eqn:E; [|reflexivity].
  rewrite map_map.
  apply (traverse_some _ (fun c => c)) in E. rewrite map_map in E. exact E.
Qed.

(** The Cost column of the loaded frame, from the Cost fields of the file. *)
Lemma cost_column blank texts :
  map cost (normalize blank (Pd.read_csv texts))
  = astype_column
      (map (fun s => Pd.fillna blank (Pd.read_cell (Pd.infer_dtype (map cost texts)) s))
           (map cost texts)).
Proof.
  unfold normalize. rewrite cost_astype. f_equal.
  unfold Pd.read_csv. rewrite !map_map. reflexivity.
Qed.

Lemma numbers_become_floats blank costs :
  forallb number_text costs = true ->
  forallb is_float_cell
    (astype_column
       (map (fun s => Pd.fillna blank (Pd.read_cell (Pd.infer_dtype costs) s)) costs))
  = true.
Proof.
  intros Hn. unfold astype_column.
  set (col := map _ costs).
  assert (Hall : forall c, In c col -> exists x, Pd.to_float c = Some (VFloat x)).
  { intros c Hc. unfold col in Hc. apply in_map_iff in Hc. destruct Hc as [s [<- Hs]].
    destruct (numbers_read costs s Hn Hs) as [c [-> [Ft [Ff Hx]]]].
    destruct blank; [rewrite Ft | rewrite Ff]; exact Hx. }
  destruct (traverse_all Pd.to_float col) as [col' E].
  { intros c Hc. destruct (Hall c Hc) as [x ->]. discriminate. }
  rewrite E. apply (traverse_some _ (fun c => c)) in E. subst col'.
  apply forallb_forall. intros c Hc. apply in_map_iff in Hc.
  destruct Hc as [a [<- Ha]]. destruct (Hall a Ha) as [x ->]. reflexivity.
Qed.

Lemma unparseable_stays_text blank costs :
  existsb unparseable costs = true ->
  astype_column
    (map (fun s => Pd.fillna blank (Pd.read_cell (Pd.infer_dtype costs) s)) costs)
  = map (fun s => VStr (blank_if_na s)) costs.
Proof.
  intros Hu. apply existsb_exists in Hu. destruct Hu as [t [Ht Hu]].
  unfold unparseable in Hu.
  repeat (apply andb_true_iff in Hu; destruct Hu as [Hu ?]).
  repeat match goal with G : negb _ = true |- _ => apply negb_true_iff in G end.
  assert (Hp : plain_text t = true).
  { unfold plain_text. rewrite Hu.
    repeat match goal with G : Pd.is_some _ = false |- _ => rewrite G end.
    reflexivity. }
  rewrite (infer_object costs t Ht Hp).
  assert (E : map (fun s => Pd.fillna blank (Pd.read_cell Pd.DObject s)) costs
              = map (fun s => VStr (blank_if_na s)) costs).
  { apply map_ext. intros s. unfold Pd.read_cell, blank_if_na.
    destruct (Pd.is_na_text s); reflexivity. }
  rewrite E. unfold astype_column.
  rewrite (traverse_none Pd.to_float _ (VStr t)); [reflexivity| |].
  - apply in_map_iff. exists t. split; [|exact Ht].
    unfold blank_if_na. rewrite Hu. reflexivity.
  - cbn. destruct (Pd.py_float t); [discriminate | reflexivity].
Qed.

(** C10, as stated, fails: with one unparseable cost in the file, no cost
    is made a number, the unparseable one is kept as it is, neither 0 nor a
    marker, and nothing is logged. *)
Lemma unparseable_cost_kept_silently :
  exists rows,
    fst (load_assets mixed_costs_world) = Ok (Table rows) /\
    map cost rows = [VStr "12.5"; VStr "abc"] /\
    log (snd (load_assets mixed_costs_world)) = [].
Proof.
  eexists. split; [vm_compute; reflexivity|].
  split; vm_compute; reflexivity.
Qed.

(** C10, amended: [load_assets] on a readable table logs nothing, and
    casts the Cost column to floats all or nothing: when every cost text is
    a number every cost is loaded as a float; when one cost text is
    unparseable every cost is loaded as text, the parseable ones included,
    with the empty text for a missing value and no 0 put in. *)
Theorem load_casts_costs_all_or_nothing (w : world) (texts : list (row string)) :
  assets_file w = CsvTable texts -> assets_cache w = None ->
  exists rows,
    fst (load_assets w) = Ok (Table rows) /\
    log (snd (load_assets w)) = log w /\
    screen (snd (load_assets w)) = screen w /\
    (forallb number_text (map cost texts) = true ->
     forallb is_float_cell (map cost rows) = true) /\
    (existsb unparseable (map cost texts) = true ->
     map cost rows = map (fun s => VStr (blank_if_na s)) (map cost texts)).
Proof.
  intros Hf Hc. rewrite (load_assets_reads w texts Hf Hc).
  eexists. split; [reflexivity|]. cbn [snd fst].
  split; [reflexivity|]. split; [reflexivity|].
  rewrite cost_column. split.
  - apply numbers_become_floats.
  - apply unparseable_stays_text.
Qed.

Lemma load_casts_costs_all_or_nothing_witness :
  assets_file mixed_costs_world = CsvTable mixed_costs /\
  assets_cache mixed_costs_world = None /\
  exists rows,
    fst (load_assets mixed_costs_world) = Ok (Table rows) /\
    log (snd (load_assets mixed_costs_world)) = log mixed_costs_world /\
    screen (snd (load_assets mixed_costs_world)) = screen mixed_costs_world /\
    (forallb number_text (map cost mixed_costs) = true ->
     forallb is_float_cell (map cost rows) = true) /\
    (existsb unparseable (map cost mixed_costs) = true ->
     map cost rows = map (fun s => VStr (blank_if_na s)) (map cost mixed_costs)).
Proof.
  split; [reflexivity|]. split; [reflexivity|].
  apply (load_casts_costs_all_or_nothing mixed_costs_world mixed_costs); reflexivity.
Defined.

(** *** Saving and loading again *)

Lemma csv_rows_stored rows : csv_rows rows = map (rmap stored) rows.
Proof.
  unfold csv_rows. apply map_ext. intros r. unfold format_dates.
  rewrite rmap_rmap. reflexivity.
Qed.

Lemma column_of_map {A B} (g : field -> A -> B) (rows : list (row A)) f :
  map (rget f) (map (rmap g) rows) = map (fun r => g f (rget f r)) rows.
Proof. rewrite map_map. apply map_ext. intros r. apply rget_rmap. Qed.

Lemma storable_column blank rows f :
  storable blank rows = true -> column_ok blank rows f = true.
Proof.
  unfold storable. rewrite forallb_forall. intros H. apply H, in_schema.
Qed.

(** What [save_assets] writes for a date that can be stored. *)
Lemma date_cell_text blank c :
  date_cell_ok blank c = true ->
  (exists d, c = VDate d /\ Cal.valid d = true /\ Cal.in_ts_range d = true /\
             date_text c = Some (VStr (Cal.strftime d)))
  \/ (c = Pd.fillna blank VNaT /\ exists c', date_text c = Some c' /\ Pd.csv_text c' = ""%string).
Proof.
  destruct c; try discriminate; cbn [date_cell_ok]; intros H.
  - right. apply andb_true_iff in H. destruct H as [-> H]. apply String.eqb_eq in H.
    subst s. split; [reflexivity|]. eexists. split; reflexivity.
  - left. apply andb_true_iff in H. destruct H as [Hv Hr].
    exists d. repeat split; try assumption. unfold date_text. cbn. rewrite Hr. reflexivity.
  - right. apply negb_true_iff in H. subst blank. split; [reflexivity|].
    eexists. split; reflexivity.
Qed.

Lemma storable_dates_ok blank rows :
  storable blank rows = true -> forallb dates_ok rows = true.
Proof.
  intros Hs. apply forallb_forall. intros r Hr. unfold dates_ok.
  apply forallb_forall. intros f _.
  destruct (is_date_col f) eqn:D; [|reflexivity]. cbn [negb orb].
  pose proof (storable_column blank rows f Hs) as Hc. unfold column_ok in Hc.
  rewrite D in Hc. rewrite forallb_forall in Hc.
  destruct (date_cell_text blank (rget f r)) as [(d & _ & _ & _ & E) | (_ & c' & E & _)];
    [apply Hc, in_map, Hr | |]; rewrite E; reflexivity.
Qed.

Lemma strftime_plain d : plain_text (Cal.strftime d) = true.
Proof.
  unfold plain_text.
  rewrite strftime_not_na, strftime_not_int, strftime_not_float, strftime_not_bool.
  reflexivity.
Qed.

Lemma infer_float_column col :
  col <> [] ->
  (forall s, In s col ->
     Pd.is_na_text s = false /\ Num.parse_int s = None /\ Num.parse_float s <> None) ->
  Pd.infer_dtype col = Pd.DFloat.
Proof.
  intros Hn H. unfold Pd.infer_dtype.
  assert (Hna : forallb (fun s => negb (Pd.is_na_text s)) col = true).
  { apply forallb_forall. intros s Hs. destruct (H s Hs) as [-> _]. reflexivity. }
  rewrite (filter_keeps_all _ _ Hna).
  destruct col as [|c col]; [contradiction|].
  rewrite (forallb_false _ _ c) by
    (try (left; reflexivity); destruct (H c (or_introl eq_refl)) as (_ & -> & _);
     reflexivity).
  replace (forallb (fun s => Pd.is_some (Num.parse_float s)) (c :: col)) with true;
    [reflexivity|].
  symmetry. apply forallb_forall. intros s Hs. destruct (H s Hs) as (_ & _ & F).
  destruct (Num.parse_float s); [reflexivity | contradiction].
Qed.

Lemma in_int64_range z : in_int64 z = true -> (Num.int64_min <= z <= Num.int64_max)%Z.
Proof. unfold in_int64. intros H. apply andb_true_iff in H. destruct H. lia. Qed.

(** A value that can be stored is read back from the text [to_csv] writes
    for it, in a column of the type of its column. *)
Lemma cell_read_back blank dt c :
  cell_ok dt c = true -> Pd.fillna blank (Pd.read_cell dt (Pd.csv_text c)) = c.
Proof.
  destruct c as [s|z|x|b| | |]; try discriminate; cbn [cell_ok Pd.csv_text]; intros H.
  - unfold Pd.read_cell. destruct (Pd.is_na_text s) eqn:N.
    + cbn [negb andb] in H. rewrite orb_false_r in H. apply String.eqb_eq in H.
      subst s. reflexivity.
    + apply orb_true_iff in H. destruct H as [H | H].
      * apply String.eqb_eq in H. subst s. discriminate N.
      * cbn [negb andb] in H. destruct dt; try discriminate H. reflexivity.
  - apply andb_true_iff in H. destruct H as [Hd Hz]. apply in_int64_range in Hz.
    destruct dt; try discriminate Hd. unfold Pd.read_cell.
    rewrite (int_repr_not_na z Hz), (parse_int_int_repr z Hz). reflexivity.
  - apply andb_true_iff in H. destruct H as [H _].
    apply andb_true_iff in H. destruct H as [Hd Hx].
    destruct dt; try discriminate Hd. unfold Pd.read_cell.
    rewrite (repr_not_na_any x Hx), (parse_float_repr_any x Hx). reflexivity.
  - destruct dt; try discriminate H. destruct b; reflexivity.
Qed.

(** Each value of a storable frame is loaded from the text it is stored
    as. *)
Lemma stored_then_loaded blank rows r f :
  storable blank rows = true -> In r rows ->
  loaded blank (Pd.infer_dtype (map (fun r => stored f (rget f r)) rows)) f
         (stored f (rget f r))
  = rget f r.
Proof.
  intros Hs Hr. pose proof (storable_column blank rows f Hs) as Hc.
  unfold column_ok in Hc. unfold loaded, stored.
  destruct (is_date_col f) eqn:D.
  - rewrite forallb_forall in Hc.
    destruct (date_cell_text blank (rget f r))
      as [(d & E & Hv & Hrg & T) | (E & c' & T & Tx)]; [apply Hc, in_map, Hr | |].
    + rewrite T. cbn [Pd.csv_text].
      rewrite (infer_object _ (Cal.strftime d)); [| |apply strftime_plain].
      * unfold Pd.read_cell. rewrite strftime_not_na. cbn [Pd.to_datetime_coerce].
        rewrite (parse_strftime d Hv), Hrg, E. reflexivity.
      * apply in_map_iff. exists r. split; [|exact Hr]. rewrite T. reflexivity.
    + rewrite T, Tx. unfold Pd.read_cell. cbn [Pd.is_na_text Str.mem existsb Pd.na_values String.eqb orb Pd.to_datetime_coerce].
      symmetry. exact E.
  - apply andb_true_iff in Hc. destruct Hc as [Hc _]. rewrite forallb_forall in Hc.
    specialize (Hc (rget f r) (in_map _ _ _ Hr)). unfold written_type in Hc.
    rewrite map_map in Hc. apply cell_read_back, Hc.
Qed.

Lemma astype_cost_storable blank rows :
  storable blank rows = true -> astype_cost rows = rows.
Proof.
  intros Hs. unfold astype_cost.
  destruct (Pd.traverse Pd.to_float (map cost rows)) eqn:T; [|reflexivity].
  pose proof (storable_column blank rows Cost Hs) as Hc. unfold column_ok in Hc.
  cbn [is_date_col] in Hc. apply andb_true_iff in Hc. destruct Hc as [_ Hc].
  apply orb_true_iff in Hc. destruct Hc as [Hf | Hx].
  - rewrite <- (map_id rows) at 2. apply map_ext_in. intros r Hr.
    apply rmap_same. intros f. rewrite forallb_forall in Hf.
    specialize (Hf (cost r) (in_map _ _ _ Hr)).
    destruct f; try reflexivity. cbn [rget] in *.
    destruct (cost r); try discriminate Hf. reflexivity.
  - exfalso. unfold cast_fails in Hx. apply existsb_exists in Hx.
    destruct Hx as (c & Hin & Hx).
    assert (N : Pd.traverse Pd.to_float (map cost rows) = None).
    { apply (traverse_none Pd.to_float _ c); [exact Hin|].
      destruct (Pd.to_float c); [discriminate Hx | reflexivity]. }
    rewrite N in T. discriminate T.
Qed.

Lemma normalize_read_stored blank rows :
  storable blank rows = true ->
  normalize blank (Pd.read_csv (csv_rows rows)) = rows.
Proof.
  intros Hs. unfold normalize, Pd.read_csv. rewrite csv_rows_stored.
  rewrite !map_map.
  assert (E : map (fun r =>
                rmap (fun _ c => Pd.fillna blank c)
                  (rmap (fun f c => if is_date_col f then Pd.to_datetime_coerce c else c)
                     (rmap (fun f s =>
                              Pd.read_cell
                                (rget f (rtab (fun f0 =>
                                   Pd.infer_dtype
                                     (map (rget f0) (map (rmap stored) rows))))) s)
                        (rmap stored r)))) rows
              = rows).
  { rewrite <- (map_id rows) at 2. apply map_ext_in. intros r Hr.
    rewrite !rmap_rmap. apply rmap_same. intros f.
    rewrite rget_rtab, column_of_map.
    pose proof (stored_then_loaded blank rows r f Hs Hr) as L.
    unfold loaded in L. destruct (is_date_col f); exact L. }
  rewrite E. apply (astype_cost_storable blank), Hs.
Qed.

(** C3, as stated, fails: the serial number "007" comes back as the
    integer 7, and the note "N/A" as the empty text. *)
Lemma saved_text_is_retyped :
  exists rows',
    fst (load_assets (snd (save_assets (Table numbered_serial) fresh_world)))
    = Ok (Table rows') /\
    map serial_no numbered_serial = [VStr "007"] /\
    map serial_no rows' = [VInt 7] /\
    map notes numbered_serial = [VStr "N/A"] /\
    map notes rows' = [VStr ""].
Proof.
  eexists. split; [vm_compute; reflexivity|].
  repeat split; vm_compute; reflexivity.
Qed.

(** C3, amended: with a working disk, a storable frame is loaded after a
    save exactly as it was saved, whatever the file held and whatever was
    cached.  Storable: each date is a real day a Timestamp can hold or the
    mark of a missing date as [load_assets] leaves it; each value of
    another column is the empty text, a text that is no missing value for
    [read_csv] in a column read as text, an [int64] in a column read as
    integers, a truth value in a column read as truth values, or a float
    in a column read as floats, be it written with an exponent or
    infinite, provided [read_csv] reads its text exactly (at most 15
    digits, between 1e-22 and 1e23); and the Cost column holds floats
    only, or a value the cast to [float64] raises on. *)
Theorem save_then_load_reproduces_storable (w : world) (rows : list (row cell)) :
  disk_fault w = None -> storable (blank_nat w) rows = true ->
  fst (load_assets (snd (save_assets (Table rows) w))) = Ok (Table rows).
Proof.
  intros Hd Hs. rewrite save_assets_unfold, (storable_dates_ok _ rows Hs), Hd.
  cbn [snd]. erewrite load_assets_reads; [|reflexivity|reflexivity].
  cbn [fst blank_nat with_log with_assets_cache with_hash_cache with_assets_file].
  rewrite (normalize_read_stored _ rows Hs). reflexivity.
Qed.

Lemma save_then_load_reproduces_storable_witness :
  disk_fault new_store = None /\ storable (blank_nat new_store) loaded_ledger = true /\
  fst (load_assets (snd (save_assets (Table loaded_ledger) new_store)))
  = Ok (Table loaded_ledger).
Proof.
  split; [reflexivity|]. split; [vm_compute; reflexivity|].
  apply (save_then_load_reproduces_storable new_store loaded_ledger);
    [reflexivity | vm_compute; reflexivity].
Defined.

Example two_assets_are_storable :
  storable true two_assets = true /\ storable false two_assets = true.
Proof. split; vm_compute; reflexivity. Qed.

(** * Further properties of the stores *)

(** *** [init_storage] *)

Lemma init_storage_cases w :
  init_storage w
  = match assets_file w with
    | CsvMissing | CsvEmpty =>
        match disk_fault w with
        | Some O => (Raise OSError, with_assets_file CsvEmpty w)
        | _ => (Ok tt, with_assets_file (CsvTable []) w)
        end
    | _ => (Ok tt, w)
    end.
Proof.
  unfold init_storage, bind, modify, get, to_csv.
  destruct w as [af uf ac hc lg sc df bn]; cbn.
  destruct af; cbn; try reflexivity; destruct df as [[|k]|]; reflexivity.
Qed.

(** X1: [init_storage] never touches a file that has content: a table, or
    content that cannot be parsed, is left as it is, with the rest of the
    world; and unless the disk fails on the header line, running it a
    second time changes nothing. *)
Theorem init_storage_keeps_content_and_is_idempotent (w : world) :
  (forall rows, assets_file w = CsvTable rows -> init_storage w = (Ok tt, w)) /\
  (assets_file w = CsvGarbled -> init_storage w = (Ok tt, w)) /\
  (disk_fault w <> Some 0 ->
   fst (init_storage w) = Ok tt /\
   init_storage (snd (init_storage w)) = (Ok tt, snd (init_storage w))).
Proof.
  repeat split.
  - intros rows H. rewrite init_storage_cases, H. reflexivity.
  - intros H. rewrite init_storage_cases, H. reflexivity.
  - rewrite init_storage_cases.
    destruct (assets_file w); try reflexivity;
      destruct (disk_fault w) as [[|k]|]; try reflexivity; contradiction.
  - rewrite (init_storage_cases w).
    destruct (assets_file w) eqn:F;
      try (cbn [snd]; rewrite init_storage_cases, F; reflexivity);
      destruct (disk_fault w) as [[|k]|] eqn:D; try contradiction;
      cbn [snd]; rewrite init_storage_cases; reflexivity.
Qed.

Lemma init_storage_keeps_content_and_is_idempotent_witness :
  disk_fault fresh_world <> Some 0 /\
  fst (init_storage fresh_world) = Ok tt /\
  init_storage (snd (init_storage fresh_world)) = (Ok tt, snd (init_storage fresh_world)).
Proof.
  split; [discriminate|].
  apply (init_storage_keeps_content_and_is_idempotent fresh_world). discriminate.
Defined.

(** X2: on a working disk, a store that starts without a file, or with an
    empty one, is loaded after [init_storage] as the table with the asset
    columns and no row, not as the frame without columns; so the first
    registration finds the Asset ID column and no identifier is taken. *)
Theorem first_load_after_init_is_empty_table (w : world) (f : Form.t) (today : Cal.date) :
  assets_file w = CsvMissing \/ assets_file w = CsvEmpty ->
  disk_fault w = None -> assets_cache w = None ->
  fst (load_assets (snd (init_storage w))) = Ok (Table []) /\
  validate (Table []) f
  = Ok ((if required_missing f then [msg_required] else []) ++
        (if warranty_not_after f then [msg_warranty] else [])).
Proof.
  intros Hf Hd Hc. split.
  - rewrite init_storage_cases.
    assert (E : snd (match assets_file w with
                     | CsvMissing | CsvEmpty =>
                         match disk_fault w with
                         | Some O => (Raise OSError, with_assets_file CsvEmpty w)
                         | _ => (@Ok unit tt, with_assets_file (CsvTable []) w)
                         end
                     | _ => (Ok tt, w)
                     end) = with_assets_file (CsvTable []) w).
    { rewrite Hd. destruct Hf as [-> | ->]; reflexivity. }
    rewrite E. rewrite (load_assets_reads _ []); [reflexivity|reflexivity|exact Hc].
  - rewrite validate_table. reflexivity.
Qed.

Lemma first_load_after_init_is_empty_table_witness :
  (assets_file fresh_world = CsvMissing \/ assets_file fresh_world = CsvEmpty) /\
  disk_fault fresh_world = None /\ assets_cache fresh_world = None /\
  fst (load_assets (snd (init_storage fresh_world))) = Ok (Table []) /\
  validate (Table []) same_day_form
  = Ok ((if required_missing same_day_form then [msg_required] else []) ++
        (if warranty_not_after same_day_form then [msg_warranty] else [])).
Proof.
  split; [left; reflexivity|]. split; [reflexivity|]. split; [reflexivity|].
  apply (first_load_after_init_is_empty_table fresh_world same_day_form
           (Cal.mkDate 2024 6 15)); [left|..]; reflexivity.
Defined.

(** *** [load_assets] and its cache *)

Lemma load_assets_cases w :
  load_assets w
  = match assets_cache w with
    | Some df => (Ok df, w)
    | None =>
        match assets_file w with
        | CsvTable texts =>
            let df := Table (normalize (blank_nat w) (Pd.read_csv texts)) in
            (Ok df, with_assets_cache (Some df) w)
        | _ =>
            (Ok NoColumns,
             with_assets_cache (Some NoColumns)
               (with_log (log w ++ [(ERROR, "Failed to load assets")]) w))
        end
    end.
Proof.
  unfold load_assets, read_assets, bind, get.
  destruct (assets_cache w); [reflexivity|].
  destruct (assets_file w); reflexivity.
Qed.

(** X3: [load_assets] never raises and never writes: it returns a frame,
    leaves both files and the screen as they are, and keeps the frame in the
    cache.  When nothing is cached and the file is not a table (missing,
    empty or not parseable), the frame is the one without columns and the
    failure is logged. *)
Theorem load_assets_is_safe (w : world) :
  exists df,
    fst (load_assets w) = Ok df /\
    assets_file (snd (load_assets w)) = assets_file w /\
    users_file (snd (load_assets w)) = users_file w /\
    screen (snd (load_assets w)) = screen w /\
    assets_cache (snd (load_assets w)) = Some df /\
    (assets_cache w = None -> (forall rows, assets_file w <> CsvTable rows) ->
     df = NoColumns /\
     log (snd (load_assets w)) = log w ++ [(ERROR, "Failed to load assets")]).
Proof.
  rewrite load_assets_cases. destruct (assets_cache w) as [df|] eqn:C.
  - exists df. do 4 (split; [reflexivity|]). split; [exact C|].
    intros N. discriminate N.
  - destruct (assets_file w) eqn:F;
      try (exists NoColumns; do 5 (split; [cbn; rewrite ?F; reflexivity|]);
           intros _ _; split; reflexivity).
    eexists. do 5 (split; [cbn; rewrite ?F; reflexivity|]).
    intros _ N. exfalso. eapply N. reflexivity.
Qed.

Lemma load_assets_is_safe_witness :
  assets_cache fresh_world = None /\
  (forall rows, assets_file fresh_world <> CsvTable rows) /\
  exists df,
    fst (load_assets fresh_world) = Ok df /\
    assets_file (snd (load_assets fresh_world)) = assets_file fresh_world /\
    users_file (snd (load_assets fresh_world)) = users_file fresh_world /\
    screen (snd (load_assets fresh_world)) = screen fresh_world /\
    assets_cache (snd (load_assets fresh_world)) = Some df /\
    (assets_cache fresh_world = None ->
     (forall rows, assets_file fresh_world <> CsvTable rows) ->
     df = NoColumns /\
     log (snd (load_assets fresh_world))
     = log fresh_world ++ [(ERROR, "Failed to load assets")]).
Proof.
  split; [reflexivity|]. split; [discriminate|].
  apply (load_assets_is_safe fresh_world).
Defined.

(** *** What a loaded frame holds *)

Lemma fillna_not_nan blank c : is_nan (Pd.fillna blank c) = false.
Proof. destruct c, blank; reflexivity. Qed.

Lemma coerced_date_cell blank c :
  loaded_date_cell blank (Pd.fillna blank (Pd.to_datetime_coerce c)) = true.
Proof.
  destruct c; cbn; try (destruct blank; reflexivity).
  - destruct (Cal.parse_iso s) as [d|]; [|destruct blank; reflexivity].
    destruct (Cal.in_ts_range d); cbn; [reflexivity | destruct blank; reflexivity].
  - destruct (Cal.in_ts_range d); cbn; [reflexivity | destruct blank; reflexivity].
Qed.

Lemma astype_cost_cell rows r f :
  In r (astype_cost rows) ->
  exists r0, In r0 rows /\ (f <> Cost -> rget f r = rget f r0).
Proof.
  unfold astype_cost.
  destruct (Pd.traverse Pd.to_float (map cost rows)).
  - intros H. apply in_map_iff in H. destruct H as [r0 [<- H0]].
    exists r0. split; [exact H0|]. intros N. rewrite rget_rmap.
    destruct f; try reflexivity. contradiction.
  - intros H. exists r. split; [exact H | reflexivity].
Qed.

Lemma normalize_length blank texts :
  List.length (normalize blank (Pd.read_csv texts)) = List.length texts.
Proof.
  unfold normalize, astype_cost, Pd.read_csv.
  destruct (Pd.traverse _ _); rewrite !length_map; reflexivity.
Qed.

(** The values of a loaded frame, column by column. *)
Lemma normalize_cells blank texts r f :
  In r (normalize blank (Pd.read_csv texts)) ->
  (f <> Cost -> is_nan (rget f r) = false) /\
  (is_date_col f = true -> loaded_date_cell blank (rget f r) = true).
Proof.
  intros Hr. unfold normalize in Hr.
  destruct (astype_cost_cell _ r f Hr) as (r0 & H0 & Hcell).
  rewrite map_map in H0. apply in_map_iff in H0. destruct H0 as (r1 & <- & H1).
  rewrite !rget_rmap in Hcell. split.
  - intros N. rewrite (Hcell N). apply fillna_not_nan.
  - intros D. rewrite Hcell by (intros ->; discriminate D).
    rewrite D. apply coerced_date_cell.
Qed.

(** X6: a frame loaded from a table has one row per line of the file; no
    value outside the Cost column is [NaN]; and every value of the four
    date columns is a Timestamp or the mark of a missing date: text that is
    not read as a date is made a missing date, it is not kept and it does
    not fail the load. *)
Theorem loaded_frame_has_clean_dates (w : world) (texts : list (row string)) :
  assets_file w = CsvTable texts -> assets_cache w = None ->
  exists rows,
    fst (load_assets w) = Ok (Table rows) /\
    List.length rows = List.length texts /\
    forall r f, In r rows ->
      (f <> Cost -> is_nan (rget f r) = false) /\
      (is_date_col f = true -> loaded_date_cell (blank_nat w) (rget f r) = true).
Proof.
  intros Hf Hc. rewrite (load_assets_reads w texts Hf Hc). cbn [fst].
  eexists. split; [reflexivity|]. split; [apply normalize_length|].
  intros r f Hr. apply normalize_cells with (texts := texts). exact Hr.
Qed.

Lemma loaded_frame_has_clean_dates_witness :
  assets_file mixed_costs_world = CsvTable mixed_costs /\
  assets_cache mixed_costs_world = None /\
  exists rows,
    fst (load_assets mixed_costs_world) = Ok (Table rows) /\
    List.length rows = List.length mixed_costs /\
    forall r f, In r rows ->
      (f <> Cost -> is_nan (rget f r) = false) /\
      (is_date_col f = true ->
       loaded_date_cell (blank_nat mixed_costs_world) (rget f r) = true).
Proof.
  split; [reflexivity|]. split; [reflexivity|].
  apply (loaded_frame_has_clean_dates mixed_costs_world mixed_costs); reflexivity.
Defined.

(** *** The registration page *)

Lemma with_screen_same w : with_screen (screen w) w = w.
Proof. destruct w; reflexivity. Qed.

Lemma show_errors_spec errors : forall w,
  show_errors errors w = (Ok tt, with_screen (screen w ++ error_lines errors) w).
Proof.
  induction errors as [|e errors IH]; intros w.
  - cbn. rewrite app_nil_r, with_screen_same. reflexivity.
  - cbn [show_errors]. unfold bind, st_show, modify. rewrite IH.
    cbn [screen with_screen error_lines map]. rewrite <- app_assoc. reflexivity.
Qed.

(** X7: a rejected registration writes nothing: the errors are put on the
    screen in the order of the checks, and the files, the caches and the
    log stay as they were. *)
Theorem rejected_registration_only_shows_errors (w : world) (rows : list (row cell))
        (f : Form.t) (today : Cal.date) (errors : list string) :
  register (Table rows) f today = Ok (Rejected errors) ->
  render_add_asset (Table rows) f today w
  = (Ok tt, with_screen (screen w ++ error_lines errors) w).
Proof.
  intros H. unfold render_add_asset, bind, lift. rewrite H. apply show_errors_spec.
Qed.

Lemma rejected_registration_only_shows_errors_witness :
  register (Table []) nameless_form (Cal.mkDate 2024 6 15)
  = Ok (Rejected [msg_required]) /\
  render_add_asset (Table []) nameless_form (Cal.mkDate 2024 6 15) fresh_world
  = (Ok tt, with_screen (screen fresh_world ++ error_lines [msg_required]) fresh_world).
Proof.
  split; [reflexivity|].
  apply (rejected_registration_only_shows_errors fresh_world [] nameless_form
           (Cal.mkDate 2024 6 15) [msg_required]).
  reflexivity.
Defined.

(** X8: the page reports success whether or not the save went through:
    when the write fails, "Save failed" and "Asset registered successfully!"
    are both shown, and the file holds the part that was written. *)
Theorem success_is_shown_after_a_failed_save (w : world) (rows : list (row cell))
        (f : Form.t) (today : Cal.date) (df' : frame) (n : nat) :
  register (Table rows) f today = Ok (Accepted df') ->
  forallb dates_ok (rows ++ [new_asset f today]) = true ->
  disk_fault w = Some n -> n <= S (List.length rows) ->
  let w' := snd (render_add_asset (Table rows) f today w) in
  screen w' = screen w ++ [(ERROR, "Save failed");
                           (SUCCESS, "Asset registered successfully!")] /\
  assets_file w' = partial_file n (csv_rows (rows ++ [new_asset f today])).
Proof.
  intros H Hk Hd Hn w'. subst w'.
  destruct (register_accepts _ _ _ _ H) as [_ ->].
  unfold render_add_asset, bind, lift. rewrite H.
  rewrite save_assets_unfold, Hk, Hd.
  replace (n <=? List.length (rows ++ [new_asset f today]))%nat with true
    by (symmetry; apply Nat.leb_le; rewrite length_app; cbn; lia).
  cbn. rewrite <- app_assoc. split; reflexivity.
Qed.

Lemma success_is_shown_after_a_failed_save_witness :
  register (Table []) good_form (Cal.mkDate 2024 6 15)
  = Ok (Accepted (Table [new_asset good_form (Cal.mkDate 2024 6 15)])) /\
  forallb dates_ok ([] ++ [new_asset good_form (Cal.mkDate 2024 6 15)]) = true /\
  disk_fault failing_first_row = Some 1 /\ 1 <= S (List.length (@nil (row cell))) /\
  (let w' := snd (render_add_asset (Table []) good_form (Cal.mkDate 2024 6 15)
                                   failing_first_row) in
   screen w' = screen failing_first_row
               ++ [(ERROR, "Save failed"); (SUCCESS, "Asset registered successfully!")] /\
   assets_file w'
   = partial_file 1 (csv_rows ([] ++ [new_asset good_form (Cal.mkDate 2024 6 15)]))).
Proof.
  split; [reflexivity|]. split; [reflexivity|]. split; [reflexivity|].
  split; [cbn; lia|].
  apply (success_is_shown_after_a_failed_save failing_first_row [] good_form
           (Cal.mkDate 2024 6 15)
           (Table [new_asset good_form (Cal.mkDate 2024 6 15)]) 1);
    first [reflexivity | cbn; lia].
Defined.

Lemma cal_leb_refl d : Cal.leb d d = true.
Proof.
  unfold Cal.leb. rewrite !Z.eqb_refl, Z.leb_refl. cbn.
  rewrite !orb_true_r. reflexivity.
Qed.

Lemma accepted_checks rows f today df' :
  register (Table rows) f today = Ok (Accepted df') ->
  required_missing f = false /\ id_exists (map asset_id rows) f = false /\
  warranty_not_after f = false.
Proof.
  intros H. apply register_accepts in H. destruct H as [H _].
  rewrite validate_table in H. injection H as H.
  destruct (required_missing f), (id_exists (map asset_id rows) f),
    (warranty_not_after f); try discriminate H. repeat split.
Qed.

(** X9: an accepted registration returns the frame with one record more,
    put last, the records before it untouched; the new record has an
    identifier, a name, a brand and a category that are not empty, a
    warranty that ends after the purchase, and the day of the registration
    as its creation and update date; so a frame of such records stays
    one. *)
Theorem accepted_registration_appends_valid_record (rows : list (row cell))
        (f : Form.t) (today : Cal.date) (df' : frame) :
  register (Table rows) f today = Ok (Accepted df') ->
  df' = Table (rows ++ [new_asset f today]) /\
  record_ok (new_asset f today) = true /\
  created_date (new_asset f today) = VDate today /\
  last_updated (new_asset f today) = VDate today /\
  (forallb record_ok rows = true -> forallb record_ok (frame_rows df') = true).
Proof.
  intros H. destruct (accepted_checks _ _ _ _ H) as (Hr & _ & Hw).
  destruct (register_accepts _ _ _ _ H) as [_ ->].
  assert (Ok1 : record_ok (new_asset f today) = true).
  { unfold required_missing in Hr. apply negb_false_iff in Hr.
    cbn [forallb] in Hr.
    repeat (apply andb_true_iff in Hr; destruct Hr as [? Hr]).
    unfold record_ok, new_asset. cbn.
    unfold warranty_not_after in Hw. rewrite Hw, cal_leb_refl.
    repeat match goal with G : Str.truthy _ = true |- _ => rewrite G end.
    reflexivity. }
  repeat split; try exact Ok1.
  intros Hall. cbn [frame_rows]. rewrite forallb_app, Hall. cbn. rewrite Ok1. reflexivity.
Qed.

Lemma accepted_registration_appends_valid_record_witness :
  register (Table []) good_form (Cal.mkDate 2024 6 15)
  = Ok (Accepted (Table [new_asset good_form (Cal.mkDate 2024 6 15)])) /\
  Table [new_asset good_form (Cal.mkDate 2024 6 15)]
  = Table ([] ++ [new_asset good_form (Cal.mkDate 2024 6 15)]) /\
  record_ok (new_asset good_form (Cal.mkDate 2024 6 15)) = true /\
  created_date (new_asset good_form (Cal.mkDate 2024 6 15)) = VDate (Cal.mkDate 2024 6 15) /\
  last_updated (new_asset good_form (Cal.mkDate 2024 6 15)) = VDate (Cal.mkDate 2024 6 15) /\
  (forallb record_ok [] = true ->
   forallb record_ok (frame_rows (Table [new_asset good_form (Cal.mkDate 2024 6 15)])) = true).
Proof.
  split; [reflexivity|].
  apply (accepted_registration_appends_valid_record [] good_form (Cal.mkDate 2024 6 15)).
  reflexivity.
Defined.

(** X10: on a working disk, an accepted registration whose new frame is
    storable is in the file and nowhere stale: whatever was cached before,
    the next [load_assets] returns the old records followed by the new
    one. *)
Theorem registered_asset_is_loaded_back (w : world) (rows : list (row cell))
        (f : Form.t) (today : Cal.date) (df' : frame) :
  register (Table rows) f today = Ok (Accepted df') ->
  disk_fault w = None -> storable (blank_nat w) (rows ++ [new_asset f today]) = true ->
  fst (load_assets (snd (render_add_asset (Table rows) f today w)))
  = Ok (Table (rows ++ [new_asset f today])) /\
  screen (snd (render_add_asset (Table rows) f today w))
  = screen w ++ [(SUCCESS, "Asset registered successfully!")].
Proof.
  intros H Hd Hs. destruct (register_accepts _ _ _ _ H) as [_ ->].
  unfold render_add_asset, bind, lift. rewrite H.
  rewrite save_assets_unfold, (storable_dates_ok _ _ Hs), Hd. cbn [snd st_show modify].
  split; [|reflexivity].
  erewrite load_assets_reads; [|reflexivity|reflexivity].
  cbn [fst blank_nat with_log with_assets_cache with_hash_cache with_assets_file
       with_screen].
  rewrite (normalize_read_stored _ _ Hs). reflexivity.
Qed.

Lemma registered_asset_is_loaded_back_witness :
  register (Table []) good_form (Cal.mkDate 2024 6 15)
  = Ok (Accepted (Table [new_asset good_form (Cal.mkDate 2024 6 15)])) /\
  disk_fault fresh_world = None /\
  storable (blank_nat fresh_world) ([] ++ [new_asset good_form (Cal.mkDate 2024 6 15)])
  = true /\
  fst (load_assets (snd (render_add_asset (Table []) good_form (Cal.mkDate 2024 6 15)
                                          fresh_world)))
  = Ok (Table ([] ++ [new_asset good_form (Cal.mkDate 2024 6 15)])) /\
  screen (snd (render_add_asset (Table []) good_form (Cal.mkDate 2024 6 15) fresh_world))
  = screen fresh_world ++ [(SUCCESS, "Asset registered successfully!")].
Proof.
  split; [reflexivity|]. split; [reflexivity|]. split; [vm_compute; reflexivity|].
  apply (registered_asset_is_loaded_back fresh_world [] good_form (Cal.mkDate 2024 6 15)
           (Table [new_asset good_form (Cal.mkDate 2024 6 15)]));
    [reflexivity | reflexivity | vm_compute; reflexivity].
Defined.

(** *** The dashboard *)

Lemma status_counts_bound rows :
  count_status "Assigned" rows + count_status "Available" rows
  + count_status "Repair" rows
  = List.length (filter counted_status rows).
Proof.
  unfold count_status. induction rows as [|r rows IH]; [reflexivity|].
  cbn [filter]. unfold counted_status at 1.
  destruct (status r) as [s| | | | | |]; cbn [Pd.eq_str orb]; try exact IH.
  destruct (String.eqb s "Assigned") eqn:A.
  - apply String.eqb_eq in A. subst s.
    cbn [String.eqb Ascii.eqb Bool.eqb andb orb List.length]. lia.
  - destruct (String.eqb s "Available") eqn:B.
    + apply String.eqb_eq in B. subst s.
      cbn [String.eqb Ascii.eqb Bool.eqb andb orb List.length]. lia.
    + destruct (String.eqb s "Repair"); cbn [orb List.length]; lia.
Qed.

Lemma filter_length_le {A} (p : A -> bool) l : List.length (filter p l) <= List.length l.
Proof. induction l as [|a l IH]; cbn; [lia|]. destruct (p a); cbn; lia. Qed.

Lemma expiring_rows_length threshold rows sel :
  expiring_rows threshold rows = Ok sel -> List.length sel <= List.length rows.
Proof.
  revert sel. induction rows as [|r rows IH]; cbn; intros sel H.
  - injection H as <-. cbn. lia.
  - destruct (before threshold (warranty_expiry r)) as [b|e];
      destruct (expiring_rows threshold rows) as [l|e']; try discriminate H.
    injection H as <-. specialize (IH l eq_refl). destruct b; cbn; lia.
Qed.

(** X11: when the dashboard shows its numbers the frame has rows, the
    total is their number, no other number exceeds it, and Assigned,
    Available and Repair together count exactly the rows with one of these
    three statuses: a row is never counted under two of them. *)
Theorem dashboard_counts_are_consistent (df : frame) (today : Cal.date) (m : metrics) :
  render_dashboard df today = Ok (Some m) ->
  total m = frame_len df /\ 0 < total m /\
  assigned m + available m + repair m
  = List.length (filter counted_status (frame_rows df)) /\
  assigned m + available m + repair m <= total m /\
  expiring m <= total m.
Proof.
  unfold render_dashboard, frame_empty, frame_len.
  destruct (frame_rows df) as [|r rows] eqn:R; [discriminate|].
  destruct (expiring_rows _ (r :: rows)) as [sel|e] eqn:E; [|discriminate].
  intros H. injection H as <-. cbn [total assigned available repair expiring].
  rewrite status_counts_bound.
  pose proof (filter_length_le counted_status (r :: rows)).
  pose proof (expiring_rows_length _ _ _ E).
  pose proof (filter_length_le (fun r => Pd.notna (warranty_expiry r)) sel).
  unfold dropna_warranty. cbn [List.length] in *. repeat split; lia.
Qed.

Lemma dashboard_counts_are_consistent_witness :
  render_dashboard three_statuses (Cal.mkDate 2024 6 15)
  = Ok (Some (mkMetrics 6 2 2 1 0)) /\
  total (mkMetrics 6 2 2 1 0) = frame_len three_statuses /\
  0 < total (mkMetrics 6 2 2 1 0) /\
  assigned (mkMetrics 6 2 2 1 0) + available (mkMetrics 6 2 2 1 0)
  + repair (mkMetrics 6 2 2 1 0)
  = List.length (filter counted_status (frame_rows three_statuses)) /\
  assigned (mkMetrics 6 2 2 1 0) + available (mkMetrics 6 2 2 1 0)
  + repair (mkMetrics 6 2 2 1 0) <= total (mkMetrics 6 2 2 1 0) /\
  expiring (mkMetrics 6 2 2 1 0) <= total (mkMetrics 6 2 2 1 0).
Proof.
  split; [vm_compute; reflexivity|].
  apply (dashboard_counts_are_consistent three_statuses (Cal.mkDate 2024 6 15)).
  vm_compute. reflexivity.
Defined.

Lemma expiring_rows_raises threshold rows :
  existsb (fun r => negb (comparable (warranty_expiry r))) rows = true ->
  expiring_rows threshold rows = Raise TypeError.
Proof.
  induction rows as [|r rows IH]; [discriminate|].
  cbn [existsb expiring_rows]. intros H. apply orb_true_iff in H.
  destruct (warranty_expiry r) eqn:W; cbn [before];
    try reflexivity;
    (destruct H as [H | H]; [discriminate H|]; rewrite (IH H); reflexivity).
Qed.

(** X12: when [fillna("")] leaves a missing date as it is, the dashboard
    never raises on a frame [load_assets] read from a table: it shows no
    number when the table has no rows, and otherwise its total is the
    number of lines of the file and its expiring-soon count is the number
    of rows whose warranty is a date before [today + 90 days], the rows
    without a warranty date left out. *)
Theorem dashboard_never_raises_on_loaded_table (w : world) (texts : list (row string))
        (today : Cal.date) :
  assets_file w = CsvTable texts -> assets_cache w = None -> blank_nat w = false ->
  exists rows,
    fst (load_assets w) = Ok (Table rows) /\
    match texts with
    | [] => render_dashboard (Table rows) today = Ok None
    | _ =>
        exists m,
          render_dashboard (Table rows) today = Ok (Some m) /\
          total m = List.length texts /\
          expiring m
          = List.length (filter (fun r => before_threshold today (warranty_expiry r)) rows)
    end.
Proof.
  intros Hf Hc Hb. rewrite (load_assets_reads w texts Hf Hc). cbn [fst]. rewrite Hb.
  set (rows := normalize false (Pd.read_csv texts)).
  exists rows. split; [reflexivity|].
  assert (L : List.length rows = List.length texts) by apply normalize_length.
  assert (C : forallb (fun r => comparable (warranty_expiry r)) rows = true).
  { apply forallb_forall. intros r Hr.
    destruct (normalize_cells false texts r WarrantyExpiry Hr) as [_ D].
    specialize (D eq_refl). cbn [rget] in D.
    destruct (warranty_expiry r); try discriminate D; reflexivity. }
  destruct texts as [|t texts'].
  - destruct rows; [reflexivity | discriminate L].
  - unfold render_dashboard, frame_empty. cbn [frame_rows].
    destruct rows as [|r rows'] eqn:R; [discriminate L|].
    rewrite (expiring_rows_comparable _ _ C).
    eexists. split; [reflexivity|]. cbn [total expiring]. split; [exact L|].
    change (filter _ (r :: rows'))
      with (filter (fun r => before_threshold today (warranty_expiry r)) (r :: rows')).
    rewrite dropna_selected. reflexivity.
Qed.

Lemma dashboard_never_raises_on_loaded_table_witness :
  assets_file one_warranty_missing_world = CsvTable one_warranty_missing /\
  assets_cache one_warranty_missing_world = None /\
  blank_nat one_warranty_missing_world = false /\
  exists rows,
    fst (load_assets one_warranty_missing_world) = Ok (Table rows) /\
    match one_warranty_missing with
    | [] => render_dashboard (Table rows) (Cal.mkDate 2024 6 15) = Ok None
    | _ =>
        exists m,
          render_dashboard (Table rows) (Cal.mkDate 2024 6 15) = Ok (Some m) /\
          total m = List.length one_warranty_missing /\
          expiring m
          = List.length (filter (fun r => before_threshold (Cal.mkDate 2024 6 15)
                                                             (warranty_expiry r)) rows)
    end.
Proof.
  split; [reflexivity|]. split; [reflexivity|]. split; [reflexivity|].
  apply (dashboard_never_raises_on_loaded_table one_warranty_missing_world
           one_warranty_missing (Cal.mkDate 2024 6 15)); reflexivity.
Defined.

(** The numbers on that file: two assets, one of them expiring soon. *)
Example dashboard_on_missing_warranty :
  exists rows,
    fst (load_assets one_warranty_missing_world) = Ok (Table rows) /\
    render_dashboard (Table rows) (Cal.mkDate 2024 6 15)
    = Ok (Some (mkMetrics 2 1 1 0 1)).
Proof. eexists. split; vm_compute; reflexivity. Qed.

(** *** The credential file in the format [load_users] reads *)

Lemma hash_password_total w secret :
  exists v c, hash_password secret w = (Ok v, with_hash_cache c w).
Proof.
  unfold hash_password, bind, get.
  destruct (cache_lookup secret (hash_cache w)) as [v|].
  - exists v, (hash_cache w). destruct w; reflexivity.
  - eexists _, _. reflexivity.
Qed.

Lemma dict_get_absent k m :
  ~ In k (map fst m) -> Py.dict_get (JStr k) (to_pydict m) = None.
Proof.
  induction m as [|[a b] m IH]; [reflexivity|]. cbn. intros H.
  destruct (String.eqb k a) eqn:E.
  - apply String.eqb_eq in E. exfalso. apply H. left. symmetry. exact E.
  - apply IH. intros G. apply H. right. exact G.
Qed.

Lemma dict_get_present k v m :
  NoDup (map fst m) -> In (k, v) m ->
  Py.dict_get (JStr k) (to_pydict m) = Some (JStr v).
Proof.
  induction m as [|[a b] m IH]; [contradiction|]. cbn. intros Hn Hin.
  inversion Hn as [|x l Hx Hl]; subst.
  destruct Hin as [E | Hin].
  - injection E as -> ->. rewrite String.eqb_refl. reflexivity.
  - destruct (String.eqb k a) eqn:E.
    + apply String.eqb_eq in E. subst a. exfalso. apply Hx.
      apply in_map_iff. exists (k, v). split; [reflexivity | exact Hin].
    + apply IH; assumption.
Qed.

Lemma dict_set_new k v m :
  ~ In k (map fst m) ->
  Py.dict_set (JStr k) (JStr v) (to_pydict m) = to_pydict (m ++ [(k, v)]).
Proof.
  induction m as [|[a b] m IH]; [reflexivity|]. cbn. intros H.
  destruct (String.eqb k a) eqn:E.
  - apply String.eqb_eq in E. exfalso. apply H. left. symmetry. exact E.
  - f_equal. apply IH. intros G. apply H. right. exact G.
Qed.

Lemma collect_user_records m : forall acc,
  NoDup (map fst (acc ++ m)) ->
  collect_users (map user_record m) (to_pydict acc) = Some (to_pydict (acc ++ m)).
Proof.
  induction m as [|[k v] m IH]; intros acc Hn.
  - rewrite app_nil_r. reflexivity.
  - cbn [map collect_users user_record Py.subscript Py.member fst snd].
    cbn [String.eqb Ascii.eqb Bool.eqb andb Py.hashable].
    rewrite dict_set_new.
    + rewrite IH; rewrite <- app_assoc; [reflexivity | exact Hn].
    + rewrite map_app in Hn. cbn in Hn. apply NoDup_remove_2 in Hn.
      intros G. apply Hn. apply in_or_app. left. exact G.
Qed.

Lemma users_of_doc m :
  NoDup (map fst m) -> users_of_json (users_doc m) = Some (to_pydict m).
Proof. intros H. apply (collect_user_records m []). exact H. Qed.

Lemma load_users_parsed w j users :
  users_file w = JsonDoc j -> users_of_json j = Some users ->
  exists c, load_users w = (Ok users, with_hash_cache c w).
Proof.
  intros Hf Hj. destruct (hash_password_total w "Admin@2024") as (v & c & E).
  exists c. unfold load_users, bind. rewrite E. unfold get.
  cbn [users_file with_hash_cache]. rewrite Hf, Hj. reflexivity.
Qed.

(** X13: a credential file in the format of the reader, a list of objects
    with a username and a verifier, no username twice, is loaded as the
    mapping it lists, nothing is logged, and each user of the file logs in
    with the secret of its verifier. *)
Theorem load_users_reads_user_records (w : world) (m : list (string * string)) :
  cache_sound w -> users_file w = JsonDoc (users_doc m) -> NoDup (map fst m) ->
  fst (load_users w) = Ok (to_pydict m) /\
  log (snd (load_users w)) = log w /\
  forall u secret, In (u, salted_digest secret) m -> fst (login u secret w) = Ok true.
Proof.
  intros Hs Hf Hn.
  destruct (load_users_parsed w _ _ Hf (users_of_doc m Hn)) as [c E].
  rewrite E. cbn [fst snd]. repeat split.
  intros u secret Hin. unfold login, bind. rewrite E.
  unfold authenticate. rewrite (dict_get_present u _ m Hn Hin).
  assert (Hs' : cache_sound (with_hash_cache c w)).
  { destruct (hash_password_spec w "Admin@2024" Hs) as (c' & E' & S').
    unfold load_users, bind in E. rewrite E' in E. unfold get in E.
    cbn [users_file with_hash_cache] in E. rewrite Hf, (users_of_doc m Hn) in E.
    injection E as E. rewrite <- E. exact S'. }
  destruct (hash_password_spec _ secret Hs') as (c2 & E2 & _).
  unfold bind. rewrite E2. cbn [ret fst Py.eq_str]. rewrite String.eqb_refl. reflexivity.
Qed.

Lemma load_users_reads_user_records_witness :
  cache_sound two_users_world /\
  users_file two_users_world = JsonDoc (users_doc two_users) /\
  NoDup (map fst two_users) /\
  fst (load_users two_users_world) = Ok (to_pydict two_users) /\
  log (snd (load_users two_users_world)) = log two_users_world /\
  forall u secret, In (u, salted_digest secret) two_users ->
                   fst (login u secret two_users_world) = Ok true.
Proof.
  split; [intros p v H; discriminate H|]. split; [reflexivity|].
  assert (N : NoDup (map fst two_users)).
  { unfold two_users. cbn [map fst]. constructor.
    - intros [H | []]. discriminate H.
    - constructor; [intros [] | constructor]. }
  split; [exact N|].
  apply (load_users_reads_user_records two_users_world two_users);
    [intros p v H; discriminate H | reflexivity | exact N].
Defined.

(** X14: a credential file that holds the empty list is honoured: the
    mapping has no user, the bootstrap identity is not put back, and no
    username and secret log in. *)
Theorem empty_user_list_locks_everyone_out (w : world) (u secret : string) :
  users_file w = JsonDoc (JArr []) ->
  fst (load_users w) = Ok [] /\ fst (login u secret w) = Ok false.
Proof.
  intros Hf. destruct (load_users_parsed w (JArr []) [] Hf eq_refl) as [c E].
  unfold login, bind. rewrite E. split; reflexivity.
Qed.

Lemma empty_user_list_locks_everyone_out_witness :
  users_file (with_users_file (JsonDoc (JArr [])) fresh_world) = JsonDoc (JArr []) /\
  fst (load_users (with_users_file (JsonDoc (JArr [])) fresh_world)) = Ok [] /\
  fst (login "admin" "Admin@2024" (with_users_file (JsonDoc (JArr [])) fresh_world))
  = Ok false.
Proof.
  split; [reflexivity|].
  apply (empty_user_list_locks_everyone_out
           (with_users_file (JsonDoc (JArr [])) fresh_world) "admin" "Admin@2024").
  reflexivity.
Defined.

Lemma load_users_frame w :
  exists users c,
    load_users w = (Ok users, with_hash_cache c w) \/
    load_users w
    = (Ok users,
       with_log (log w ++ [(ERROR, "Failed to load users")]) (with_hash_cache c w)).
Proof.
  destruct (hash_password_total w "Admin@2024") as (v & c & E).
  unfold load_users, bind. rewrite E. unfold get. cbn [users_file with_hash_cache].
  destruct (users_file w) as [| |j].
  - eexists _, c. left. reflexivity.
  - eexists _, c. right. reflexivity.
  - destruct (users_of_json j) as [users|].
    + exists users, c. left. reflexivity.
    + eexists _, c. right. reflexivity.
Qed.

(** X15: [load_users] never raises and never writes: whatever the
    credential file holds, it returns a mapping and changes nothing but the
    log and the cache of [hash_password]; and a file that is there but
    cannot be parsed gives the bootstrap identity and one logged error. *)
Theorem load_users_is_safe (w : world) :
  (exists users, fst (load_users w) = Ok users) /\
  users_file (snd (load_users w)) = users_file w /\
  assets_file (snd (load_users w)) = assets_file w /\
  assets_cache (snd (load_users w)) = assets_cache w /\
  screen (snd (load_users w)) = screen w /\
  (cache_sound w -> users_file w = JsonGarbled ->
   fst (load_users w) = Ok bootstrap_users /\
   log (snd (load_users w)) = log w ++ [(ERROR, "Failed to load users")]).
Proof.
  assert (G : cache_sound w -> users_file w = JsonGarbled ->
              fst (load_users w) = Ok bootstrap_users /\
              log (snd (load_users w)) = log w ++ [(ERROR, "Failed to load users")]).
  { intros Hs Hf. destruct (hash_password_spec w "Admin@2024" Hs) as (c' & E' & _).
    unfold load_users, bind. rewrite E'. unfold get. cbn [users_file with_hash_cache].
    rewrite Hf. split; reflexivity. }
  destruct (load_users_frame w) as (users & c & [E | E]);
    rewrite E in *; (split; [exists users; reflexivity|]);
    do 4 (split; [reflexivity|]); exact G.
Qed.

Lemma load_users_is_safe_witness :
  cache_sound (with_users_file JsonGarbled fresh_world) /\
  users_file (with_users_file JsonGarbled fresh_world) = JsonGarbled /\
  fst (load_users (with_users_file JsonGarbled fresh_world)) = Ok bootstrap_users /\
  log (snd (load_users (with_users_file JsonGarbled fresh_world)))
  = log (with_users_file JsonGarbled fresh_world) ++ [(ERROR, "Failed to load users")].
Proof.
  split; [intros p v H; discriminate H|]. split; [reflexivity|].
  apply (load_users_is_safe (with_users_file JsonGarbled fresh_world));
    [intros p v H; discriminate H | reflexivity].
Defined.

(** X16: "Create User" with an empty username, an empty password or a
    username that the loaded mapping already has writes nothing: the
    credential file is left as it is and one error is shown. *)
Theorem create_user_refusals_write_nothing (w : world) (new_username new_password : string) :
  new_username = "" \/ new_password = "" \/
  (exists users, fst (load_users w) = Ok users /\
                 Py.dict_mem (JStr new_username) users = true) ->
  fst (create_user new_username new_password w) = Ok tt /\
  users_file (snd (create_user new_username new_password w)) = users_file w /\
  exists msg,
    screen (snd (create_user new_username new_password w)) = screen w ++ [(ERROR, msg)].
Proof.
  intros H. unfold create_user, bind.
  destruct (load_users_frame w) as (users & c & [E | E]); rewrite E;
    rewrite E in H; cbn [fst] in H.
  all: destruct (Str.truthy new_username && Str.truthy new_password) eqn:T;
    [ destruct (Py.dict_mem (JStr new_username) users) eqn:D;
      [ cbn; do 2 (split; [reflexivity|]); eexists; reflexivity
      | exfalso; apply andb_true_iff in T; destruct T as [T1 T2];
        destruct H as [-> | [-> | (u' & Eu & Du)]];
        [ discriminate T1 | discriminate T2
        | injection Eu as <-; rewrite D in Du; discriminate Du ] ]
    | cbn; do 2 (split; [reflexivity|]); eexists; reflexivity ].
Qed.

Lemma create_user_refusals_write_nothing_witness :
  ("admin" = "" \/ "Other#1" = "" \/
   (exists users, fst (load_users two_users_world) = Ok users /\
                  Py.dict_mem (JStr "admin") users = true)) /\
  fst (create_user "admin" "Other#1" two_users_world) = Ok tt /\
  users_file (snd (create_user "admin" "Other#1" two_users_world))
  = users_file two_users_world /\
  exists msg,
    screen (snd (create_user "admin" "Other#1" two_users_world))
    = screen two_users_world ++ [(ERROR, msg)].
Proof.
  assert (H : "admin" = "" \/ "Other#1" = "" \/
   (exists users, fst (load_users two_users_world) = Ok users /\
                  Py.dict_mem (JStr "admin") users = true)).
  { right. right. exists (to_pydict two_users). split; vm_compute; reflexivity. }
  split; [exact H|].
  apply (create_user_refusals_write_nothing two_users_world "admin" "Other#1" H).
Defined.

(** *** Clearing the table *)

Lemma clear_all_cases w rows :
  clear_all_assets (Table rows) w
  = match disk_fault w with
    | Some O => (Raise OSError, with_assets_file CsvEmpty w)
    | _ =>
        (Ok tt,
         with_screen (screen w ++ [(SUCCESS, "All assets cleared!")])
           (with_hash_cache []
              (with_assets_cache None (with_assets_file (CsvTable []) w))))
    end.
Proof.
  unfold clear_all_assets, bind, to_csv, get, cache_clear, st_show, modify.
  destruct w as [af uf ac hc lg sc df bn]. cbn.
  destruct df as [[|k]|]; reflexivity.
Qed.

(** X17: on a working disk, clearing a table leaves the header alone in
    the file and empties the caches, so that the next [load_assets] returns
    the table without rows whatever was cached; when the disk fails on the
    header, the error is not caught, the file is left empty and the caches
    are not cleared. *)
Theorem clear_all_then_load_is_empty (w : world) (rows : list (row cell)) :
  (disk_fault w = None ->
   fst (clear_all_assets (Table rows) w) = Ok tt /\
   assets_file (snd (clear_all_assets (Table rows) w)) = CsvTable [] /\
   fst (load_assets (snd (clear_all_assets (Table rows) w))) = Ok (Table [])) /\
  (disk_fault w = Some 0 ->
   clear_all_assets (Table rows) w = (Raise OSError, with_assets_file CsvEmpty w)).
Proof.
  rewrite clear_all_cases. split; intros Hd; rewrite Hd.
  - cbn [fst snd]. do 2 (split; [reflexivity|]).
    rewrite load_assets_cases. reflexivity.
  - reflexivity.
Qed.

Lemma clear_all_then_load_is_empty_witness :
  disk_fault (with_assets_cache (Some (Table two_assets)) fresh_world) = None /\
  fst (clear_all_assets (Table two_assets)
         (with_assets_cache (Some (Table two_assets)) fresh_world)) = Ok tt /\
  assets_file (snd (clear_all_assets (Table two_assets)
                      (with_assets_cache (Some (Table two_assets)) fresh_world)))
  = CsvTable [] /\
  fst (load_assets (snd (clear_all_assets (Table two_assets)
                           (with_assets_cache (Some (Table two_assets)) fresh_world))))
  = Ok (Table []).
Proof.
  split; [reflexivity|].
  apply (clear_all_then_load_is_empty
           (with_assets_cache (Some (Table two_assets)) fresh_world) two_assets).
  reflexivity.
Defined.

(** *** The management page without columns *)

(** X18: on the frame without columns, which [load_assets] returns when the
    file cannot be read, the management page shows it as it is for every
    query as long as the status is "All", and raises [KeyError] for every
    other status; on a table it never raises. *)
Theorem filter_without_columns (query status_filter : string) :
  render_manage_assets NoColumns query "All" = Ok NoColumns /\
  (status_filter <> "All" ->
   render_manage_assets NoColumns query status_filter = Raise KeyError) /\
  (forall rows, exists shown,
      render_manage_assets (Table rows) query status_filter = Ok (Table shown) /\
      List.length shown <= List.length rows).
Proof.
  unfold render_manage_assets. repeat split.
  - destruct (Str.truthy query); reflexivity.
  - intros H. apply String.eqb_neq in H. rewrite H.
    destruct (Str.truthy query); reflexivity.
  - intros rows.
    destruct (Str.truthy query); destruct (String.eqb status_filter "All");
      cbn [negb]; eexists; (split; [reflexivity|]);
      repeat (etransitivity; [apply filter_length_le|]); lia.
Qed.

Lemma filter_without_columns_witness :
  "Assigned" <> "All" /\
  render_manage_assets NoColumns "lap" "Assigned" = Raise KeyError.
Proof.
  split; [discriminate|].
  apply (filter_without_columns "lap" "Assigned"). discriminate.
Defined.

(** *** A failed save of the users *)

(** X19: [save_users] never raises.  When the disk fails, the credential
    file is left unparseable and the failure is only logged; the next
    [load_users] logs a second failure and returns the bootstrap identity,
    so that every other user is gone. *)
Theorem failed_users_save_falls_back_to_bootstrap (w : world) (users : pydict) (n : nat) :
  cache_sound w -> disk_fault w = Some n ->
  fst (save_users users w) = Ok tt /\
  users_file (snd (save_users users w)) = JsonGarbled /\
  fst (load_users (snd (save_users users w))) = Ok bootstrap_users /\
  log (snd (load_users (snd (save_users users w))))
  = log w ++ [(ERROR, "Failed to save users"); (ERROR, "Failed to load users")].
Proof.
  intros Hs Hd. unfold save_users, try_except, json_dump, bind, get. rewrite Hd.
  cbn [modify raise logger fst snd users_file with_log with_users_file].
  split; [reflexivity|]. split; [reflexivity|].
  set (w1 := with_log _ _).
  assert (Hs1 : cache_sound w1) by exact Hs.
  destruct (hash_password_spec w1 "Admin@2024" Hs1) as (c & E & _).
  unfold load_users, bind. rewrite E. unfold get. subst w1.
  cbn [users_file with_hash_cache with_log with_users_file].
  unfold logger, modify, ret.
  cbn [fst snd log with_log with_hash_cache with_users_file].
  rewrite <- app_assoc. split; reflexivity.
Qed.

Lemma failed_users_save_falls_back_to_bootstrap_witness :
  cache_sound failing_disk /\ disk_fault failing_disk = Some 2 /\
  fst (save_users (to_pydict two_users) failing_disk) = Ok tt /\
  users_file (snd (save_users (to_pydict two_users) failing_disk)) = JsonGarbled /\
  fst (load_users (snd (save_users (to_pydict two_users) failing_disk)))
  = Ok bootstrap_users /\
  log (snd (load_users (snd (save_users (to_pydict two_users) failing_disk))))
  = log failing_disk ++ [(ERROR, "Failed to save users"); (ERROR, "Failed to load users")].
Proof.
  split; [intros p v H; discriminate H|]. split; [reflexivity|].
  apply (failed_users_save_falls_back_to_bootstrap failing_disk (to_pydict two_users) 2);
    [intros p v H; discriminate H | reflexivity].
Defined.

(** *** The verifier cache through a session *)

Lemma sound_when_cache_kept w w' :
  hash_cache w' = hash_cache w \/ hash_cache w' = [] ->
  cache_sound w -> cache_sound w'.
Proof.
  intros [E | E] Hs p v H; rewrite E in H; [exact (Hs p v H) | discriminate H].
Qed.

Lemma save_assets_hash df w :
  hash_cache (snd (save_assets df w)) = hash_cache w \/
  hash_cache (snd (save_assets df w)) = [].
Proof.
  destruct df as [|rows].
  - right. reflexivity.
  - rewrite save_assets_unfold.
    destruct (forallb dates_ok rows); [|left; reflexivity].
    destruct (disk_fault w) as [n|]; [|right; reflexivity].
    destruct (n <=? List.length rows)%nat; [left | right]; reflexivity.
Qed.

Lemma save_users_hash users w :
  hash_cache (snd (save_users users w)) = hash_cache w.
Proof.
  unfold save_users, try_except, json_dump, bind, get.
  destruct (disk_fault w); reflexivity.
Qed.

Lemma load_users_sound w : cache_sound w -> cache_sound (snd (load_users w)).
Proof.
  intros Hs. destruct (hash_password_spec w "Admin@2024" Hs) as (c & E & S').
  unfold load_users, bind. rewrite E. unfold get. cbn [users_file with_hash_cache].
  destruct (users_file w) as [| |j]; try exact S'.
  destruct (users_of_json j); exact S'.
Qed.

Lemma load_users_result w :
  exists users, load_users w = (Ok users, snd (load_users w)).
Proof.
  destruct (load_users_frame w) as (users & c & [E | E]); rewrite E;
    exists users; reflexivity.
Qed.

Lemma authenticate_sound users u secret w :
  cache_sound w -> cache_sound (snd (authenticate users u secret w)).
Proof.
  intros Hs. unfold authenticate.
  destruct (Py.dict_get (JStr u) users); [|exact Hs].
  destruct (hash_password_spec w secret Hs) as (c & E & S').
  unfold bind. rewrite E. exact S'.
Qed.

Lemma render_add_asset_hash df f today w :
  hash_cache (snd (render_add_asset df f today w)) = hash_cache w \/
  hash_cache (snd (render_add_asset df f today w)) = [].
Proof.
  unfold render_add_asset, bind, lift.
  destruct (register df f today) as [[errors|df']|e]; [| |left; reflexivity].
  - left. rewrite show_errors_spec. reflexivity.
  - destruct (save_assets_hash df' w) as [E | E];
      destruct (save_assets df' w) as [[[]|e] w1]; cbn [snd] in *;
      [left | left | right | right]; exact E.
Qed.

(** X20: every operation of the two stores keeps the cache of
    [hash_password] sound: after any of them, in any order, a call of
    [hash_password] still returns the salted digest of its argument, the
    caches having been cleared in between or not. *)
Theorem operations_keep_verifier_cache_sound (w : world) :
  cache_sound w ->
  cache_sound (snd (init_storage w)) /\
  cache_sound (snd (load_assets w)) /\
  (forall df, cache_sound (snd (save_assets df w))) /\
  (forall df f today, cache_sound (snd (render_add_asset df f today w))) /\
  (forall df, cache_sound (snd (clear_all_assets df w))) /\
  cache_sound (snd (load_users w)) /\
  (forall users, cache_sound (snd (save_users users w))) /\
  (forall u secret, cache_sound (snd (login u secret w))) /\
  (forall u secret, cache_sound (snd (create_user u secret w))).
Proof.
  intros Hs. repeat split.
  - apply (sound_when_cache_kept w); [|exact Hs]. left.
    rewrite init_storage_cases.
    destruct (assets_file w); try reflexivity;
      destruct (disk_fault w) as [[|k]|]; reflexivity.
  - apply (sound_when_cache_kept w); [|exact Hs]. left.
    rewrite load_assets_cases.
    destruct (assets_cache w); [reflexivity|]. destruct (assets_file w); reflexivity.
  - intros df. apply (sound_when_cache_kept w); [apply save_assets_hash | exact Hs].
  - intros df f today.
    apply (sound_when_cache_kept w); [apply render_add_asset_hash | exact Hs].
  - intros df. apply (sound_when_cache_kept w); [|exact Hs].
    destruct df as [|rows]; [right; reflexivity|].
    rewrite clear_all_cases. destruct (disk_fault w) as [[|k]|];
      [left | right | right]; reflexivity.
  - apply load_users_sound, Hs.
  - intros users. apply (sound_when_cache_kept w); [|exact Hs].
    left. apply save_users_hash.
  - intros u secret. unfold login, bind.
    destruct (load_users_result w) as [users E]. rewrite E.
    apply authenticate_sound, load_users_sound, Hs.
  - intros u secret. unfold create_user, bind.
    destruct (load_users_result w) as [users E]. rewrite E.
    pose proof (load_users_sound w Hs) as S1.
    destruct (Str.truthy u && Str.truthy secret); [|exact S1].
    destruct (negb (Py.dict_mem (JStr u) users)); [|exact S1].
    destruct (hash_password_spec _ secret S1) as (c & E2 & S2). rewrite E2.
    set (d := Py.dict_set _ _ _).
    pose proof (save_users_hash d (with_hash_cache c (snd (load_users w)))) as Hh.
    destruct (save_users d (with_hash_cache c (snd (load_users w)))) as [[[]|e] w2];
      cbn [snd] in *;
      (apply (sound_when_cache_kept (with_hash_cache c (snd (load_users w))));
       [left; exact Hh | exact S2]).
Qed.

Lemma operations_keep_verifier_cache_sound_witness :
  cache_sound fresh_world /\
  cache_sound (snd (init_storage fresh_world)) /\
  cache_sound (snd (load_assets fresh_world)) /\
  (forall df, cache_sound (snd (save_assets df fresh_world))) /\
  (forall df f today, cache_sound (snd (render_add_asset df f today fresh_world))) /\
  (forall df, cache_sound (snd (clear_all_assets df fresh_world))) /\
  cache_sound (snd (load_users fresh_world)) /\
  (forall users, cache_sound (snd (save_users users fresh_world))) /\
  (forall u secret, cache_sound (snd (login u secret fresh_world))) /\
  (forall u secret, cache_sound (snd (create_user u secret fresh_world))).
Proof.
  split; [intros p v H; discriminate H|].
  apply (operations_keep_verifier_cache_sound fresh_world).
  intros p v H. discriminate H.
Defined.

(** *** The dates [save_assets] writes *)

Lemma stored_date_written f c :
  is_date_col f = true -> Pd.is_some (date_text c) = true -> written_date (stored f c).
Proof.
  intros D H. unfold stored. rewrite D. unfold date_text in *.
  destruct c; cbn in *; try discriminate H; try (left; reflexivity).
  - destruct (String.eqb s ""); [left; reflexivity|].
    destruct (Cal.parse_iso s) as [d|]; [|discriminate H].
    destruct (Cal.in_ts_range d) eqn:R; [|discriminate H].
    right. exists d. split; [exact R | reflexivity].
  - destruct (Cal.in_ts_range d) eqn:R; [|discriminate H].
    right. exists d. split; [exact R | reflexivity].
Qed.

(** X21: whatever frame [save_assets] is given, a file it writes on a
    working disk has as many lines as the frame has rows, and each of its
    date fields is empty or a date in the one form YYYY-MM-DD, ten
    characters long: no other spelling of a date reaches the file. *)
Theorem saved_dates_have_one_form (w : world) (rows : list (row cell)) :
  disk_fault w = None -> forallb dates_ok rows = true ->
  exists lines,
    assets_file (snd (save_assets (Table rows) w)) = CsvTable lines /\
    List.length lines = List.length rows /\
    forall line f, In line lines -> is_date_col f = true ->
      written_date (rget f line) /\
      (rget f line <> "" -> String.length (rget f line) = 10).
Proof.
  intros Hd Hk. rewrite save_assets_unfold, Hk, Hd. cbn [snd].
  exists (csv_rows rows). split; [reflexivity|]. split.
  - unfold csv_rows. apply length_map.
  - intros line f Hin D. rewrite csv_rows_stored in Hin.
    apply in_map_iff in Hin. destruct Hin as (r & <- & Hr). rewrite rget_rmap.
    rewrite forallb_forall in Hk. specialize (Hk r Hr). unfold dates_ok in Hk.
    rewrite forallb_forall in Hk. specialize (Hk f (in_schema f)).
    rewrite D in Hk. cbn [negb orb] in Hk.
    pose proof (stored_date_written f (rget f r) D Hk) as W.
    split; [exact W|]. intros N. destruct W as [E | (d & _ & E)]; [contradiction|].
    rewrite E. apply strftime_length.
Qed.

Lemma saved_dates_have_one_form_witness :
  disk_fault fresh_world = None /\ forallb dates_ok two_assets = true /\
  exists lines,
    assets_file (snd (save_assets (Table two_assets) fresh_world)) = CsvTable lines /\
    List.length lines = List.length two_assets /\
    forall line f, In line lines -> is_date_col f = true ->
      written_date (rget f line) /\
      (rget f line <> "" -> String.length (rget f line) = 10).
Proof.
  split; [reflexivity|]. split; [reflexivity|].
  apply (saved_dates_have_one_form fresh_world two_assets); reflexivity.
Defined.

(** *** What can be stored, exactly *)

(** Only real days are read as dates. *)
Lemma parse_iso_valid s d : Cal.parse_iso s = Some d -> Cal.valid d = true.
Proof.
  unfold Cal.parse_iso.
  destruct (Str.chars s) as [|y1 [|y2 [|y3 [|y4 [|s1 [|m1 [|m2 [|s2 [|d1 [|d2 [|]]]]]]]]]]];
    try discriminate.
  destruct (Ascii.eqb s1 "-" && Ascii.eqb s2 "-"); [|discriminate].
  destruct (Cal.number 0 [y1; y2; y3; y4]); [|discriminate].
  destruct (Cal.number 0 [m1; m2]); [|discriminate].
  destruct (Cal.number 0 [d1; d2]); [|discriminate].
  destruct (Cal.valid _) eqn:V; [|discriminate].
  intros H. injection H as <-. exact V.
Qed.

Lemma parse_int_range s z : Num.parse_int s = Some z -> in_int64 z = true.
Proof.
  unfold Num.parse_int, in_int64. destruct (Num.take_sign (Num.trim s)) as [neg body].
  destruct body; [discriminate|]. destruct (Num.all_digits _); [|discriminate].
  match goal with |- (if ?b then _ else _) = _ -> _ => destruct b eqn:R end;
    [|discriminate].
  intros H. injection H as <-. exact R.
Qed.

(** Text that reads as an integer reads as a float too. *)
Lemma int_text_is_float s z : Num.parse_int s = Some z -> Num.parse_float s <> None.
Proof.
  unfold Num.parse_int, Num.parse_float.
  destruct (Num.take_sign (Num.trim s)) as [neg body].
  destruct body as [|c r]; [discriminate|].
  destruct (Num.all_digits (String c r)) eqn:D; [|discriminate]. intros _.
  rewrite all_digits_forall in D.
  destruct (String.eqb (Str.lower (String c r)) "inf"
            || String.eqb (Str.lower (String c r)) "infinity"); [discriminate|].
  rewrite split_on_none by (eapply str_forall_impl; [apply digit_not_e | exact D]).
  rewrite split_on_none by (eapply str_forall_impl; [apply digit_not_point | exact D]).
  cbn [Num.parse_exponent]. rewrite !all_digits_forall, D. cbn [str_forall andb String.eqb negb].
  rewrite shift_zero. discriminate.
Qed.

Lemma forallb_in {A} (p : A -> bool) l x : forallb p l = true -> In x l -> p x = true.
Proof. intros H. rewrite forallb_forall in H. apply H. Qed.

(** What the type of a column says of its texts. *)
Lemma infer_dtype_texts col s :
  In s col -> Pd.is_na_text s = false ->
  match Pd.infer_dtype col with
  | Pd.DInt => Num.parse_int s <> None
  | Pd.DFloat => Num.parse_float s <> None
  | Pd.DBool => Pd.parse_bool s <> None
  | Pd.DObject => True
  end.
Proof.
  intros Hin Hna. unfold Pd.infer_dtype.
  assert (P : In s (filter (fun s => negb (Pd.is_na_text s)) col)).
  { apply filter_In. split; [exact Hin|]. rewrite Hna. reflexivity. }
  destruct col as [|c col]; [exact I|].
  destruct (filter (fun s => negb (Pd.is_na_text s)) (c :: col)) as [|p present] eqn:F;
    [destruct P|].
  assert (Some_ne : forall {A} (o : option A), Pd.is_some o = true -> o <> None).
  { intros A o H. destruct o; [discriminate | discriminate H]. }
  destruct (forallb (fun s => Pd.is_some (Num.parse_int s)) (p :: present)) eqn:I1.
  - pose proof (forallb_in _ _ s I1 P) as H. apply Some_ne in H.
    destruct (existsb Pd.is_na_text (c :: col)); [|exact H].
    destruct (Num.parse_int s) as [z|] eqn:Z; [|contradiction].
    apply (int_text_is_float s z Z).
  - destruct (forallb (fun s => Pd.is_some (Num.parse_float s)) (p :: present)) eqn:I2.
    + apply Some_ne, (forallb_in _ _ s I2 P).
    + destruct (forallb (fun s => Pd.is_some (Pd.parse_bool s)) (p :: present)) eqn:I3;
        [|exact I].
      apply Some_ne, (forallb_in _ _ s I3 P).
Qed.

(** A value that is read back from its own text can be stored. *)
Lemma read_back_cell blank col c :
  In c col -> faithful_cell c = true ->
  Pd.fillna blank (Pd.read_cell (written_type col) (Pd.csv_text c)) = c ->
  cell_ok (written_type col) c = true.
Proof.
  intros Hin Hf H.
  assert (T : Pd.is_na_text (Pd.csv_text c) = false ->
              match written_type col with
              | Pd.DInt => Num.parse_int (Pd.csv_text c) <> None
              | Pd.DFloat => Num.parse_float (Pd.csv_text c) <> None
              | Pd.DBool => Pd.parse_bool (Pd.csv_text c) <> None
              | Pd.DObject => True
              end).
  { apply infer_dtype_texts, in_map, Hin. }
  unfold Pd.read_cell in H.
  destruct (Pd.is_na_text (Pd.csv_text c)) eqn:N.
  - cbn [Pd.fillna] in H. subst c. reflexivity.
  - specialize (T eq_refl).
    destruct (written_type col).
    + destruct (Num.parse_int (Pd.csv_text c)) as [z|] eqn:P; [|contradiction].
      cbn [Pd.fillna] in H. rewrite <- H. cbn [cell_ok is_int andb].
      apply (parse_int_range _ _ P).
    + destruct (Num.parse_float (Pd.csv_text c)) as [x|] eqn:P; [|contradiction].
      cbn [Pd.fillna] in H. rewrite <- H in Hf |- *. exact Hf.
    + destruct (Pd.parse_bool (Pd.csv_text c)) as [b|] eqn:P; [|contradiction].
      cbn [Pd.fillna] in H. rewrite <- H. reflexivity.
    + cbn [Pd.fillna] in H. destruct c; try discriminate H.
      cbn [cell_ok Pd.csv_text is_object] in *. rewrite N. apply orb_true_r.
Qed.

(** What a load makes of a date column: a Timestamp or the mark of a
    missing date. *)
Lemma strftime_read dt d : Pd.read_cell dt (Cal.strftime d) = VStr (Cal.strftime d).
Proof.
  unfold Pd.read_cell. rewrite strftime_not_na.
  destruct dt; [rewrite strftime_not_int|rewrite strftime_not_float
               |rewrite strftime_not_bool|]; reflexivity.
Qed.

Lemma coerced_cell blank c :
  (exists d, Pd.fillna blank (Pd.to_datetime_coerce c) = VDate d)
  \/ Pd.fillna blank (Pd.to_datetime_coerce c) = Pd.fillna blank VNaT.
Proof.
  destruct c; cbn [Pd.to_datetime_coerce]; try (right; reflexivity).
  - destruct (Cal.parse_iso s) as [d|]; [|right; reflexivity].
    destruct (Cal.in_ts_range d); [left; exists d; reflexivity | right; reflexivity].
  - destruct (Cal.in_ts_range d); [left; exists d; reflexivity | right; reflexivity].
Qed.

Lemma read_back_date blank dt c :
  Pd.is_some (date_text c) = true ->
  Pd.fillna blank
    (Pd.to_datetime_coerce
       (Pd.read_cell dt
          (Pd.csv_text match date_text c with Some c' => c' | None => c end))) = c ->
  date_cell_ok blank c = true.
Proof.
  intros Hs H.
  assert (M : forall c0, Pd.fillna blank VNaT = c0 -> date_cell_ok blank c0 = true).
  { intros c0 <-. destruct blank; reflexivity. }
  destruct c as [s|z|x|b|d| |]; try discriminate Hs.
  - destruct (coerced_cell blank
                (Pd.read_cell dt
                   (Pd.csv_text match date_text (VStr s) with
                                | Some c' => c' | None => VStr s end)))
      as [[d E] | E]; rewrite E in H; [discriminate H | apply M, H].
  - unfold date_text in Hs, H. cbn [Pd.notna Pd.to_datetime] in Hs, H.
    destruct (Cal.in_ts_range d) eqn:R; [|discriminate Hs].
    cbn [option_map Pd.strftime Pd.csv_text] in H.
    rewrite strftime_read in H. cbn [Pd.to_datetime_coerce] in H.
    destruct (Cal.parse_iso (Cal.strftime d)) as [d'|] eqn:P.
    + pose proof (parse_iso_valid _ _ P) as V.
      destruct (Cal.in_ts_range d'); cbn [Pd.fillna] in H.
      * injection H as <-. cbn [date_cell_ok]. rewrite V, R. reflexivity.
      * destruct blank; discriminate H.
    + destruct blank; discriminate H.
  - cbn in H. destruct blank; discriminate H.
  - apply M. cbn in H. exact H.
Qed.

Lemma map_fixed {A} (h : A -> A) l : map h l = l -> forall x, In x l -> h x = x.
Proof.
  induction l as [|a l IH]; cbn; intros H x Hx; [contradiction|].
  injection H as Ha Hl. destruct Hx as [<- | Hx]; [exact Ha | apply IH; assumption].
Qed.

Lemma traverse_fails {A B} (g : A -> option B) l :
  Pd.traverse g l = None -> existsb (fun a => negb (Pd.is_some (g a))) l = true.
Proof.
  induction l as [|a l IH]; cbn; [discriminate|].
  destruct (g a); [|reflexivity]. cbn.
  destruct (Pd.traverse g l); [discriminate | auto].
Qed.

Lemma traverse_each {A B} (g : A -> option B) l l' x :
  Pd.traverse g l = Some l' -> In x l -> g x <> None.
Proof.
  intros T Hx E. rewrite (traverse_none g l x Hx E) in T. discriminate T.
Qed.

Lemma to_float_range c c' :
  Pd.to_float c = Some c' -> (exists x, c' = VFloat x) \/ c' = VNaN.
Proof.
  destruct c; cbn [Pd.to_float]; intros H; try discriminate H;
    try (injection H as <-; eauto).
  unfold Pd.py_float in H. destruct (Pd.py_nan s); [injection H as <-; auto|].
  destruct (Num.parse_float _); [|discriminate H]. injection H as <-. eauto.
Qed.

(** [load_assets] on what [save_assets] wrote: each row reloaded, then the
    cast of the costs. *)
Lemma normalize_reloaded blank rows :
  normalize blank (Pd.read_csv (csv_rows rows))
  = astype_cost (map (reloaded blank rows) rows).
Proof.
  unfold normalize, Pd.read_csv. rewrite csv_rows_stored, !map_map. f_equal.
  apply map_ext. intros r. unfold reloaded. rewrite !rmap_rmap.
  apply row_ext. intros f. rewrite !rget_rmap, rget_rtab, column_of_map.
  unfold loaded. destruct (is_date_col f); reflexivity.
Qed.

(** A frame within what the model is faithful on that is read back as it
    was written is storable. *)
Lemma storable_is_necessary blank rows :
  faithful rows = true -> forallb dates_ok rows = true ->
  normalize blank (Pd.read_csv (csv_rows rows)) = rows ->
  storable blank rows = true.
Proof.
  intros Hf Hd H. rewrite normalize_reloaded in H.
  set (rows1 := map (reloaded blank rows) rows) in *.
  (* the columns other than Cost *)
  assert (Others : forall r f, In r rows -> f <> Cost ->
            rget f (reloaded blank rows r) = rget f r).
  { intros r f Hr Hn. unfold astype_cost in H.
    destruct (Pd.traverse Pd.to_float (map cost rows1)).
    - unfold rows1 in H. rewrite map_map in H.
      pose proof (map_fixed _ _ H r Hr) as E. cbv beta in E.
      rewrite <- E at 2. rewrite rget_rmap. destruct f; try reflexivity. contradiction.
    - apply (f_equal (rget f)), (map_fixed _ _ H r Hr). }
  assert (Wf : forall r f, In r rows -> faithful_cell (rget f r) = true).
  { intros r f Hr. unfold faithful in Hf.
    apply (forallb_in _ _ f (forallb_in _ _ r Hf Hr)), in_schema. }
  assert (Generic : forall f, is_date_col f = false ->
            (forall r, In r rows -> rget f (reloaded blank rows r) = rget f r) ->
            forallb (cell_ok (written_type (map (rget f) rows))) (map (rget f) rows) = true).
  { intros f D E. apply forallb_forall. intros c Hc. apply in_map_iff in Hc.
    destruct Hc as (r & <- & Hr). apply (read_back_cell blank).
    - apply in_map, Hr.
    - apply Wf, Hr.
    - specialize (E r Hr). unfold reloaded, loaded, stored in E.
      rewrite rget_rmap, D in E. unfold written_type. rewrite map_map. exact E. }
  unfold storable. apply forallb_forall. intros f _. unfold column_ok.
  destruct (is_date_col f) eqn:D.
  - apply forallb_forall. intros c Hc. apply in_map_iff in Hc.
    destruct Hc as (r & <- & Hr).
    assert (Hn : f <> Cost) by (intros ->; discriminate D).
    pose proof (Others r f Hr Hn) as E. unfold reloaded, loaded, stored in E.
    rewrite rget_rmap, D in E. eapply read_back_date; [|exact E].
    pose proof (forallb_in _ _ r Hd Hr) as Dr. unfold dates_ok in Dr.
    pose proof (forallb_in _ _ f Dr (in_schema f)) as Df. cbv beta in Df.
    rewrite D in Df. exact Df.
  - assert (NC : f <> Cost ->
              forallb (cell_ok (written_type (map (rget f) rows))) (map (rget f) rows)
              && match f with
                 | Cost => forallb is_float_cell (map (rget f) rows)
                           || cast_fails (map (rget f) rows)
                 | _ => true
                 end = true).
    { intros Hn. rewrite Generic; [|exact D|intros r Hr; apply Others; assumption].
      destruct f; try reflexivity. contradiction. }
    destruct f; try discriminate D; try (apply NC; discriminate). clear NC.
    unfold astype_cost in H.
    destruct (Pd.traverse Pd.to_float (map cost rows1)) eqn:T.
    + (* the cast goes through: every cost is a float *)
      unfold rows1 in H, T. rewrite map_map in H, T.
      assert (Fl : forall r, In r rows ->
                exists x, cost r = VFloat x /\ Num.canonical x = true).
      { intros r Hr. pose proof (map_fixed _ _ H r Hr) as E. cbv beta in E.
        apply (f_equal cost) in E. change (cost (rmap ?g ?q)) with (rget Cost (rmap g q)) in E.
        rewrite rget_rmap in E. cbn [rget] in E.
        pose proof (traverse_each _ _ _ (cost (reloaded blank rows r)) T
                      (in_map (fun r => cost (reloaded blank rows r)) rows r Hr)) as Ne.
        change (cost (reloaded blank rows r)) with (rget Cost (reloaded blank rows r)) in *.
        unfold reloaded, loaded, stored in E, Ne. rewrite rget_rmap in E, Ne.
        cbn [is_date_col rget] in E, Ne.
        pose proof (Wf r Cost Hr) as W. cbn [rget] in W.
        match type of E with
        | match Pd.to_float ?c with _ => _ end = _ =>
            destruct (Pd.to_float c) as [c'|] eqn:F; [|contradiction]
        end.
        subst c'. destruct (to_float_range _ _ F) as [[x C] | C]; rewrite C in *.
        - exists x. split; [reflexivity|]. cbn [faithful_cell] in W.
          apply andb_true_iff in W. apply W.
        - exfalso. cbn in F. destruct blank; discriminate F. }
      assert (Dt : written_type (map (rget Cost) rows) = Pd.DFloat \/ rows = []).
      { destruct rows as [|r0 rows0] eqn:Rw; [right; reflexivity|]. left.
        unfold written_type. rewrite map_map. apply infer_float_column; [discriminate|].
        intros s Hs. apply in_map_iff in Hs. destruct Hs as (r & <- & Hr).
        destruct (Fl r Hr) as (x & E & Cx). cbn [rget]. rewrite E. cbn [Pd.csv_text].
        rewrite (repr_not_na_any x Cx), (parse_int_repr_any x Cx), (parse_float_repr_any x Cx).
        repeat split. discriminate. }
      apply andb_true_iff. split.
      * apply forallb_forall. intros c Hc. apply in_map_iff in Hc.
        destruct Hc as (r & <- & Hr). destruct Dt as [-> | ->]; [|destruct Hr].
        destruct (Fl r Hr) as (x & E & Cx). pose proof (Wf r Cost Hr) as W.
        cbn [rget] in *. rewrite E in *. exact W.
      * apply orb_true_iff. left. apply forallb_forall. intros c Hc.
        apply in_map_iff in Hc. destruct Hc as (r & <- & Hr).
        destruct (Fl r Hr) as (x & E & _). cbn [rget]. rewrite E. reflexivity.
    + (* the cast raises: the column is left as it was read *)
      assert (E : forall r, In r rows -> rget Cost (reloaded blank rows r) = rget Cost r).
      { intros r Hr. apply (f_equal (rget Cost)), (map_fixed _ _ H r Hr). }
      rewrite (Generic Cost eq_refl E). cbn [andb].
      apply orb_true_iff. right. unfold cast_fails.
      apply traverse_fails. unfold rows1 in T. rewrite map_map in T.
      rewrite <- T. f_equal. apply map_ext_in. intros r Hr. symmetry. apply (E r Hr).
Qed.

(** X22: the storable frames are all the frames that can be stored.  On a
    store with no file yet and a working disk, a frame whose floats are
    floats [read_csv] reads exactly, whose integers are [int64] and whose
    dates are real days a Timestamp can hold comes back from a save and a
    load as it was if and only if it is storable. *)
Theorem round_trip_exactly_when_storable (w : world) (rows : list (row cell)) :
  disk_fault w = None -> assets_file w = CsvMissing -> assets_cache w = None ->
  faithful rows = true ->
  fst (load_assets (snd (save_assets (Table rows) w))) = Ok (Table rows)
  <-> storable (blank_nat w) rows = true.
Proof.
  intros Hd Hf Hc Hx. split.
  - rewrite save_assets_unfold, Hd.
    destruct (forallb dates_ok rows) eqn:D.
    + cbn [snd]. erewrite load_assets_reads; [|reflexivity|reflexivity].
      cbn [fst blank_nat with_log with_assets_cache with_hash_cache with_assets_file].
      intros H. injection H as H. apply storable_is_necessary; assumption.
    + cbn [snd]. rewrite load_assets_cases.
      change (assets_cache (with_log ?l (with_screen ?m w))) with (assets_cache w).
      change (assets_file (with_log ?l (with_screen ?m w))) with (assets_file w).
      rewrite Hc, Hf. intros H. discriminate H.
  - intros Hs. rewrite save_assets_unfold, (storable_dates_ok _ rows Hs), Hd.
    cbn [snd]. erewrite load_assets_reads; [|reflexivity|reflexivity].
    cbn [fst blank_nat with_log with_assets_cache with_hash_cache with_assets_file].
    rewrite (normalize_read_stored _ rows Hs). reflexivity.
Qed.

Lemma round_trip_exactly_when_storable_witness :
  disk_fault new_store = None /\ assets_file new_store = CsvMissing /\
  assets_cache new_store = None /\ faithful numbered_serial = true /\
  (fst (load_assets (snd (save_assets (Table numbered_serial) new_store)))
   = Ok (Table numbered_serial)
   <-> storable (blank_nat new_store) numbered_serial = true).
Proof.
  split; [reflexivity|]. split; [reflexivity|]. split; [reflexivity|].
  split; [vm_compute; reflexivity|].
  apply (round_trip_exactly_when_storable new_store numbered_serial);
    [reflexivity | reflexivity | reflexivity | vm_compute; reflexivity].
Defined.
